(** * Surface Serial Hub transport (surfacegen5_acpi_notify_ssh.c)

    A shallow embedding of the SSH transport of the Surface aggregator
    module: request-id classification, the frame encoder, the receiver
    reassembler, the event dispatcher and the request engine.

    Conventions.  Bytes ([u8]) and 16-bit values ([u16]) are integers of [Z]
    with the wrap-around written out ([mod 256], [mod 65536]).  Sizes and
    offsets into buffers are [nat].  A C buffer is a [list Z]; reading
    [buf[i]] is [rd buf i].  Stateful code passes its state explicitly and
    returns, next to the C return value, the list of externally visible
    effects it performed (work queued, handlers called, bytes written to the
    serial device, messages logged).

    Three constants come from the header surfacegen5_acpi_ssh.h:
    SURFACEGEN5_RQID_EVENT_BITS, SURFACEGEN5_MAX_RQST_PAYLOAD and
    SURFACEGEN5_EVENT_IMMEDIATE.  They are parameters of the development. *)

From Stdlib Require Import ZArith List Lia Bool Arith.
Import ListNotations.

Open Scope Z_scope.

(** ** Machine integers *)

Definition u8 (x : Z) : Z := x mod 256.
Definition u16 (x : Z) : Z := x mod 65536.

Definition is_u8 (x : Z) : Prop := 0 <= x < 256.
Definition is_u16 (x : Z) : Prop := 0 <= x < 65536.

(** [buf[i]]; a read past the end of the modelled memory yields 0. *)
Definition rd (buf : list Z) (i : nat) : Z := nth i buf 0.

(** ** Sizes and offsets of the wire format *)

Definition SG5_BYTELEN_SYNC : nat := 2.
Definition SG5_BYTELEN_TERM : nat := 2.
Definition SG5_BYTELEN_CRC : nat := 2.
Definition SG5_BYTELEN_CTRL : nat := 4.
Definition SG5_BYTELEN_CMDFRAME : nat := 8.

Definition SG5_MSG_LEN_CTRL : nat :=
  SG5_BYTELEN_SYNC + SG5_BYTELEN_CTRL + SG5_BYTELEN_CRC + SG5_BYTELEN_TERM.

Definition SG5_MSG_LEN_CMD_BASE : nat :=
  SG5_BYTELEN_SYNC + SG5_BYTELEN_CTRL + SG5_BYTELEN_CRC + SG5_BYTELEN_CRC.

Definition SG5_NUM_RETRY : nat := 3.
Definition SG5_READ_BUF_LEN : nat := 512.

Definition SG5_FRAME_TYPE_CMD : Z := 0x80.
Definition SG5_FRAME_TYPE_ACK : Z := 0x40.
Definition SG5_FRAME_TYPE_RETRY : Z := 0x04.

Definition SG5_FRAME_OFFS_CTRL : nat := SG5_BYTELEN_SYNC.
Definition SG5_FRAME_OFFS_CTRL_CRC : nat := SG5_FRAME_OFFS_CTRL + SG5_BYTELEN_CTRL.
Definition SG5_FRAME_OFFS_TERM : nat := SG5_FRAME_OFFS_CTRL_CRC + SG5_BYTELEN_CRC.
Definition SG5_FRAME_OFFS_CMD : nat := SG5_FRAME_OFFS_TERM.
Definition SG5_FRAME_OFFS_CMD_PLD : nat := SG5_FRAME_OFFS_CMD + SG5_BYTELEN_CMDFRAME.

Definition ENXIO : Z := 6.
Definition EPERM : Z := 1.
Definition EIO : Z := 5.
Definition EINVAL : Z := 22.

(** ** CRC

    [crc_ccitt_false] is the kernel's lib/crc-ccitt.c routine: CRC-16 with
    polynomial 0x1021, most significant bit first, no reflection and no
    final xor.  The kernel uses a byte table; the table entry is the result
    of the eight shift steps below. *)

Definition crc_shift (crc : Z) : Z :=
  if Z.testbit crc 15
  then Z.lxor (u16 (Z.shiftl crc 1)) 0x1021
  else u16 (Z.shiftl crc 1).

Definition crc_ccitt_false_byte (crc c : Z) : Z :=
  Nat.iter 8 crc_shift (Z.lxor crc (Z.shiftl c 8)).

Definition crc_ccitt_false (crc : Z) (buf : list Z) : Z :=
  fold_left crc_ccitt_false_byte buf crc.

Definition surfacegen5_ssh_crc (buf : list Z) : Z :=
  crc_ccitt_false 0xffff buf.

(** ** Request ids *)

Section Rqid.

(** SURFACEGEN5_RQID_EVENT_BITS *)
Variable EVENT_BITS : Z.

Definition rqid_event_mask : Z := u16 (Z.shiftl 1 EVENT_BITS - 1).

Definition surfacegen5_rqid_to_rqst (rqid : Z) : Z :=
  u16 (Z.shiftl rqid EVENT_BITS).

Definition surfacegen5_rqid_is_event (rqid : Z) : bool :=
  negb (rqid =? 0) && (Z.lor rqid rqid_event_mask =? rqid_event_mask).

(** SG5_NUM_EVENT_TYPES *)
Definition SG5_NUM_EVENT_TYPES : Z := Z.shiftl 1 EVENT_BITS - 1.

End Rqid.

(** The classification as the specification words it: non-zero and the low
    [N] bits all set. *)
Definition spec_rqid_is_event (N rqid : Z) : Prop :=
  rqid <> 0 /\ Z.land rqid (Z.shiftl 1 N - 1) = Z.shiftl 1 N - 1.

(** ** Data model *)

(** Modelled from the spec: struct surfacegen5_rqst, declared in the header
    surfacegen5_acpi_ssh.h, which is not among the sources; the fields are
    those the driver reads.  [snc] is the "response expected" byte, [cdl]
    the payload length, [pld] the payload memory ([cdl] bytes are used). *)
Record surfacegen5_rqst := mk_rqst {
  rq_tc : Z;
  rq_iid : Z;
  rq_cid : Z;
  rq_snc : Z;
  rq_cdl : Z;
  rq_pld : list Z
}.

(** Modelled from the spec: struct surfacegen5_buf of the same header, the
    caller's response buffer (capacity, filled length, data). *)
Record surfacegen5_buf := mk_buf {
  b_cap : nat;
  b_len : nat;
  b_data : list Z
}.

Inductive surfacegen5_ec_state :=
| SG5_EC_UNINITIALIZED
| SG5_EC_INITIALIZED
| SG5_EC_SUSPENDED.

Record surfacegen5_ec_counters := mk_counters {
  cnt_seq : Z;
  cnt_rqid : Z
}.

(** The writer: [w_data] is the write buffer, [w_ptr] the offset of the
    write pointer into it. *)
Record surfacegen5_ec_writer := mk_writer {
  w_data : list Z;
  w_ptr : nat
}.

Inductive surfacegen5_ec_receiver_state :=
| SG5_RCV_DISCARD
| SG5_RCV_CONTROL
| SG5_RCV_COMMAND.

Record surfacegen5_expect := mk_expect {
  ex_pld : bool;
  ex_seq : Z;
  ex_rqid : Z
}.

(** The evaluation buffer: [eb_mem] is the allocation ([eb_cap] bytes), of
    which the first [eb_len] bytes are valid; what follows them is stale. *)
Record surfacegen5_eval_buf := mk_eval_buf {
  eb_cap : nat;
  eb_len : nat;
  eb_mem : list Z
}.

(** The receiver.  [rcv_signal] is the [done] count of the completion,
    [rcv_fifo] the bytes held by the kfifo, oldest first. *)
Record surfacegen5_ec_receiver := mk_receiver {
  rcv_state : surfacegen5_ec_receiver_state;
  rcv_signal : nat;
  rcv_fifo : list Z;
  rcv_expect : surfacegen5_expect;
  rcv_eval_buf : surfacegen5_eval_buf
}.

Record surfacegen5_fifo_packet := mk_packet {
  p_type : Z;
  p_seq : Z;
  p_len : Z
}.

(** Modelled from the spec: struct surfacegen5_event of the same header; the
    fields are those the dispatcher fills in. *)
Record surfacegen5_event := mk_event {
  ev_rqid : Z;
  ev_tc : Z;
  ev_iid : Z;
  ev_cid : Z;
  ev_len : Z;
  ev_pld : list Z
}.

(** A slot of the handler table.  The function types come from the header:
    a handler returns a status, a delay function a number of jiffies; the
    opaque [data] pointer is part of the closures. *)
Record surfacegen5_ec_event_handler := mk_handler {
  h_handler : option (surfacegen5_event -> Z);
  h_delay : option (surfacegen5_event -> Z)
}.

Record surfacegen5_ec := mk_ec {
  ec_lock : bool;
  ec_state : surfacegen5_ec_state;
  ec_counter : surfacegen5_ec_counters;
  ec_writer : surfacegen5_ec_writer;
  ec_receiver : surfacegen5_ec_receiver;
  ec_events : list surfacegen5_ec_event_handler
}.

(** What the driver prints. *)
Inductive log_msg :=
| LogInvalidSyn
| LogInvalidTer
| LogInvalidCrcCtrl
| LogCtrlNotExpected
| LogAckNoMatch
| LogValidCtrl
| LogFifoFull
| LogInvalidCrcCmdCtrl
| LogCmdFrameType
| LogInvalidCrcCmdPld
| LogCmdNotExpected
| LogCmdNoMatch
| LogValidCmd
| LogUnknownFrameType
| LogAllocFailed
| LogUnhandledEvent
| LogHandlerError
| LogAckSendFailed
| LogPayloadTooLarge
| LogGivingUp
| LogTimedOut
| LogUninitialized
| LogSuspended.

(** Externally visible effects, in program order. *)
Inductive effect :=
| Log (m : log_msg)
| QueueWorkAck (seq : Z) (ev : surfacegen5_event)
| QueueDelayedWorkEvt (ev : surfacegen5_event) (delay : Z)
| HandlerCall (ev : surfacegen5_event)
| SerdevWrite (bytes : list Z).

(** The receive path with what it consumes from its environment: the
    outcomes of the coming [kzalloc] calls ([true]: memory was available;
    an exhausted list means success). *)
Record rx_state := mk_rx {
  rx_rcv : surfacegen5_ec_receiver;
  rx_kzalloc : list bool
}.

(** The environment of the request engine: the statuses of the coming
    [serdev_device_write] calls (exhausted: 0), and for each coming wait on
    the completion the chunks that the link hands to the receive callback
    before that wait ends. *)
Record world := mk_world {
  wd_kzalloc : list bool;
  wd_write : list Z;
  wd_inbound : list (list (list Z))
}.

(** ** Memory and fifo primitives *)

(** [memcpy (mem + off, bs, length bs)] *)
Definition store (mem : list Z) (off : nat) (bs : list Z) : list Z :=
  firstn off mem ++ bs ++ skipn (off + length bs) mem.

(** The [n] bytes at [mem + off]. *)
Definition region (mem : list Z) (off n : nat) : list Z :=
  firstn n (skipn off mem).

Definition kfifo_avail (fifo : list Z) : nat := SG5_READ_BUF_LEN - length fifo.

Definition kfifo_in (fifo : list Z) (bs : list Z) : list Z :=
  fifo ++ firstn (kfifo_avail fifo) bs.

Definition kfifo_out (fifo : list Z) (n : nat) : list Z * list Z :=
  (firstn n fifo, skipn n fifo).

Definition packet_bytes (p : surfacegen5_fifo_packet) : list Z :=
  [p_type p; p_seq p; p_len p].

(** Reading a packet out of the fifo overwrites as many leading bytes of
    the struct as the fifo delivered. *)
Definition packet_load (old : surfacegen5_fifo_packet) (bs : list Z)
  : surfacegen5_fifo_packet :=
  mk_packet (nth 0 bs (p_type old)) (nth 1 bs (p_seq old)) (nth 2 bs (p_len old)).

(** ** Frame encoder *)

Definition surfacegen5_ssh_write_u16 (w : surfacegen5_ec_writer) (v : Z)
  : surfacegen5_ec_writer :=
  mk_writer (store (w_data w) (w_ptr w) [Z.land v 0xff; Z.shiftr v 8])
            (w_ptr w + 2).

(** The checksum covers the bytes of the write buffer from [begin] up to
    the write pointer. *)
Definition surfacegen5_ssh_write_crc (w : surfacegen5_ec_writer) (begin : nat)
  : surfacegen5_ec_writer :=
  surfacegen5_ssh_write_u16 w
    (surfacegen5_ssh_crc (region (w_data w) begin (w_ptr w - begin))).

Definition surfacegen5_ssh_write_syn (w : surfacegen5_ec_writer)
  : surfacegen5_ec_writer :=
  mk_writer (store (w_data w) (w_ptr w) [0xaa; 0x55]) (w_ptr w + 2).

Definition surfacegen5_ssh_write_ter (w : surfacegen5_ec_writer)
  : surfacegen5_ec_writer :=
  mk_writer (store (w_data w) (w_ptr w) [0xff; 0xff]) (w_ptr w + 2).

Definition surfacegen5_ssh_write_buf (w : surfacegen5_ec_writer)
  (src : list Z) (len : nat) : surfacegen5_ec_writer :=
  mk_writer (store (w_data w) (w_ptr w) (firstn len src)) (w_ptr w + len).

Definition surfacegen5_ssh_write_ack (w : surfacegen5_ec_writer) (seq : Z)
  : surfacegen5_ec_writer :=
  let begin := w_ptr w in
  let w1 := mk_writer
              (store (w_data w) (w_ptr w) [SG5_FRAME_TYPE_ACK; 0x00; 0x00; seq])
              (w_ptr w + SG5_BYTELEN_CTRL) in
  surfacegen5_ssh_write_crc w1 begin.

Definition surfacegen5_ssh_writer_reset (w : surfacegen5_ec_writer)
  : surfacegen5_ec_writer :=
  mk_writer (w_data w) 0.

(** The bytes a flush hands to the serial device. *)
Definition writer_bytes (w : surfacegen5_ec_writer) : list Z :=
  firstn (w_ptr w) (w_data w).

(** ** Frame fields

    [buf] points at the SYN of a message; the control frame sits at
    SG5_FRAME_OFFS_CTRL and the command frame at SG5_FRAME_OFFS_CMD. *)

Definition ctrl_type (buf : list Z) : Z := rd buf (SG5_FRAME_OFFS_CTRL + 0).
Definition ctrl_len (buf : list Z) : Z := rd buf (SG5_FRAME_OFFS_CTRL + 1).
Definition ctrl_seq (buf : list Z) : Z := rd buf (SG5_FRAME_OFFS_CTRL + 3).

Definition cmd_type (buf : list Z) : Z := rd buf (SG5_FRAME_OFFS_CMD + 0).
Definition cmd_tc (buf : list Z) : Z := rd buf (SG5_FRAME_OFFS_CMD + 1).
Definition cmd_iid (buf : list Z) : Z := rd buf (SG5_FRAME_OFFS_CMD + 4).
Definition cmd_rqid_lo (buf : list Z) : Z := rd buf (SG5_FRAME_OFFS_CMD + 5).
Definition cmd_rqid_hi (buf : list Z) : Z := rd buf (SG5_FRAME_OFFS_CMD + 6).
Definition cmd_cid (buf : list Z) : Z := rd buf (SG5_FRAME_OFFS_CMD + 7).

(** [(cmd->rqid_hi << 8) | cmd->rqid_lo] *)
Definition cmd_rqid (buf : list Z) : Z :=
  Z.lor (Z.shiftl (cmd_rqid_hi buf) 8) (cmd_rqid_lo buf).

(** ** Validation predicates *)

Definition surfacegen5_ssh_is_valid_syn (buf : list Z) : bool :=
  (rd buf 0 =? 0xaa) && (rd buf 1 =? 0x55).

Definition surfacegen5_ssh_is_valid_ter (buf : list Z) (at_ : nat) : bool :=
  (rd buf at_ =? 0xff) && (rd buf (at_ + 1) =? 0xff).

(** [begin] and [end_] are offsets into [buf]; the checksum is read at
    [end_]. *)
Definition surfacegen5_ssh_is_valid_crc (buf : list Z) (begin end_ : nat) : bool :=
  let crc := surfacegen5_ssh_crc (region buf begin (end_ - begin)) in
  (rd buf end_ =? Z.land crc 0xff) && (rd buf (end_ + 1) =? Z.shiftr crc 8).

(** ** Event dispatch *)

Definition no_handler : surfacegen5_ec_event_handler := mk_handler None None.

(** [ec->events.handler[rqid - 1]] *)
Definition handler_slot (tbl : list surfacegen5_ec_event_handler) (rqid : Z)
  : surfacegen5_ec_event_handler :=
  nth (Z.to_nat (rqid - 1)) tbl no_handler.

Definition kzalloc (rx : rx_state) : bool * rx_state :=
  match rx_kzalloc rx with
  | [] => (true, rx)
  | ok :: rest => (ok, mk_rx (rx_rcv rx) rest)
  end.

(** The ten bytes of an ACK message. *)
Definition ack_message (seq : Z) : list Z :=
  let crc := surfacegen5_ssh_crc [0x40; 0x00; 0x00; seq] in
  [0xaa; 0x55; 0x40; 0x00; 0x00; seq; Z.land crc 0xff; Z.shiftr crc 8; 0xff; 0xff].

(** [surfacegen5_ssh_send_ack]; [status] is what [serdev_device_write]
    returns. *)
Definition surfacegen5_ssh_send_ack (seq : Z) (status : Z) : Z * list effect :=
  (status, [SerdevWrite (ack_message seq)]).

(** The ACK work item, run by the ACK queue. *)
Definition surfacegen5_event_work_ack_handler
  (state : surfacegen5_ec_state) (seq : Z) (status : Z) : list effect :=
  match state with
  | SG5_EC_INITIALIZED =>
      let '(st, eff) := surfacegen5_ssh_send_ack seq status in
      eff ++ (if st =? 0 then [] else [Log LogAckSendFailed])
  | _ => []
  end.

(** The handler work item, run inline or by the event queue. *)
Definition surfacegen5_event_work_evt_handler
  (tbl : list surfacegen5_ec_event_handler) (ev : surfacegen5_event)
  : list effect :=
  match h_handler (handler_slot tbl (ev_rqid ev)) with
  | Some handler =>
      HandlerCall ev :: (if handler ev =? 0 then [] else [Log LogHandlerError])
  | None => [Log LogUnhandledEvent]
  end.

Section Transport.

(** SURFACEGEN5_RQID_EVENT_BITS, SURFACEGEN5_MAX_RQST_PAYLOAD and
    SURFACEGEN5_EVENT_IMMEDIATE of surfacegen5_acpi_ssh.h. *)
Variable EVENT_BITS : Z.
Variable MAX_RQST_PAYLOAD : Z.
Variable EVENT_IMMEDIATE : Z.

(** The handler table is read, never written, on the receive path. *)
Variable tbl : list surfacegen5_ec_event_handler.

Definition SG5_MAX_WRITE : nat :=
  SG5_BYTELEN_SYNC + SG5_BYTELEN_CTRL + SG5_BYTELEN_CRC
  + SG5_BYTELEN_CMDFRAME + Z.to_nat MAX_RQST_PAYLOAD + SG5_BYTELEN_CRC.

Definition surfacegen5_ssh_handle_event (rx : rx_state) (buf : list Z)
  : rx_state * list effect :=
  let pld_len := u16 (ctrl_len buf - Z.of_nat SG5_BYTELEN_CMDFRAME) in
  match kzalloc rx with
  | (false, rx1) => (rx1, [Log LogAllocFailed])
  | (true, rx1) =>
      let ev := mk_event (cmd_rqid buf) (cmd_tc buf) (cmd_iid buf) (cmd_cid buf)
                  pld_len
                  (region buf SG5_FRAME_OFFS_CMD_PLD (Z.to_nat pld_len)) in
      let slot := handler_slot tbl (ev_rqid ev) in
      let delay := match h_delay slot with
                   | Some delay_fn => delay_fn ev
                   | None => 0
                   end in
      (rx1,
       QueueWorkAck (ctrl_seq buf) ev ::
       (if delay =? EVENT_IMMEDIATE
        then surfacegen5_event_work_evt_handler tbl ev
        else [QueueDelayedWorkEvt ev delay]))
  end.

(** ** Receiver *)

Definition set_rcv (rx : rx_state) (r : surfacegen5_ec_receiver) : rx_state :=
  mk_rx r (rx_kzalloc rx).

Definition set_eval_buf (rx : rx_state) (eb : surfacegen5_eval_buf) : rx_state :=
  let rcv := rx_rcv rx in
  set_rcv rx (mk_receiver (rcv_state rcv) (rcv_signal rcv) (rcv_fifo rcv)
                          (rcv_expect rcv) eb).

Definition surfacegen5_ssh_receive_msg_ctrl
  (rx : rx_state) (buf : list Z) (size : nat) : nat * rx_state * list effect :=
  let rcv := rx_rcv rx in
  if (size <? SG5_MSG_LEN_CTRL)%nat then (0%nat, rx, [])
  else if negb (surfacegen5_ssh_is_valid_ter buf SG5_FRAME_OFFS_TERM)
  then (size, rx, [Log LogInvalidTer])
  else if negb (surfacegen5_ssh_is_valid_crc buf SG5_FRAME_OFFS_CTRL
                                             SG5_FRAME_OFFS_CTRL_CRC)
  then (SG5_MSG_LEN_CTRL, rx, [Log LogInvalidCrcCtrl])
  else match rcv_state rcv with
  | SG5_RCV_CONTROL =>
      if (ctrl_type buf =? SG5_FRAME_TYPE_ACK)
         && negb (ctrl_seq buf =? ex_seq (rcv_expect rcv))
      then (SG5_MSG_LEN_CTRL, rx, [Log LogAckNoMatch])
      else
        let packet := mk_packet (ctrl_type buf) (ctrl_seq buf) 0 in
        if (3 <=? kfifo_avail (rcv_fifo rcv))%nat
        then
          let fifo := kfifo_in (rcv_fifo rcv) (packet_bytes packet) in
          let state := if ctrl_type buf =? SG5_FRAME_TYPE_ACK
                       then if ex_pld (rcv_expect rcv)
                            then SG5_RCV_COMMAND else SG5_RCV_DISCARD
                       else rcv_state rcv in
          (SG5_MSG_LEN_CTRL,
           set_rcv rx (mk_receiver state (S (rcv_signal rcv)) fifo
                                   (rcv_expect rcv) (rcv_eval_buf rcv)),
           [Log LogValidCtrl])
        else (SG5_MSG_LEN_CTRL, rx, [Log LogValidCtrl; Log LogFifoFull])
  | _ => (SG5_MSG_LEN_CTRL, rx, [Log LogCtrlNotExpected])
  end.

Definition surfacegen5_ssh_receive_msg_cmd
  (rx : rx_state) (buf : list Z) (size : nat) : nat * rx_state * list effect :=
  let rcv := rx_rcv rx in
  if (size <? SG5_BYTELEN_SYNC + SG5_BYTELEN_CTRL + SG5_BYTELEN_CRC)%nat
  then (0%nat, rx, [])
  else if negb (surfacegen5_ssh_is_valid_crc buf SG5_FRAME_OFFS_CTRL
                                             SG5_FRAME_OFFS_CTRL_CRC)
  then (size, rx, [Log LogInvalidCrcCmdCtrl])
  else
    let msg_len := (SG5_MSG_LEN_CMD_BASE + Z.to_nat (ctrl_len buf))%nat in
    if (size <? msg_len)%nat then (0%nat, rx, [])
    else
      let cmd_end := (SG5_FRAME_OFFS_CMD + Z.to_nat (ctrl_len buf))%nat in
      if negb (cmd_type buf =? SG5_FRAME_TYPE_CMD)
      then (size, rx, [Log LogCmdFrameType])
      else if negb (surfacegen5_ssh_is_valid_crc buf SG5_FRAME_OFFS_CMD cmd_end)
      then (msg_len, rx, [Log LogInvalidCrcCmdPld])
      else if surfacegen5_rqid_is_event EVENT_BITS (cmd_rqid buf)
      then
        let '(rx1, eff) := surfacegen5_ssh_handle_event rx buf in
        (msg_len, rx1, eff)
      else match rcv_state rcv with
      | SG5_RCV_COMMAND =>
          if negb (ex_rqid (rcv_expect rcv) =? cmd_rqid buf)
          then (msg_len, rx, [Log LogCmdNoMatch])
          else
            let packet :=
              mk_packet (ctrl_type buf) (ctrl_seq buf)
                        (u8 (ctrl_len buf - Z.of_nat SG5_BYTELEN_CMDFRAME)) in
            if (3 + Z.to_nat (p_len packet) <=? kfifo_avail (rcv_fifo rcv))%nat
            then
              let fifo1 := kfifo_in (rcv_fifo rcv) (packet_bytes packet) in
              let fifo2 := kfifo_in fifo1
                             (region buf SG5_FRAME_OFFS_CMD_PLD
                                     (Z.to_nat (p_len packet))) in
              (msg_len,
               set_rcv rx (mk_receiver SG5_RCV_DISCARD (S (rcv_signal rcv)) fifo2
                                       (rcv_expect rcv) (rcv_eval_buf rcv)),
               [Log LogValidCmd])
            else (SG5_MSG_LEN_CTRL, rx, [Log LogValidCmd; Log LogFifoFull])
      | _ => (msg_len, rx, [Log LogCmdNotExpected])
      end.

Definition surfacegen5_ssh_eval_buf
  (rx : rx_state) (buf : list Z) (size : nat) : nat * rx_state * list effect :=
  if (size <? SG5_BYTELEN_SYNC + SG5_BYTELEN_CTRL)%nat then (0%nat, rx, [])
  else if negb (surfacegen5_ssh_is_valid_syn buf)
  then (size, rx, [Log LogInvalidSyn])
  else if (ctrl_type buf =? SG5_FRAME_TYPE_ACK)
          || (ctrl_type buf =? SG5_FRAME_TYPE_RETRY)
  then surfacegen5_ssh_receive_msg_ctrl rx buf size
  else if ctrl_type buf =? SG5_FRAME_TYPE_CMD
  then surfacegen5_ssh_receive_msg_cmd rx buf size
  else (size, rx, [Log LogUnknownFrameType]).

(** The evaluation loop of [surfacegen5_ssh_receive_buf]:
    [while (offs < len) { n = eval (ptr + offs, len - offs);
                          if (n <= 0) break; offs += n; }].
    Every turn that does not leave the loop advances [offs], so [len]
    turns are enough; [fuel] counts them. *)
Fixpoint eval_loop (fuel : nat) (mem : list Z) (len : nat)
  (rx : rx_state) (offs : nat) : rx_state * nat * list effect :=
  match fuel with
  | O => (rx, offs, [])
  | S fuel' =>
      if (offs <? len)%nat
      then
        let '(n, rx1, eff) :=
          surfacegen5_ssh_eval_buf rx (skipn offs mem) (len - offs) in
        if (n =? 0)%nat then (rx1, offs, eff)
        else
          let '(rx2, offs2, eff2) := eval_loop fuel' mem len rx1 (offs + n) in
          (rx2, offs2, eff ++ eff2)
      else (rx, offs, [])
  end.

Definition surfacegen5_ssh_receive_buf (rx : rx_state) (chunk : list Z)
  : nat * rx_state * list effect :=
  let eb := rcv_eval_buf (rx_rcv rx) in
  let used := Nat.min (length chunk) (eb_cap eb - eb_len eb) in
  let mem1 := store (eb_mem eb) (eb_len eb) (firstn used chunk) in
  let len1 := (eb_len eb + used)%nat in
  let rx0 := set_eval_buf rx (mk_eval_buf (eb_cap eb) len1 mem1) in
  let '(rx1, offs, eff) := eval_loop len1 mem1 len1 rx0 0 in
  let len2 := (len1 - offs)%nat in
  let mem2 := store mem1 0 (region mem1 offs len2) in
  (used, set_eval_buf rx1 (mk_eval_buf (eb_cap eb) len2 mem2), eff).

(** Successive calls of the receive callback. *)
Fixpoint receive_chunks (rx : rx_state) (chunks : list (list Z))
  : rx_state * list effect :=
  match chunks with
  | [] => (rx, [])
  | c :: cs =>
      let '(_, rx1, eff1) := surfacegen5_ssh_receive_buf rx c in
      let '(rx2, eff2) := receive_chunks rx1 cs in
      (rx2, eff1 ++ eff2)
  end.

End Transport.

(** ** Request engine *)

(** How the send-and-wait-for-ACK loop was left: by [break] on an ACK, by
    [goto ec_rqst_out] on a failed flush, or with [try >= SG5_NUM_RETRY]. *)
Inductive ack_exit :=
| AckReceived
| FlushFailed (status : Z)
| RetriesExhausted.

Section Engine.

Variable EVENT_BITS : Z.
Variable MAX_RQST_PAYLOAD : Z.
Variable EVENT_IMMEDIATE : Z.

Definition set_writer (ec : surfacegen5_ec) (w : surfacegen5_ec_writer)
  : surfacegen5_ec :=
  mk_ec (ec_lock ec) (ec_state ec) (ec_counter ec) w (ec_receiver ec)
        (ec_events ec).

Definition set_receiver (ec : surfacegen5_ec) (r : surfacegen5_ec_receiver)
  : surfacegen5_ec :=
  mk_ec (ec_lock ec) (ec_state ec) (ec_counter ec) (ec_writer ec) r
        (ec_events ec).

Definition set_counter (ec : surfacegen5_ec) (c : surfacegen5_ec_counters)
  : surfacegen5_ec :=
  mk_ec (ec_lock ec) (ec_state ec) c (ec_writer ec) (ec_receiver ec)
        (ec_events ec).

Definition set_lock (ec : surfacegen5_ec) (l : bool) : surfacegen5_ec :=
  mk_ec l (ec_state ec) (ec_counter ec) (ec_writer ec) (ec_receiver ec)
        (ec_events ec).

Definition surfacegen5_ssh_write_hdr (w : surfacegen5_ec_writer)
  (rqst : surfacegen5_rqst) (ec : surfacegen5_ec) : surfacegen5_ec_writer :=
  let begin := w_ptr w in
  let w1 := mk_writer
              (store (w_data w) (w_ptr w)
                     [SG5_FRAME_TYPE_CMD;
                      u8 (Z.of_nat SG5_BYTELEN_CMDFRAME + rq_cdl rqst);
                      0x00;
                      cnt_seq (ec_counter ec)])
              (w_ptr w + SG5_BYTELEN_CTRL) in
  surfacegen5_ssh_write_crc w1 begin.

Definition surfacegen5_ssh_write_cmd (w : surfacegen5_ec_writer)
  (rqst : surfacegen5_rqst) (ec : surfacegen5_ec) : surfacegen5_ec_writer :=
  let begin := w_ptr w in
  let rqid := surfacegen5_rqid_to_rqst EVENT_BITS (cnt_rqid (ec_counter ec)) in
  let rqid_lo := Z.land rqid 0xFF in
  let rqid_hi := u8 (Z.shiftr rqid 8) in
  let w1 := mk_writer
              (store (w_data w) (w_ptr w)
                     [SG5_FRAME_TYPE_CMD; rq_tc rqst; 0x01; 0x00; rq_iid rqst;
                      rqid_lo; rqid_hi; rq_cid rqst])
              (w_ptr w + SG5_BYTELEN_CMDFRAME) in
  let w2 := surfacegen5_ssh_write_buf w1 (rq_pld rqst) (Z.to_nat (rq_cdl rqst)) in
  surfacegen5_ssh_write_crc w2 begin.

Definition surfacegen5_ssh_write_msg_cmd (ec : surfacegen5_ec)
  (rqst : surfacegen5_rqst) : surfacegen5_ec :=
  let w0 := surfacegen5_ssh_writer_reset (ec_writer ec) in
  let w1 := surfacegen5_ssh_write_syn w0 in
  let w2 := surfacegen5_ssh_write_hdr w1 rqst ec in
  let w3 := surfacegen5_ssh_write_cmd w2 rqst ec in
  set_writer ec w3.

Definition surfacegen5_ssh_write_msg_ack (ec : surfacegen5_ec) (seq : Z)
  : surfacegen5_ec :=
  let w0 := surfacegen5_ssh_writer_reset (ec_writer ec) in
  let w1 := surfacegen5_ssh_write_syn w0 in
  let w2 := surfacegen5_ssh_write_ack w1 seq in
  let w3 := surfacegen5_ssh_write_ter w2 in
  set_writer ec w3.

(** [serdev_device_write]: the status comes from the environment. *)
Definition surfacegen5_ssh_writer_flush (ec : surfacegen5_ec) (wd : world)
  : Z * world * list effect :=
  let bytes := writer_bytes (ec_writer ec) in
  match wd_write wd with
  | [] => (0, wd, [SerdevWrite bytes])
  | status :: rest =>
      (status, mk_world (wd_kzalloc wd) rest (wd_inbound wd), [SerdevWrite bytes])
  end.

Definition surfacegen5_ssh_receiver_restart (ec : surfacegen5_ec)
  (rqst : surfacegen5_rqst) : surfacegen5_ec :=
  let rcv := ec_receiver ec in
  let eb := rcv_eval_buf rcv in
  set_receiver ec
    (mk_receiver SG5_RCV_CONTROL 0 (rcv_fifo rcv)
       (mk_expect (negb (rq_snc rqst =? 0))
                  (cnt_seq (ec_counter ec))
                  (surfacegen5_rqid_to_rqst EVENT_BITS (cnt_rqid (ec_counter ec))))
       (mk_eval_buf (eb_cap eb) 0 (eb_mem eb))).

Definition surfacegen5_ssh_receiver_discard (ec : surfacegen5_ec)
  : surfacegen5_ec :=
  let rcv := ec_receiver ec in
  let eb := rcv_eval_buf rcv in
  set_receiver ec
    (mk_receiver SG5_RCV_DISCARD (rcv_signal rcv) [] (rcv_expect rcv)
       (mk_eval_buf (eb_cap eb) 0 (eb_mem eb))).

(** [wait_for_completion_timeout]: while the caller sleeps, the link
    delivers the chunks the environment holds for this wait to the receive
    callback; the wait succeeds when the completion has been signalled. *)
Definition wait_for_completion_timeout (ec : surfacegen5_ec) (wd : world)
  : bool * surfacegen5_ec * world * list effect :=
  let chunks := hd [] (wd_inbound wd) in
  let '(rx, eff) :=
    receive_chunks EVENT_BITS EVENT_IMMEDIATE (ec_events ec)
                   (mk_rx (ec_receiver ec) (wd_kzalloc wd)) chunks in
  let wd1 := mk_world (rx_kzalloc rx) (wd_write wd) (tl (wd_inbound wd)) in
  let rcv := rx_rcv rx in
  match rcv_signal rcv with
  | O => (false, set_receiver ec rcv, wd1, eff)
  | S done =>
      (true,
       set_receiver ec (mk_receiver (rcv_state rcv) done (rcv_fifo rcv)
                                    (rcv_expect rcv) (rcv_eval_buf rcv)),
       wd1, eff)
  end.

(** [kfifo_out (&ec->receiver.fifo, dst, n)] *)
Definition fifo_take (ec : surfacegen5_ec) (n : nat) : list Z * surfacegen5_ec :=
  let rcv := ec_receiver ec in
  let '(bs, rest) := kfifo_out (rcv_fifo rcv) n in
  (bs, set_receiver ec (mk_receiver (rcv_state rcv) (rcv_signal rcv) rest
                                    (rcv_expect rcv) (rcv_eval_buf rcv))).

(** The loop [for (try = 0; try < SG5_NUM_RETRY; try++)]; [tries] is the
    number of turns left. *)
Fixpoint ack_loop (tries : nat) (packet : surfacegen5_fifo_packet)
  (ec : surfacegen5_ec) (wd : world)
  : ack_exit * surfacegen5_fifo_packet * surfacegen5_ec * world * list effect :=
  match tries with
  | O => (RetriesExhausted, packet, ec, wd, [])
  | S tries' =>
      let '(status, wd1, eff1) := surfacegen5_ssh_writer_flush ec wd in
      if negb (status =? 0)
      then (FlushFailed status, packet, ec, wd1, eff1)
      else
        let '(rem, ec1, wd2, eff2) := wait_for_completion_timeout ec wd1 in
        if rem
        then
          let '(bs, ec2) := fifo_take ec1 3 in
          let packet1 := packet_load packet bs in
          if p_type packet1 =? SG5_FRAME_TYPE_ACK
          then (AckReceived, packet1, ec2, wd2, eff1 ++ eff2)
          else
            let '(ex, p, ec3, wd3, eff3) := ack_loop tries' packet1 ec2 wd2 in
            (ex, p, ec3, wd3, eff1 ++ eff2 ++ eff3)
        else
          let '(ex, p, ec3, wd3, eff3) := ack_loop tries' packet ec1 wd2 in
          (ex, p, ec3, wd3, eff1 ++ eff2 ++ eff3)
  end.

(** The part of [surfacegen5_ec_rqst_unlocked] after the counters have
    been advanced: fetch the response, acknowledge it. *)
Definition rqst_response (ec : surfacegen5_ec) (rqst : surfacegen5_rqst)
  (result : option surfacegen5_buf) (packet : surfacegen5_fifo_packet)
  (wd : world)
  : Z * surfacegen5_ec * option surfacegen5_buf * world * list effect :=
  match result with
  | Some res =>
      if negb (rq_snc rqst =? 0)
      then
        let '(rem, ec1, wd1, eff1) := wait_for_completion_timeout ec wd in
        if rem
        then
          let '(bs, ec2) := fifo_take ec1 3 in
          let packet1 := packet_load packet bs in
          if Z.of_nat (b_cap res) <? p_len packet1
          then (- EINVAL, ec2, Some res, wd1, eff1)
          else
            let '(data, ec3) := fifo_take ec2 (Z.to_nat (p_len packet1)) in
            let res1 := mk_buf (b_cap res) (Z.to_nat (p_len packet1))
                               (store (b_data res) 0 data) in
            let ec4 := surfacegen5_ssh_write_msg_ack ec3 (p_seq packet1) in
            let '(status, wd2, eff2) := surfacegen5_ssh_writer_flush ec4 wd1 in
            (status, ec4, Some res1, wd2, eff1 ++ eff2)
        else (- EIO, ec1, Some res, wd1, eff1 ++ [Log LogTimedOut])
      else (0, ec, result, wd, [])
  | None => (0, ec, result, wd, [])
  end.

(** The first part of [surfacegen5_ec_rqst_unlocked]: encode the request,
    restart the receiver, send until acknowledged. *)
Definition rqst_send (ec : surfacegen5_ec) (rqst : surfacegen5_rqst) (wd : world)
  : ack_exit * surfacegen5_fifo_packet * surfacegen5_ec * world * list effect :=
  let ec1 := surfacegen5_ssh_write_msg_cmd ec rqst in
  let ec2 := surfacegen5_ssh_receiver_restart ec1 rqst in
  ack_loop SG5_NUM_RETRY (mk_packet 0 0 0) ec2 wd.

Definition surfacegen5_ec_rqst_unlocked (ec : surfacegen5_ec)
  (rqst : surfacegen5_rqst) (result : option surfacegen5_buf) (wd : world)
  : Z * surfacegen5_ec * option surfacegen5_buf * world * list effect :=
  if MAX_RQST_PAYLOAD <? rq_cdl rqst
  then (- EINVAL, ec, result, wd, [Log LogPayloadTooLarge])
  else
    let '(ex, packet, ec3, wd1, eff1) := rqst_send ec rqst wd in
    match ex with
    | FlushFailed status =>
        (status, surfacegen5_ssh_receiver_discard ec3, result, wd1, eff1)
    | RetriesExhausted =>
        (- EIO, surfacegen5_ssh_receiver_discard ec3, result, wd1,
         eff1 ++ [Log LogGivingUp])
    | AckReceived =>
        let ec4 := set_counter ec3
                     (mk_counters (u8 (cnt_seq (ec_counter ec3) + 1))
                                  (u16 (cnt_rqid (ec_counter ec3) + 1))) in
        let '(status, ec5, result1, wd2, eff2) :=
          rqst_response ec4 rqst result packet wd1 in
        (status, surfacegen5_ssh_receiver_discard ec5, result1, wd2,
         eff1 ++ eff2)
    end.

(** ** Controller facade *)

Definition surfacegen5_ec_acquire (ec : surfacegen5_ec) : surfacegen5_ec :=
  set_lock ec true.

Definition surfacegen5_ec_release (ec : surfacegen5_ec) : surfacegen5_ec :=
  set_lock ec false.

(** [None] is the NULL the C function returns after releasing the lock. *)
Definition surfacegen5_ec_acquire_init (ec : surfacegen5_ec)
  : option surfacegen5_ec * surfacegen5_ec :=
  let ec1 := surfacegen5_ec_acquire ec in
  match ec_state ec1 with
  | SG5_EC_UNINITIALIZED => (None, surfacegen5_ec_release ec1)
  | _ => (Some ec1, ec1)
  end.

Definition surfacegen5_ec_rqst (ec : surfacegen5_ec)
  (rqst : surfacegen5_rqst) (result : option surfacegen5_buf) (wd : world)
  : Z * surfacegen5_ec * option surfacegen5_buf * world * list effect :=
  match surfacegen5_ec_acquire_init ec with
  | (None, ec0) => (- ENXIO, ec0, result, wd, [Log LogUninitialized])
  | (Some ec1, _) =>
      match ec_state ec1 with
      | SG5_EC_SUSPENDED =>
          (- EPERM, surfacegen5_ec_release ec1, result, wd, [Log LogSuspended])
      | _ =>
          let '(status, ec2, result1, wd1, eff) :=
            surfacegen5_ec_rqst_unlocked ec1 rqst result wd in
          (status, surfacegen5_ec_release ec2, result1, wd1, eff)
      end
  end.

End Engine.

(** ** The request message as the wire format describes it

    SYN, the control frame with its checksum, the command frame, the
    payload, and the checksum of command frame and payload; 16-bit values
    low byte first. *)

Definition le16 (v : Z) : list Z := [Z.land v 0xff; Z.shiftr v 8].

Definition request_message (N seq rqid : Z) (rqst : surfacegen5_rqst) : list Z :=
  let ctrl := [0x80; 8 + rq_cdl rqst; 0x00; seq] in
  let id := u16 (Z.shiftl rqid N) in
  let cmd := [0x80; rq_tc rqst; 0x01; 0x00; rq_iid rqst;
              Z.land id 0xff; Z.shiftr id 8; rq_cid rqst] in
  let pld := firstn (Z.to_nat (rq_cdl rqst)) (rq_pld rqst) in
  [0xaa; 0x55] ++ ctrl ++ le16 (surfacegen5_ssh_crc ctrl)
  ++ cmd ++ pld ++ le16 (surfacegen5_ssh_crc (cmd ++ pld)).

(** ** Counting effects *)

Definition is_ack_work (e : effect) : bool :=
  match e with
  | QueueWorkAck _ _ => true
  | _ => false
  end.

Definition count_ack_work (eff : list effect) : nat :=
  length (filter is_ack_work eff).

(** ** Example states and messages

    A receiver with an empty evaluation buffer of 112 bytes (the size for
    a maximum payload of 94 bytes) and an empty fifo. *)

Definition example_receiver (state : surfacegen5_ec_receiver_state)
  (expect : surfacegen5_expect) : surfacegen5_ec_receiver :=
  mk_receiver state 0 [] expect (mk_eval_buf 112 0 (repeat 0 112)).

Definition example_rx (state : surfacegen5_ec_receiver_state)
  (expect : surfacegen5_expect) : rx_state :=
  mk_rx (example_receiver state expect) [].

(** A control message (ACK or RETRY) with a correct checksum. *)
Definition ctrl_message (type seq : Z) : list Z :=
  [0xaa; 0x55; type; 0x00; 0x00; seq]
  ++ le16 (surfacegen5_ssh_crc [type; 0x00; 0x00; seq]) ++ [0xff; 0xff].

(** A command message with correct checksums around the frame bytes
    [frame]; [len] is the length byte of its control frame. *)
Definition cmd_message (len seq : Z) (frame : list Z) : list Z :=
  [0xaa; 0x55; 0x80; len; 0x00; seq]
  ++ le16 (surfacegen5_ssh_crc [0x80; len; 0x00; seq])
  ++ frame ++ le16 (surfacegen5_ssh_crc frame).

(** SURFACEGEN5_EVENT_IMMEDIATE in the examples: [(unsigned long) -1]. *)
Definition example_immediate : Z := 18446744073709551615.

(** A response message (request id 0x0040) whose command checksum has been
    overwritten with zeroes. *)
Definition example_bad_cmd_crc : list Z :=
  [0xaa; 0x55; 0x80; 0x08; 0x00; 0x00; 0x59; 0xf0;
   0x80; 0x01; 0x00; 0x01; 0x00; 0x40; 0x00; 0x16; 0x00; 0x00].

(** The same with the type byte of the command frame cleared, and followed
    by the first two bytes of the next message. *)
Definition example_bad_cmd_type : list Z :=
  [0xaa; 0x55; 0x80; 0x08; 0x00; 0x00; 0x59; 0xf0;
   0x00; 0x01; 0x00; 0x01; 0x00; 0x40; 0x00; 0x16; 0x00; 0x00;
   0xaa; 0x55].

(** ** What the receiver hands to the request engine

    [enqueued rcv rcv' bs]: the receiver put the bytes [bs] into the fifo
    and raised the completion once. *)
Definition enqueued (rcv rcv' : surfacegen5_ec_receiver) (bs : list Z) : Prop :=
  rcv_fifo rcv' = rcv_fifo rcv ++ bs /\ rcv_signal rcv' = S (rcv_signal rcv).

(** A RETRY message as the peer sends it (sequence byte 0). *)
Definition example_retry : list Z := ctrl_message SG5_FRAME_TYPE_RETRY 0.

(** An event message: request id 0x0001, one payload byte. *)
Definition example_event : list Z :=
  cmd_message 9 0x05 [0x80; 0x08; 0x00; 0x00; 0x00; 0x01; 0x00; 0x03; 0x2a].

(** A message whose control frame announces a command frame of one byte,
    with both checksums correct, followed by four more bytes of the
    stream. *)
Definition example_short_cmd : list Z :=
  cmd_message 1 0x00 [0x80] ++ [0x00; 0x00; 0x01; 0x00].

(** ** The receive path seen from the byte stream *)

(** The log entries of the branches that throw away everything that is
    buffered. *)
Definition discards_everything (e : effect) : bool :=
  match e with
  | Log LogInvalidSyn
  | Log LogInvalidTer
  | Log LogInvalidCrcCmdCtrl
  | Log LogCmdFrameType
  | Log LogUnknownFrameType => true
  | _ => false
  end.

(** A command message announces at least the eight bytes of its command
    frame. *)
Definition cmd_len_ok (buf : list Z) : bool :=
  negb (ctrl_type buf =? SG5_FRAME_TYPE_CMD) || (8 <=? ctrl_len buf).

Section Stream.

Variable EVENT_BITS : Z.
Variable EVENT_IMMEDIATE : Z.
Variable tbl : list surfacegen5_ec_event_handler.

(** One evaluation is clean when it does not take a discard-everything
    branch and, once the control frame is buffered, a command message
    has a sound length byte. *)
Definition step_clean (rx : rx_state) (buf : list Z) (size : nat) : bool :=
  (size <? SG5_BYTELEN_SYNC + SG5_BYTELEN_CTRL)%nat
  || (forallb (fun e => negb (discards_everything e))
        (snd (surfacegen5_ssh_eval_buf EVENT_BITS EVENT_IMMEDIATE tbl rx buf size))
      && cmd_len_ok buf).

(** The evaluation loop on the view [buf] of [size] buffered bytes; the
    result carries the number of bytes consumed. *)
Fixpoint run (fuel : nat) (rx : rx_state) (buf : list Z) (size : nat)
  : rx_state * nat * list effect :=
  match fuel with
  | O => (rx, 0%nat, [])
  | S fuel' =>
      if (0 <? size)%nat
      then
        let '(n, rx1, eff) :=
          surfacegen5_ssh_eval_buf EVENT_BITS EVENT_IMMEDIATE tbl rx buf size in
        if (n =? 0)%nat then (rx1, 0%nat, eff)
        else
          let '(rx2, c, eff2) := run fuel' rx1 (skipn n buf) (size - n) in
          (rx2, (n + c)%nat, eff ++ eff2)
      else (rx, 0%nat, [])
  end.

(** Every evaluation of the loop is clean. *)
Fixpoint run_clean (fuel : nat) (rx : rx_state) (buf : list Z) (size : nat)
  : bool :=
  match fuel with
  | O => true
  | S fuel' =>
      if (0 <? size)%nat
      then
        let '(n, rx1, eff) :=
          surfacegen5_ssh_eval_buf EVENT_BITS EVENT_IMMEDIATE tbl rx buf size in
        step_clean rx buf size
        && (if (n =? 0)%nat then true
            else run_clean fuel' rx1 (skipn n buf) (size - n))
      else true
  end.

(** The delivery of [stream] in one call of the receive callback is
    clean. *)
Definition receive_clean (rx : rx_state) (stream : list Z) : bool :=
  let eb := rcv_eval_buf (rx_rcv rx) in
  let used := Nat.min (length stream) (eb_cap eb - eb_len eb) in
  let mem1 := store (eb_mem eb) (eb_len eb) (firstn used stream) in
  let len1 := (eb_len eb + used)%nat in
  run_clean len1 rx mem1 len1.

End Stream.

(** The buffered bytes. *)
Definition eb_content (eb : surfacegen5_eval_buf) : list Z :=
  firstn (eb_len eb) (eb_mem eb).

(** The evaluation buffer is an allocation of [eb_cap] bytes. *)
Definition eb_wf (eb : surfacegen5_eval_buf) : Prop :=
  length (eb_mem eb) = eb_cap eb /\ (eb_len eb <= eb_cap eb)%nat.

(** Two receive states that differ at most in the stale bytes of the
    evaluation buffer. *)
Definition rx_equiv (rx rx' : rx_state) : Prop :=
  rx_kzalloc rx = rx_kzalloc rx'
  /\ rcv_state (rx_rcv rx) = rcv_state (rx_rcv rx')
  /\ rcv_signal (rx_rcv rx) = rcv_signal (rx_rcv rx')
  /\ rcv_fifo (rx_rcv rx) = rcv_fifo (rx_rcv rx')
  /\ rcv_expect (rx_rcv rx) = rcv_expect (rx_rcv rx')
  /\ eb_cap (rcv_eval_buf (rx_rcv rx)) = eb_cap (rcv_eval_buf (rx_rcv rx'))
  /\ eb_len (rcv_eval_buf (rx_rcv rx)) = eb_len (rcv_eval_buf (rx_rcv rx'))
  /\ eb_content (rcv_eval_buf (rx_rcv rx)) = eb_content (rcv_eval_buf (rx_rcv rx')).

(** The receive state with [bytes] buffered and nothing behind them. *)
Definition with_content (rx : rx_state) (cap : nat) (bytes : list Z) : rx_state :=
  mk_rx (mk_receiver (rcv_state (rx_rcv rx)) (rcv_signal (rx_rcv rx))
                     (rcv_fifo (rx_rcv rx)) (rcv_expect (rx_rcv rx))
                     (mk_eval_buf cap (length bytes) bytes))
        (rx_kzalloc rx).

(** Six bytes that are no message, followed by an ACK for sequence 1. *)
Definition example_noise_then_ack : list Z :=
  [0x00; 0x00; 0x00; 0x00; 0x00; 0x00] ++ ctrl_message SG5_FRAME_TYPE_ACK 1.

(** An ACK for sequence 1 followed by the response to request id 0x0040,
    one payload byte. *)
Definition example_ack_then_response : list Z :=
  ctrl_message SG5_FRAME_TYPE_ACK 1
  ++ cmd_message 9 0x07 [0x80; 0x01; 0x00; 0x01; 0x00; 0x40; 0x00; 0x16; 0x00].

(** ** Example runs of the request engine *)

(** The controller after probe: counters (0, 2), buffers for a maximum
    payload of 94 bytes. *)
Definition example_ec (state : surfacegen5_ec_state) : surfacegen5_ec :=
  mk_ec false state (mk_counters 0 2) (mk_writer (repeat 0 112) 0)
        (example_receiver SG5_RCV_DISCARD (mk_expect false 0 0)) [].

(** The resume request (0x01/0x16), which expects a response. *)
Definition example_rqst : surfacegen5_rqst := mk_rqst 0x01 0x00 0x16 0x01 0 [].

(** A peer that acknowledges sequence 0 and then answers request id
    2 << 5 with one zero byte. *)
Definition example_peer : world :=
  mk_world [] []
    [[ctrl_message SG5_FRAME_TYPE_ACK 0];
     [cmd_message 9 0x00 [0x80; 0x01; 0x00; 0x01; 0x00; 0x40; 0x00; 0x16; 0x00]]].

(** A peer that acknowledges and never answers. *)
Definition example_peer_ack_only : world :=
  mk_world [] [] [[ctrl_message SG5_FRAME_TYPE_ACK 0]].

(** A silent peer. *)
Definition example_peer_silent : world := mk_world [] [] [].

(** ** Proof-side definitions *)

(** The writer has written [p] into a buffer that held [d] after the last
    reset. *)
Definition writer_at (d : list Z) (w : surfacegen5_ec_writer) (p : list Z) : Prop :=
  w_data w = p ++ skipn (length p) d /\ w_ptr w = length p.

(** Case analysis along the branches of the evaluator. *)
Ltac eval_branches :=
  unfold surfacegen5_ssh_eval_buf, surfacegen5_ssh_receive_msg_ctrl,
    surfacegen5_ssh_receive_msg_cmd;
  repeat match goal with
    | |- context [(?a <? ?b)%nat] => destruct (Nat.ltb_spec a b)
    | |- context [(?a <=? ?b)%nat] => destruct (Nat.leb_spec a b)
    | |- context [match rcv_state ?r with _ => _ end] =>
        destruct (rcv_state r) eqn:?
    | |- context [surfacegen5_ssh_handle_event ?i ?t ?r ?b] =>
        destruct (surfacegen5_ssh_handle_event i t r b) eqn:?
    | |- context [if ?c then _ else _] => destruct c eqn:?
    end.

Ltac sizes :=
  unfold SG5_FRAME_OFFS_CMD_PLD, SG5_FRAME_OFFS_CMD, SG5_FRAME_OFFS_TERM,
    SG5_FRAME_OFFS_CTRL_CRC, SG5_FRAME_OFFS_CTRL,
    SG5_MSG_LEN_CTRL, SG5_MSG_LEN_CMD_BASE, SG5_BYTELEN_SYNC,
    SG5_BYTELEN_CTRL, SG5_BYTELEN_CRC, SG5_BYTELEN_TERM,
    SG5_BYTELEN_CMDFRAME in *.

(** * The rest of the driver

    The client interface around the transport: the handler registry, the
    event-source requests, the EC suspend and resume requests and the
    power-management callbacks. *)

(** [a[i] = x]; the C code only writes inside the array (the index is
    guarded by [surfacegen5_rqid_is_event]); a write outside it is not
    modelled and leaves the list as it is. *)
Definition array_set {A : Type} (l : list A) (i : nat) (x : A) : list A :=
  match skipn i l with
  | [] => l
  | _ :: rest => firstn i l ++ x :: rest
  end.

(** What the client interface does beyond the effects of the transport:
    the warning about a non-zero result byte, the error message of the
    power-management callbacks, and the flush of the event queue. *)
Inductive facade_effect :=
| Core (e : effect)
| WarnUnexpectedResult (byte : Z)
| ErrPmFailed (status : Z)
| FlushWorkqueueEvt.

(** The bytes the transport wrote to the serial device, in order. *)
Fixpoint serdev_writes (eff : list effect) : list (list Z) :=
  match eff with
  | [] => []
  | SerdevWrite bytes :: rest => bytes :: serdev_writes rest
  | _ :: rest => serdev_writes rest
  end.

(** The first byte of a result buffer ([buf[0]] of the callers that pass
    a one-byte buffer). *)
Definition result_byte (result : option surfacegen5_buf) : Z :=
  match result with
  | Some res => rd (b_data res) 0
  | None => 0
  end.

Section Facade.

Variable EVENT_BITS : Z.
Variable MAX_RQST_PAYLOAD : Z.
Variable EVENT_IMMEDIATE : Z.

Definition set_events (ec : surfacegen5_ec)
  (tbl : list surfacegen5_ec_event_handler) : surfacegen5_ec :=
  mk_ec (ec_lock ec) (ec_state ec) (ec_counter ec) (ec_writer ec)
        (ec_receiver ec) tbl.

Definition set_state (ec : surfacegen5_ec) (st : surfacegen5_ec_state)
  : surfacegen5_ec :=
  mk_ec (ec_lock ec) st (ec_counter ec) (ec_writer ec) (ec_receiver ec)
        (ec_events ec).

(** ** Handler registry *)

Definition surfacegen5_ec_set_delayed_event_handler (ec : surfacegen5_ec)
  (rqid : Z) (fn delay : option (surfacegen5_event -> Z))
  : Z * surfacegen5_ec :=
  if negb (surfacegen5_rqid_is_event EVENT_BITS rqid) then (- EINVAL, ec)
  else
    match surfacegen5_ec_acquire_init ec with
    | (None, ec0) => (- ENXIO, ec0)
    | (Some ec1, _) =>
        let tbl := array_set (ec_events ec1) (Z.to_nat (rqid - 1))
                             (mk_handler fn delay) in
        (0, surfacegen5_ec_release (set_events ec1 tbl))
    end.

Definition surfacegen5_ec_set_event_handler (ec : surfacegen5_ec)
  (rqid : Z) (fn : option (surfacegen5_event -> Z)) : Z * surfacegen5_ec :=
  surfacegen5_ec_set_delayed_event_handler ec rqid fn None.

(** The flush of the event queue comes after the lock has been released. *)
Definition surfacegen5_ec_remove_event_handler (ec : surfacegen5_ec) (rqid : Z)
  : Z * surfacegen5_ec * list facade_effect :=
  if negb (surfacegen5_rqid_is_event EVENT_BITS rqid) then (- EINVAL, ec, [])
  else
    match surfacegen5_ec_acquire_init ec with
    | (None, ec0) => (- ENXIO, ec0, [])
    | (Some ec1, _) =>
        let tbl := array_set (ec_events ec1) (Z.to_nat (rqid - 1)) no_handler in
        (0, surfacegen5_ec_release (set_events ec1 tbl), [FlushWorkqueueEvt])
    end.

(** ** Event sources *)

(** The request of [surfacegen5_ec_enable_event_source] ([cid] 0x0b) and
    [surfacegen5_ec_disable_event_source] ([cid] 0x0c). *)
Definition event_source_rqst (cid tc unknown rqid : Z) : surfacegen5_rqst :=
  mk_rqst 0x01 0x00 cid 0x01 0x04
          [tc; unknown; Z.land rqid 0xff; u8 (Z.shiftr rqid 8)].

Definition event_source_request (cid : Z) (ec : surfacegen5_ec)
  (tc unknown rqid : Z) (wd : world)
  : Z * surfacegen5_ec * world * list facade_effect :=
  if negb (surfacegen5_rqid_is_event EVENT_BITS rqid) then (- EINVAL, ec, wd, [])
  else
    match surfacegen5_ec_acquire_init ec with
    | (None, ec0) => (- ENXIO, ec0, wd, [Core (Log LogUninitialized)])
    | (Some ec1, _) =>
        match ec_state ec1 with
        | SG5_EC_SUSPENDED =>
            (- EPERM, surfacegen5_ec_release ec1, wd, [Core (Log LogSuspended)])
        | _ =>
            let '(status, ec2, result, wd1, eff) :=
              surfacegen5_ec_rqst_unlocked EVENT_BITS MAX_RQST_PAYLOAD
                EVENT_IMMEDIATE ec1 (event_source_rqst cid tc unknown rqid)
                (Some (mk_buf 1 0 [0x00])) wd in
            (status, surfacegen5_ec_release ec2, wd1,
             map Core eff
             ++ (if result_byte result =? 0 then []
                 else [WarnUnexpectedResult (result_byte result)]))
        end
    end.

Definition surfacegen5_ec_enable_event_source :=
  event_source_request 0x0b.

Definition surfacegen5_ec_disable_event_source :=
  event_source_request 0x0c.

(** ** EC suspend and resume *)

(** [surfacegen5_ssh_ec_resume] ([cid] 0x16) and
    [surfacegen5_ssh_ec_suspend] ([cid] 0x15): the request with a one-byte
    result buffer; the result byte is looked at only after a success. *)
Definition ec_power_rqst (cid : Z) : surfacegen5_rqst :=
  mk_rqst 0x01 0x00 cid 0x01 0x00 [].

Definition ec_power_request (cid : Z) (ec : surfacegen5_ec) (wd : world)
  : Z * surfacegen5_ec * world * list facade_effect :=
  let '(status, ec1, result, wd1, eff) :=
    surfacegen5_ec_rqst_unlocked EVENT_BITS MAX_RQST_PAYLOAD EVENT_IMMEDIATE
      ec (ec_power_rqst cid) (Some (mk_buf 1 0 [0x00])) wd in
  if negb (status =? 0) then (status, ec1, wd1, map Core eff)
  else (0, ec1, wd1,
        map Core eff
        ++ (if result_byte result =? 0 then []
            else [WarnUnexpectedResult (result_byte result)])).

Definition surfacegen5_ssh_ec_resume := ec_power_request 0x16.
Definition surfacegen5_ssh_ec_suspend := ec_power_request 0x15.

(** ** Power management *)

Definition surfacegen5_ssh_suspend (ec : surfacegen5_ec) (wd : world)
  : Z * surfacegen5_ec * world * list facade_effect :=
  match surfacegen5_ec_acquire_init ec with
  | (None, ec0) => (0, ec0, wd, [])
  | (Some ec1, _) =>
      let '(status, ec2, wd1, eff) := surfacegen5_ssh_ec_suspend ec1 wd in
      (status,
       surfacegen5_ec_release (set_state ec2 SG5_EC_SUSPENDED),
       wd1,
       eff ++ (if status =? 0 then [] else [ErrPmFailed status]))
  end.

Definition surfacegen5_ssh_resume (ec : surfacegen5_ec) (wd : world)
  : Z * surfacegen5_ec * world * list facade_effect :=
  match surfacegen5_ec_acquire_init ec with
  | (None, ec0) => (0, ec0, wd, [])
  | (Some ec1, _) =>
      let '(status, ec2, wd1, eff) :=
        surfacegen5_ssh_ec_resume (set_state ec1 SG5_EC_INITIALIZED) wd in
      (status,
       surfacegen5_ec_release ec2,
       wd1,
       eff ++ (if status =? 0 then [] else [ErrPmFailed status]))
  end.

End Facade.

(** The phases of the receiver in the order a request passes through them,
    counted down: awaiting the control message, awaiting the response,
    discarding. *)
Definition rcv_rank (st : surfacegen5_ec_receiver_state) : nat :=
  match st with
  | SG5_RCV_CONTROL => 2
  | SG5_RCV_COMMAND => 1
  | SG5_RCV_DISCARD => 0
  end.

(** What may happen to the receiver between two points of the receive
    path: the expectation stays, the phase does not go back, the fifo only
    grows at its end and stays within its size, the completion count does
    not drop, and while the receiver discards nothing is delivered. *)
Definition rcv_progress (rcv rcv' : surfacegen5_ec_receiver) : Prop :=
  rcv_expect rcv' = rcv_expect rcv
  /\ (rcv_rank (rcv_state rcv') <= rcv_rank (rcv_state rcv))%nat
  /\ (exists added, rcv_fifo rcv' = rcv_fifo rcv ++ added)
  /\ (rcv_signal rcv <= rcv_signal rcv')%nat
  /\ ((length (rcv_fifo rcv) <= SG5_READ_BUF_LEN)%nat ->
      (length (rcv_fifo rcv') <= SG5_READ_BUF_LEN)%nat)
  /\ (rcv_state rcv = SG5_RCV_DISCARD ->
      rcv_fifo rcv' = rcv_fifo rcv /\ rcv_signal rcv' = rcv_signal rcv).

(** Between two points of the request engine only the receiver has
    changed: lock, state, counters, writer and handler table are as
    before. *)
Definition only_receiver_changed (ec ec' : surfacegen5_ec) : Prop :=
  ec' = mk_ec (ec_lock ec) (ec_state ec) (ec_counter ec) (ec_writer ec)
              (ec_receiver ec') (ec_events ec).

(** What no request touches: the lock as the caller holds it, the
    controller state and the handler table. *)
Definition facade_kept (ec ec' : surfacegen5_ec) : Prop :=
  ec_lock ec' = ec_lock ec
  /\ ec_state ec' = ec_state ec
  /\ ec_events ec' = ec_events ec.

(** The receiver as [surfacegen5_ssh_receiver_discard] leaves it. *)
Definition receiver_idle (rcv : surfacegen5_ec_receiver) : Prop :=
  rcv_state rcv = SG5_RCV_DISCARD
  /\ rcv_fifo rcv = []
  /\ eb_len (rcv_eval_buf rcv) = 0%nat.

(** The event that [surfacegen5_ssh_handle_event] builds from a message. *)
Definition event_of (buf : list Z) : surfacegen5_event :=
  let pld_len := u16 (ctrl_len buf - Z.of_nat SG5_BYTELEN_CMDFRAME) in
  mk_event (cmd_rqid buf) (cmd_tc buf) (cmd_iid buf) (cmd_cid buf) pld_len
           (region buf SG5_FRAME_OFFS_CMD_PLD (Z.to_nat pld_len)).

(** An initialized controller with the 31 handler slots of five event
    bits, all empty. *)
Definition example_ec_slots : surfacegen5_ec :=
  mk_ec false SG5_EC_INITIALIZED (mk_counters 0 2) (mk_writer (repeat 0 112) 0)
        (example_receiver SG5_RCV_DISCARD (mk_expect false 0 0))
        (repeat no_handler 31).

(** A handler that reports success, and a delay function that asks for
    three jiffies. *)
Definition example_handler : surfacegen5_event -> Z := fun _ => 0.
Definition example_delay : surfacegen5_event -> Z := fun _ => 3.

(** A response as the EC sends it: a command message from the EC to the
    host whose command frame carries the request id [rqid] of the request
    it answers and the payload [pld]. *)
Definition response_message (seq tc iid rqid cid : Z) (pld : list Z) : list Z :=
  cmd_message (8 + Z.of_nat (length pld)) seq
    ([0x80; tc; 0x00; 0x01; iid; Z.land rqid 0xff; Z.shiftr rqid 8; cid] ++ pld).

(** The result buffers of the example requests: one byte, and none. *)
Definition example_result : surfacegen5_buf := mk_buf 1 0 [0xff].
Definition example_result_empty : surfacegen5_buf := mk_buf 0 0 [].

(** Record projections and setters of the controller, for stepping through
    the request engine. *)
Ltac proj_cbn :=
  cbn [ec_lock ec_state ec_counter ec_writer ec_receiver ec_events
       set_writer set_receiver set_counter set_lock
       rcv_state rcv_signal rcv_fifo rcv_expect rcv_eval_buf
       eb_cap eb_len eb_mem ex_pld ex_seq ex_rqid
       cnt_seq cnt_rqid wd_kzalloc wd_write wd_inbound fst snd].

(** * Properties *)

(** ** Sanity checks of the integer layer *)

Example crc_check_value :
  surfacegen5_ssh_crc [0x31; 0x32; 0x33; 0x34; 0x35; 0x36; 0x37; 0x38; 0x39] = 0x29B1.
Proof. reflexivity. Qed.

Example crc_empty : surfacegen5_ssh_crc [] = 0xffff.
Proof. reflexivity. Qed.

(** ** Request-id classification *)

Lemma event_mask_value (N : Z) :
  0 <= N <= 16 -> rqid_event_mask N = 2 ^ N - 1.
Proof.
  intros HN. unfold rqid_event_mask, u16.
  rewrite Z.shiftl_1_l.
  assert (H : 0 < 2 ^ N <= 2 ^ 16).
  { split; [apply Z.pow_pos_nonneg; lia | apply Z.pow_le_mono_r; lia]. }
  change (2 ^ 16) with 65536 in H.
  apply Z.mod_small. lia.
Qed.

Lemma lor_ones_absorbs (N r : Z) :
  0 <= N -> 0 <= r ->
  (Z.lor r (2 ^ N - 1) = 2 ^ N - 1 <-> r < 2 ^ N).
Proof.
  intros HN Hr.
  assert (Hones : 2 ^ N - 1 = Z.ones N) by (rewrite Z.ones_equiv; lia).
  assert (Hpos : 0 < 2 ^ N) by (apply Z.pow_pos_nonneg; lia).
  pose proof (Z.add_lor_land r (2 ^ N - 1)) as Hsum.
  rewrite Hones in Hsum at 2. rewrite Z.land_ones in Hsum by assumption.
  pose proof (Z.mod_pos_bound r (2 ^ N) Hpos) as Hb.
  split; intros H.
  - rewrite H in Hsum.
    assert (Hm : r mod 2 ^ N = r) by lia. lia.
  - rewrite Z.mod_small in Hsum by lia. lia.
Qed.

Lemma rqid_is_event_range (N r : Z) :
  0 <= N <= 16 -> 0 <= r ->
  (surfacegen5_rqid_is_event N r = true <-> 1 <= r <= 2 ^ N - 1).
Proof.
  intros HN Hr. unfold surfacegen5_rqid_is_event.
  rewrite event_mask_value by assumption.
  rewrite andb_true_iff, negb_true_iff, Z.eqb_neq, Z.eqb_eq.
  rewrite lor_ones_absorbs by lia. lia.
Qed.

Lemma rqid_to_rqst_multiple (N c : Z) :
  0 <= N <= 16 ->
  exists k, 0 <= k /\ surfacegen5_rqid_to_rqst N c = k * 2 ^ N.
Proof.
  intros HN. unfold surfacegen5_rqid_to_rqst, u16.
  rewrite Z.shiftl_mul_pow2 by lia.
  assert (Hsplit : 65536 = 2 ^ (16 - N) * 2 ^ N).
  { rewrite <- Z.pow_add_r by lia. replace (16 - N + N) with 16 by lia.
    reflexivity. }
  assert (Hpos : 0 < 2 ^ N) by (apply Z.pow_pos_nonneg; lia).
  assert (Hpos' : 0 < 2 ^ (16 - N)) by (apply Z.pow_pos_nonneg; lia).
  rewrite Hsplit, Zmult_mod_distr_r.
  exists (c mod 2 ^ (16 - N)). split; [|reflexivity].
  apply Z.mod_pos_bound. assumption.
Qed.

(** C1 (as the code has it): a 16-bit request id is an event id exactly
    when it lies in 1 .. 2^N - 1, that is when it is non-zero and has no bit
    set above the low N bits; an id made by shifting a counter left by N
    bits is never an event id. *)
Theorem rqid_is_event_spec (N r : Z) :
  0 <= N <= 16 -> is_u16 r ->
  (surfacegen5_rqid_is_event N r = true <-> 1 <= r <= 2 ^ N - 1)
  /\ (forall c, surfacegen5_rqid_is_event N (surfacegen5_rqid_to_rqst N c) = false).
Proof.
  intros HN [Hr _]. split.
  - apply rqid_is_event_range; assumption.
  - intros c.
    destruct (rqid_to_rqst_multiple N c HN) as (k & Hk & Hc).
    assert (Hpos : 0 < 2 ^ N) by (apply Z.pow_pos_nonneg; lia).
    destruct (surfacegen5_rqid_is_event N (surfacegen5_rqid_to_rqst N c)) eqn:E;
      [|reflexivity].
    apply rqid_is_event_range in E;
      [|assumption|rewrite Hc; apply Z.mul_nonneg_nonneg; lia].
    rewrite Hc in E. clear Hc. revert Hpos E. generalize (2 ^ N). intros p Hp E.
    destruct (Z.eq_dec k 0) as [-> | Hk0]; [lia | nia].
Qed.

Lemma rqid_is_event_spec_witness :
  (surfacegen5_rqid_is_event 5 1 = true <-> 1 <= 1 <= 2 ^ 5 - 1)
  /\ (forall c, surfacegen5_rqid_is_event 5 (surfacegen5_rqid_to_rqst 5 c) = false).
Proof.
  apply (rqid_is_event_spec 5 1); unfold is_u16; lia.
Defined.

(** C1 in the words of the specification does not hold, whatever the number
    of event bits: for N bits the
    id 2^(N+1) - 1 (63 for N = 5) has its low N bits set and is not an event
    id for the code, and for N = 16 the id 1 is an event id whose low bits
    are not all set. *)
Lemma rqid_is_event_not_low_bits_set :
  ~ (exists N, 0 <= N <= 16 /\
       forall r, is_u16 r ->
         (surfacegen5_rqid_is_event N r = true <-> spec_rqid_is_event N r)).
Proof.
  intros (N & HN & H).
  assert (Hpos : 0 < 2 ^ N) by (apply Z.pow_pos_nonneg; lia).
  assert (Hle : 2 ^ N <= 2 ^ 16) by (apply Z.pow_le_mono_r; lia).
  change (2 ^ 16) with 65536 in Hle.
  destruct (Z.eq_dec N 16) as [-> | Hne].
  - specialize (H 1). unfold is_u16 in H.
    destruct H as [H1 _]; [lia|].
    assert (E : surfacegen5_rqid_is_event 16 1 = true) by reflexivity.
    apply H1 in E. destruct E as [_ E]. vm_compute in E. discriminate.
  - assert (Hlt : 2 ^ N <= 2 ^ 15) by (apply Z.pow_le_mono_r; lia).
    change (2 ^ 15) with 32768 in Hlt.
    specialize (H (2 ^ N + (2 ^ N - 1))). unfold is_u16 in H.
    destruct H as [_ H2]; [lia|].
    assert (S : spec_rqid_is_event N (2 ^ N + (2 ^ N - 1))).
    { unfold spec_rqid_is_event. split; [lia|].
      rewrite Z.shiftl_1_l.
      replace (2 ^ N - 1) with (Z.ones N) at 2 by (rewrite Z.ones_equiv; lia).
      rewrite Z.land_ones by lia.
      replace (2 ^ N + (2 ^ N - 1)) with ((2 ^ N - 1) + 1 * 2 ^ N) by lia.
      rewrite Z.mod_add by lia. apply Z.mod_small. lia. }
    apply H2 in S. apply rqid_is_event_range in S; lia.
Qed.

(** ** Frame encoder *)

Lemma store_at_end (p rest bs : list Z) :
  store (p ++ rest) (length p) bs = p ++ bs ++ skipn (length bs) rest.
Proof.
  unfold store.
  rewrite firstn_app, firstn_all, Nat.sub_diag, firstn_O, app_nil_r.
  rewrite skipn_app, (skipn_all2 p) by lia.
  replace (length p + length bs - length p)%nat with (length bs) by lia.
  reflexivity.
Qed.

Lemma writer_at_store d w p bs :
  writer_at d w p ->
  writer_at d (mk_writer (store (w_data w) (w_ptr w) bs) (w_ptr w + length bs))
            (p ++ bs).
Proof.
  intros [Hd Hp]. unfold writer_at; simpl.
  rewrite Hd, Hp, store_at_end, skipn_skipn, length_app.
  rewrite <- app_assoc. split; [|reflexivity].
  do 3 f_equal. lia.
Qed.

Lemma writer_at_reset w :
  writer_at (w_data w) (surfacegen5_ssh_writer_reset w) [].
Proof. split; reflexivity. Qed.

Lemma writer_at_syn d w p :
  writer_at d w p -> writer_at d (surfacegen5_ssh_write_syn w) (p ++ [0xaa; 0x55]).
Proof. apply writer_at_store. Qed.

Lemma writer_at_ter d w p :
  writer_at d w p -> writer_at d (surfacegen5_ssh_write_ter w) (p ++ [0xff; 0xff]).
Proof. apply writer_at_store. Qed.

Lemma writer_at_u16 d w p v :
  writer_at d w p -> writer_at d (surfacegen5_ssh_write_u16 w v) (p ++ le16 v).
Proof. apply writer_at_store. Qed.

Lemma writer_at_buf d w p src len :
  (len <= length src)%nat ->
  writer_at d w p ->
  writer_at d (surfacegen5_ssh_write_buf w src len) (p ++ firstn len src).
Proof.
  intros Hlen H. unfold surfacegen5_ssh_write_buf.
  replace (w_ptr w + len)%nat with (w_ptr w + length (firstn len src))%nat
    by (rewrite length_firstn; lia).
  apply writer_at_store. assumption.
Qed.

Lemma writer_at_crc d w p q :
  writer_at d w (p ++ q) ->
  writer_at d (surfacegen5_ssh_write_crc w (length p))
            (p ++ q ++ le16 (surfacegen5_ssh_crc q)).
Proof.
  intros H. unfold surfacegen5_ssh_write_crc.
  assert (Hr : region (w_data w) (length p) (w_ptr w - length p) = q).
  { destruct H as [Hd Hp]. unfold region.
    rewrite Hd, Hp, length_app, <- app_assoc.
    rewrite skipn_app, skipn_all, Nat.sub_diag. simpl.
    replace (length p + length q - length p)%nat with (length q) by lia.
    rewrite firstn_app, firstn_all, Nat.sub_diag, firstn_O, app_nil_r.
    reflexivity. }
  rewrite Hr. rewrite app_assoc. apply writer_at_u16. assumption.
Qed.

Lemma writer_at_bytes d w p :
  writer_at d w p -> writer_bytes w = p.
Proof.
  intros [Hd Hp]. unfold writer_bytes.
  rewrite Hd, Hp, firstn_app, firstn_all, Nat.sub_diag, firstn_O, app_nil_r.
  reflexivity.
Qed.

Lemma writer_at_length d w p :
  writer_at d w p -> (length p <= length d)%nat ->
  length (w_data w) = length d.
Proof.
  intros [Hd _] Hle. rewrite Hd, length_app, length_skipn. lia.
Qed.

Lemma u16_high_byte (x : Z) : u8 (Z.shiftr (u16 x) 8) = Z.shiftr (u16 x) 8.
Proof.
  unfold u8, u16. rewrite Z.shiftr_div_pow2 by lia.
  pose proof (Z.mod_pos_bound x 65536 ltac:(lia)) as H.
  apply Z.mod_small. change (2 ^ 8) with 256.
  split; [apply Z.div_pos; lia | apply Z.div_lt_upper_bound; lia].
Qed.

Lemma write_msg_cmd_at (N : Z) (ec : surfacegen5_ec) (rqst : surfacegen5_rqst) :
  0 <= rq_cdl rqst <= 247 ->
  (Z.to_nat (rq_cdl rqst) <= length (rq_pld rqst))%nat ->
  writer_at (w_data (ec_writer ec))
            (ec_writer (surfacegen5_ssh_write_msg_cmd N ec rqst))
            (request_message N (cnt_seq (ec_counter ec)) (cnt_rqid (ec_counter ec))
                             rqst).
Proof.
  intros Hcdl Hpld.
  unfold surfacegen5_ssh_write_msg_cmd, request_message. simpl ec_writer.
  pose proof (writer_at_reset (ec_writer ec)) as H0.
  apply writer_at_syn in H0. simpl app in H0.
  set (w1 := surfacegen5_ssh_write_syn _) in *.
  set (ctrl := [128; 8 + rq_cdl rqst; 0; cnt_seq (ec_counter ec)]).
  assert (H1 : writer_at (w_data (ec_writer ec))
                 (surfacegen5_ssh_write_hdr w1 rqst ec)
                 ([0xaa; 0x55] ++ ctrl ++ le16 (surfacegen5_ssh_crc ctrl))).
  { unfold surfacegen5_ssh_write_hdr.
    replace (w_ptr w1) with (length [0xaa; 0x55]) at 3 by (apply H0).
    apply writer_at_crc.
    replace (u8 (Z.of_nat SG5_BYTELEN_CMDFRAME + rq_cdl rqst))
      with (8 + rq_cdl rqst)
      by (unfold u8, SG5_BYTELEN_CMDFRAME; rewrite Z.mod_small; lia).
    apply (writer_at_store _ _ _ ctrl H0). }
  set (w2 := surfacegen5_ssh_write_hdr _ _ _) in *.
  set (pre := [0xaa; 0x55] ++ ctrl ++ le16 (surfacegen5_ssh_crc ctrl)) in *.
  unfold surfacegen5_ssh_write_cmd.
  replace (w_ptr w2) with (length pre) at 3 by (symmetry; apply H1).
  unfold surfacegen5_rqid_to_rqst. cbv zeta. rewrite u16_high_byte.
  set (id := u16 (Z.shiftl (cnt_rqid (ec_counter ec)) N)).
  set (cmd := [128; rq_tc rqst; 1; 0; rq_iid rqst; Z.land id 255;
               Z.shiftr id 8; rq_cid rqst]).
  change ([0xaa; 0x55] ++ ctrl ++ le16 (surfacegen5_ssh_crc ctrl) ++ ?x)
    with (pre ++ x).
  replace (pre ++ cmd ++ firstn (Z.to_nat (rq_cdl rqst)) (rq_pld rqst) ++
           le16 (surfacegen5_ssh_crc
                   (cmd ++ firstn (Z.to_nat (rq_cdl rqst)) (rq_pld rqst))))
    with (pre ++ (cmd ++ firstn (Z.to_nat (rq_cdl rqst)) (rq_pld rqst)) ++
          le16 (surfacegen5_ssh_crc
                  (cmd ++ firstn (Z.to_nat (rq_cdl rqst)) (rq_pld rqst))))
    by (rewrite <- !app_assoc; reflexivity).
  apply writer_at_crc. rewrite app_assoc.
  apply writer_at_buf; [assumption|].
  apply (writer_at_store _ _ _ cmd H1).
Qed.

Lemma request_message_length (N seq rqid : Z) (rqst : surfacegen5_rqst) :
  (Z.to_nat (rq_cdl rqst) <= length (rq_pld rqst))%nat ->
  length (request_message N seq rqid rqst) = (18 + Z.to_nat (rq_cdl rqst))%nat.
Proof.
  intros H. unfold request_message, le16. cbv zeta.
  rewrite !length_app, length_firstn. cbn [length]. lia.
Qed.

(** C5: for a request whose payload length is within the maximum, the
    encoder leaves in the write buffer exactly SYN, the control frame
    (0x80, 8 + cdl, 0x00, seq), its little-endian CRC, the command frame
    (0x80, tc, 0x01, 0x00, iid, rqid low, rqid high, cid) with rqid the
    counter shifted left by the event bits, the payload and the
    little-endian CRC of command frame and payload; a second encoding with
    the same counters gives the same bytes whatever the write buffer held,
    and the buffer keeps its size.  The length byte is a [u8]: the header's
    maximum payload is taken to be at most 247. *)
Theorem write_msg_cmd_bytes (N MAX : Z) (ec ec' : surfacegen5_ec)
  (rqst : surfacegen5_rqst) :
  MAX <= 247 ->
  0 <= rq_cdl rqst <= MAX ->
  (Z.to_nat (rq_cdl rqst) <= length (rq_pld rqst))%nat ->
  writer_bytes (ec_writer (surfacegen5_ssh_write_msg_cmd N ec rqst))
  = request_message N (cnt_seq (ec_counter ec)) (cnt_rqid (ec_counter ec)) rqst
  /\ (ec_counter ec' = ec_counter ec ->
      writer_bytes (ec_writer (surfacegen5_ssh_write_msg_cmd N ec' rqst))
      = writer_bytes (ec_writer (surfacegen5_ssh_write_msg_cmd N ec rqst)))
  /\ (length (w_data (ec_writer ec)) = SG5_MAX_WRITE MAX ->
      length (w_data (ec_writer (surfacegen5_ssh_write_msg_cmd N ec rqst)))
      = SG5_MAX_WRITE MAX).
Proof.
  intros HM Hcdl Hpld.
  assert (Hc : 0 <= rq_cdl rqst <= 247) by lia.
  pose proof (write_msg_cmd_at N ec rqst Hc Hpld) as H.
  pose proof (write_msg_cmd_at N ec' rqst Hc Hpld) as H'.
  split; [|split].
  - apply (writer_at_bytes _ _ _ H).
  - intros Heq. rewrite (writer_at_bytes _ _ _ H), (writer_at_bytes _ _ _ H').
    rewrite Heq. reflexivity.
  - intros Hlen. rewrite (writer_at_length _ _ _ H); [assumption|].
    rewrite request_message_length, Hlen by assumption.
    unfold SG5_MAX_WRITE, SG5_BYTELEN_SYNC, SG5_BYTELEN_CTRL, SG5_BYTELEN_CRC,
      SG5_BYTELEN_CMDFRAME. lia.
Qed.

Lemma write_msg_cmd_bytes_witness :
  let rqst := mk_rqst 0x01 0x00 0x16 0x01 0 [] in
  let ec := mk_ec true SG5_EC_INITIALIZED (mk_counters 0 2)
              (mk_writer (repeat 0 112) 0)
              (mk_receiver SG5_RCV_DISCARD 0 [] (mk_expect false 0 0)
                           (mk_eval_buf 112 0 (repeat 0 112)))
              [] in
  writer_bytes (ec_writer (surfacegen5_ssh_write_msg_cmd 5 ec rqst))
  = request_message 5 0 2 rqst.
Proof.
  intros rqst ec.
  refine (proj1 (write_msg_cmd_bytes 5 94 ec ec rqst _ _ _)); simpl; lia.
Defined.

Example request_message_resume :
  request_message 0 0 2 (mk_rqst 0x01 0x00 0x16 0x01 0 [])
  = [0xaa; 0x55; 0x80; 0x08; 0x00; 0x00; 0x59; 0xf0;
     0x80; 0x01; 0x01; 0x00; 0x00; 0x02; 0x00; 0x16; 0xe9; 0x2d].
Proof. vm_compute. reflexivity. Qed.

(** ** Evaluation of a command message *)

Lemma cmd_type_not_ctrl (buf : list Z) :
  ctrl_type buf = SG5_FRAME_TYPE_CMD ->
  (ctrl_type buf =? SG5_FRAME_TYPE_ACK) || (ctrl_type buf =? SG5_FRAME_TYPE_RETRY)
  = false
  /\ (ctrl_type buf =? SG5_FRAME_TYPE_CMD) = true.
Proof. intros ->. split; reflexivity. Qed.

(** C6 (as the code has it): on a buffer that starts with a valid SYN and
    whose control type is CMD, the evaluator consumes nothing while fewer
    than SYN + control frame + CRC bytes are buffered; consumes the whole
    buffer when the control CRC is wrong; consumes nothing while the control
    CRC is right and fewer than SG5_MSG_LEN_CMD_BASE + ctrl.len bytes are
    buffered; and, when the message is complete, its command frame starts
    with the command type byte and the command CRC is wrong, consumes
    exactly SG5_MSG_LEN_CMD_BASE + ctrl.len bytes.  A complete message
    whose command frame does not start with the command type byte makes it
    consume the whole buffer. *)
Theorem eval_buf_cmd_consumes (N IMM : Z) (tbl : list surfacegen5_ec_event_handler)
  (rx : rx_state) (buf : list Z) (size : nat) :
  surfacegen5_ssh_is_valid_syn buf = true ->
  ctrl_type buf = SG5_FRAME_TYPE_CMD ->
  let msg_len := (SG5_MSG_LEN_CMD_BASE + Z.to_nat (ctrl_len buf))%nat in
  let ctrl_crc_ok :=
    surfacegen5_ssh_is_valid_crc buf SG5_FRAME_OFFS_CTRL SG5_FRAME_OFFS_CTRL_CRC in
  let cmd_crc_ok :=
    surfacegen5_ssh_is_valid_crc buf SG5_FRAME_OFFS_CMD
      (SG5_FRAME_OFFS_CMD + Z.to_nat (ctrl_len buf)) in
  let result := surfacegen5_ssh_eval_buf N IMM tbl rx buf size in
  ((size < SG5_BYTELEN_SYNC + SG5_BYTELEN_CTRL + SG5_BYTELEN_CRC)%nat ->
   result = (0%nat, rx, []))
  /\ ((SG5_BYTELEN_SYNC + SG5_BYTELEN_CTRL + SG5_BYTELEN_CRC <= size)%nat ->
      ctrl_crc_ok = false ->
      result = (size, rx, [Log LogInvalidCrcCmdCtrl]))
  /\ ((SG5_BYTELEN_SYNC + SG5_BYTELEN_CTRL + SG5_BYTELEN_CRC <= size)%nat ->
      ctrl_crc_ok = true -> (size < msg_len)%nat ->
      result = (0%nat, rx, []))
  /\ (ctrl_crc_ok = true -> (msg_len <= size)%nat ->
      cmd_type buf = SG5_FRAME_TYPE_CMD -> cmd_crc_ok = false ->
      result = (msg_len, rx, [Log LogInvalidCrcCmdPld]))
  /\ (ctrl_crc_ok = true -> (msg_len <= size)%nat ->
      cmd_type buf <> SG5_FRAME_TYPE_CMD ->
      result = (size, rx, [Log LogCmdFrameType])).
Proof.
  intros Hsyn Htype msg_len ctrl_crc_ok cmd_crc_ok result.
  destruct (cmd_type_not_ctrl buf Htype) as [Hctl Hcmd].
  assert (Hbase : (SG5_BYTELEN_SYNC + SG5_BYTELEN_CTRL + SG5_BYTELEN_CRC <= msg_len)%nat).
  { subst msg_len. unfold SG5_MSG_LEN_CMD_BASE, SG5_BYTELEN_SYNC, SG5_BYTELEN_CTRL,
      SG5_BYTELEN_CRC. lia. }
  subst result ctrl_crc_ok cmd_crc_ok msg_len.
  unfold surfacegen5_ssh_eval_buf, surfacegen5_ssh_receive_msg_cmd.
  rewrite Hsyn, Hctl, Hcmd. cbn [negb].
  unfold SG5_BYTELEN_SYNC, SG5_BYTELEN_CTRL, SG5_BYTELEN_CRC in *.
  repeat apply conj.
  - intros Hs.
    destruct (Nat.ltb_spec size (2 + 4)); [reflexivity|].
    destruct (Nat.ltb_spec size (2 + 4 + 2)); [reflexivity | lia].
  - intros Hs Hcrc.
    destruct (Nat.ltb_spec size (2 + 4)); [lia|].
    destruct (Nat.ltb_spec size (2 + 4 + 2)); [lia|].
    rewrite Hcrc. reflexivity.
  - intros Hs Hcrc Hlt.
    destruct (Nat.ltb_spec size (2 + 4)); [lia|].
    destruct (Nat.ltb_spec size (2 + 4 + 2)); [lia|].
    rewrite Hcrc. cbn [negb].
    destruct (Nat.ltb_spec size
                (SG5_MSG_LEN_CMD_BASE + Z.to_nat (ctrl_len buf))); [reflexivity | lia].
  - intros Hcrc Hle Hct Hcc.
    destruct (Nat.ltb_spec size (2 + 4)); [lia|].
    destruct (Nat.ltb_spec size (2 + 4 + 2)); [lia|].
    rewrite Hcrc. cbn [negb].
    destruct (Nat.ltb_spec size
                (SG5_MSG_LEN_CMD_BASE + Z.to_nat (ctrl_len buf))); [lia|].
    rewrite Hct, Hcc. reflexivity.
  - intros Hcrc Hle Hct.
    destruct (Nat.ltb_spec size (2 + 4)); [lia|].
    destruct (Nat.ltb_spec size (2 + 4 + 2)); [lia|].
    rewrite Hcrc. cbn [negb].
    destruct (Nat.ltb_spec size
                (SG5_MSG_LEN_CMD_BASE + Z.to_nat (ctrl_len buf))); [lia|].
    apply Z.eqb_neq in Hct. rewrite Hct. reflexivity.
Qed.

Lemma eval_buf_cmd_consumes_witness :
  surfacegen5_ssh_eval_buf 5 example_immediate []
    (example_rx SG5_RCV_COMMAND (mk_expect true 0 0x40)) example_bad_cmd_crc 18
  = (18%nat, example_rx SG5_RCV_COMMAND (mk_expect true 0 0x40),
     [Log LogInvalidCrcCmdPld]).
Proof.
  refine (proj1 (proj2 (proj2 (proj2
            (eval_buf_cmd_consumes 5 example_immediate []
               (example_rx SG5_RCV_COMMAND (mk_expect true 0 0x40))
               example_bad_cmd_crc 18 _ _)))) _ _ _ _);
    vm_compute; (reflexivity || lia).
Defined.

(** C6 in the words of the specification does not hold: this complete
    message has a valid control CRC and
    an invalid command CRC, and the evaluator consumes all 20 buffered
    bytes, not the 18 of the message, because the command frame does not
    start with the command type byte. *)
Lemma eval_buf_cmd_bad_type_discards_all :
  let buf := example_bad_cmd_type in
  let rx := example_rx SG5_RCV_COMMAND (mk_expect true 0 0x40) in
  surfacegen5_ssh_is_valid_syn buf = true
  /\ ctrl_type buf = SG5_FRAME_TYPE_CMD
  /\ surfacegen5_ssh_is_valid_crc buf SG5_FRAME_OFFS_CTRL SG5_FRAME_OFFS_CTRL_CRC = true
  /\ surfacegen5_ssh_is_valid_crc buf SG5_FRAME_OFFS_CMD
       (SG5_FRAME_OFFS_CMD + Z.to_nat (ctrl_len buf)) = false
  /\ (SG5_MSG_LEN_CMD_BASE + Z.to_nat (ctrl_len buf) = 18)%nat
  /\ surfacegen5_ssh_eval_buf 5 example_immediate [] rx buf 20
     = (20%nat, rx, [Log LogCmdFrameType]).
Proof. vm_compute. repeat apply conj; reflexivity. Qed.

(** ** Delivery to the request engine *)

Lemma kzalloc_rcv (rx : rx_state) : rx_rcv (snd (kzalloc rx)) = rx_rcv rx.
Proof. unfold kzalloc. destruct (rx_kzalloc rx); reflexivity. Qed.

Lemma handle_event_rcv (IMM : Z) (tbl : list surfacegen5_ec_event_handler)
  (rx : rx_state) (buf : list Z) :
  rx_rcv (fst (surfacegen5_ssh_handle_event IMM tbl rx buf)) = rx_rcv rx.
Proof.
  unfold surfacegen5_ssh_handle_event.
  pose proof (kzalloc_rcv rx) as H.
  destruct (kzalloc rx) as [[|] rx1]; simpl in *; assumption.
Qed.

Lemma kfifo_in_fits (fifo bs : list Z) :
  (length bs <= kfifo_avail fifo)%nat -> kfifo_in fifo bs = fifo ++ bs.
Proof.
  intros H. unfold kfifo_in. rewrite firstn_all2 by assumption. reflexivity.
Qed.

Lemma region_length (mem : list Z) (off n : nat) :
  (length (region mem off n) <= n)%nat.
Proof. unfold region. rewrite length_firstn. lia. Qed.

(** What a control message does to the receiver. *)
Lemma receive_msg_ctrl_delivery (rx : rx_state) (buf : list Z) (size : nat) :
  let rcv := rx_rcv rx in
  let rcv' := rx_rcv (snd (fst (surfacegen5_ssh_receive_msg_ctrl rx buf size))) in
  rcv' = rcv
  \/ (rcv_state rcv = SG5_RCV_CONTROL
      /\ (ctrl_type buf = SG5_FRAME_TYPE_ACK ->
          ctrl_seq buf = ex_seq (rcv_expect rcv))
      /\ enqueued rcv rcv' [ctrl_type buf; ctrl_seq buf; 0]).
Proof.
  cbv zeta. unfold surfacegen5_ssh_receive_msg_ctrl.
  destruct (size <? SG5_MSG_LEN_CTRL)%nat; [left; reflexivity|].
  destruct (negb (surfacegen5_ssh_is_valid_ter buf SG5_FRAME_OFFS_TERM));
    [left; reflexivity|].
  destruct (negb (surfacegen5_ssh_is_valid_crc buf SG5_FRAME_OFFS_CTRL
                                               SG5_FRAME_OFFS_CTRL_CRC));
    [left; reflexivity|].
  destruct (rcv_state (rx_rcv rx)) eqn:Hst; try (left; reflexivity).
  destruct (ctrl_type buf =? SG5_FRAME_TYPE_ACK) eqn:Hack;
    destruct (ctrl_seq buf =? ex_seq (rcv_expect (rx_rcv rx))) eqn:Hseq;
    cbn [andb negb]; try (left; reflexivity);
    (destruct (Nat.leb_spec 3 (kfifo_avail (rcv_fifo (rx_rcv rx))));
     [right | left; reflexivity]);
    (split; [reflexivity|]);
    (split; [intros Ht; first [ apply Z.eqb_eq; assumption
                              | apply Z.eqb_neq in Hack; contradiction ] |]);
    (split; [|reflexivity]); simpl;
    apply kfifo_in_fits; simpl; lia.
Qed.

(** What a command message does to the receiver. *)
Lemma receive_msg_cmd_delivery (N IMM : Z)
  (tbl : list surfacegen5_ec_event_handler)
  (rx : rx_state) (buf : list Z) (size : nat) :
  let rcv := rx_rcv rx in
  let rcv' :=
    rx_rcv (snd (fst (surfacegen5_ssh_receive_msg_cmd N IMM tbl rx buf size))) in
  let len := u8 (ctrl_len buf - Z.of_nat SG5_BYTELEN_CMDFRAME) in
  rcv' = rcv
  \/ (rcv_state rcv = SG5_RCV_COMMAND
      /\ cmd_rqid buf = ex_rqid (rcv_expect rcv)
      /\ surfacegen5_rqid_is_event N (cmd_rqid buf) = false
      /\ enqueued rcv rcv'
           ([ctrl_type buf; ctrl_seq buf; len]
            ++ region buf SG5_FRAME_OFFS_CMD_PLD (Z.to_nat len))).
Proof.
  cbv zeta. unfold surfacegen5_ssh_receive_msg_cmd.
  destruct (size <? SG5_BYTELEN_SYNC + SG5_BYTELEN_CTRL + SG5_BYTELEN_CRC)%nat;
    [left; reflexivity|].
  destruct (negb (surfacegen5_ssh_is_valid_crc buf SG5_FRAME_OFFS_CTRL
                                               SG5_FRAME_OFFS_CTRL_CRC));
    [left; reflexivity|].
  destruct (size <? SG5_MSG_LEN_CMD_BASE + Z.to_nat (ctrl_len buf))%nat;
    [left; reflexivity|].
  destruct (negb (cmd_type buf =? SG5_FRAME_TYPE_CMD)); [left; reflexivity|].
  destruct (negb (surfacegen5_ssh_is_valid_crc _ _ _)); [left; reflexivity|].
  destruct (surfacegen5_rqid_is_event N (cmd_rqid buf)) eqn:Hev.
  { left. pose proof (handle_event_rcv IMM tbl rx buf) as H.
    destruct (surfacegen5_ssh_handle_event IMM tbl rx buf). exact H. }
  destruct (rcv_state (rx_rcv rx)) eqn:Hst; try (left; reflexivity).
  destruct (ex_rqid (rcv_expect (rx_rcv rx)) =? cmd_rqid buf) eqn:Hid;
    cbn [negb]; [|left; reflexivity].
  cbn [p_len].
  set (len := u8 (ctrl_len buf - Z.of_nat SG5_BYTELEN_CMDFRAME)).
  destruct (Nat.leb_spec (3 + Z.to_nat len) (kfifo_avail (rcv_fifo (rx_rcv rx))))
    as [Hfit|]; [right | left; reflexivity].
  apply Z.eqb_eq in Hid.
  split; [reflexivity|]. split; [symmetry; assumption|]. split; [reflexivity|].
  split; [|reflexivity]. simpl rcv_fifo.
  pose proof (region_length buf SG5_FRAME_OFFS_CMD_PLD (Z.to_nat len)) as Hr.
  unfold kfifo_avail in Hfit.
  rewrite (kfifo_in_fits (rcv_fifo (rx_rcv rx)))
    by (unfold kfifo_avail, packet_bytes; cbn [length]; lia).
  rewrite kfifo_in_fits.
  - rewrite <- app_assoc. reflexivity.
  - unfold kfifo_avail, packet_bytes. rewrite length_app. cbn [length]. lia.
Qed.



(** ** Event dispatch *)

Lemma evt_handler_no_ack_work (tbl : list surfacegen5_ec_event_handler)
  (ev : surfacegen5_event) :
  count_ack_work (surfacegen5_event_work_evt_handler tbl ev) = 0%nat.
Proof.
  unfold surfacegen5_event_work_evt_handler.
  destruct (h_handler (handler_slot tbl (ev_rqid ev))) as [handler|];
    [|reflexivity].
  destruct (handler ev =? 0); reflexivity.
Qed.




(** With memory available the same message is dispatched: ACK work first,
    then the handler work on the event queue. *)
Example event_dispatched :
  let rx := example_rx SG5_RCV_DISCARD (mk_expect false 0 0) in
  let ev := mk_event 1 0x08 0x00 0x03 1 [0x2a] in
  surfacegen5_ssh_eval_buf 5 example_immediate [] rx example_event 19
  = (19%nat, rx, [QueueWorkAck 0x05 ev; QueueDelayedWorkEvt ev 0]).
Proof. vm_compute. reflexivity. Qed.

(** ** Short command frames *)

(** C9 fails on the code: nothing on the way to the dispatcher compares
    ctrl.len with the size of the command frame.  This message announces
    a command frame of one byte; both checksums are right, the request id is
    read from the bytes that follow the message, and the event is
    dispatched with a payload length of 1 - 8 wrapped to 16 bits. *)
Lemma short_cmd_frame_dispatched :
  let rx := example_rx SG5_RCV_DISCARD (mk_expect false 0 0) in
  let result := surfacegen5_ssh_eval_buf 5 example_immediate [] rx
                  example_short_cmd 15 in
  ctrl_len example_short_cmd = 1
  /\ fst (fst result) = 11%nat
  /\ match snd result with
     | QueueWorkAck _ ev :: _ => ev_rqid ev = 1 /\ ev_len ev = 65529
     | _ => False
     end.
Proof. vm_compute. repeat apply conj; reflexivity. Qed.

(** ** Chunking of the inbound stream *)

Section Chunking.

Variable N : Z.
Variable IMM : Z.
Variable tbl : list surfacegen5_ec_event_handler.

Local Abbreviation eval := (surfacegen5_ssh_eval_buf N IMM tbl).

(** The evaluator never consumes more than is buffered. *)
Lemma eval_buf_le (rx : rx_state) (buf : list Z) (size : nat) :
  (fst (fst (eval rx buf size)) <= size)%nat.
Proof. eval_branches; cbn [fst snd]; sizes; lia. Qed.

(** "Need more bytes" has no effect. *)
Lemma eval_buf_zero (rx : rx_state) (buf : list Z) (size : nat) :
  fst (fst (eval rx buf size)) = 0%nat ->
  eval rx buf size = (0%nat, rx, []).
Proof. eval_branches; cbn [fst snd]; sizes; intros; (reflexivity || lia). Qed.

(** The evaluator does not look at the evaluation-buffer fields of the
    receiver. *)
Lemma kzalloc_set_eval_buf (rx : rx_state) (eb : surfacegen5_eval_buf) :
  kzalloc (set_eval_buf rx eb)
  = (fst (kzalloc rx), set_eval_buf (snd (kzalloc rx)) eb).
Proof.
  unfold kzalloc, set_eval_buf, set_rcv. cbn [rx_kzalloc rx_rcv].
  destruct (rx_kzalloc rx) eqn:E; cbn [fst snd rx_kzalloc rx_rcv];
    rewrite ?E; reflexivity.
Qed.

Lemma handle_event_set_eval_buf (rx : rx_state) (eb : surfacegen5_eval_buf)
  (buf : list Z) :
  surfacegen5_ssh_handle_event IMM tbl (set_eval_buf rx eb) buf
  = (set_eval_buf (fst (surfacegen5_ssh_handle_event IMM tbl rx buf)) eb,
     snd (surfacegen5_ssh_handle_event IMM tbl rx buf)).
Proof.
  unfold surfacegen5_ssh_handle_event. rewrite kzalloc_set_eval_buf.
  destruct (kzalloc rx) as [[|] rx1]; reflexivity.
Qed.

Lemma eval_buf_set_eval_buf (rx : rx_state) (eb : surfacegen5_eval_buf)
  (buf : list Z) (size : nat) :
  eval (set_eval_buf rx eb) buf size
  = (fst (fst (eval rx buf size)),
     set_eval_buf (snd (fst (eval rx buf size))) eb,
     snd (eval rx buf size)).
Proof.
  unfold surfacegen5_ssh_eval_buf, surfacegen5_ssh_receive_msg_ctrl,
    surfacegen5_ssh_receive_msg_cmd.
  rewrite handle_event_set_eval_buf.
  cbn [set_eval_buf set_rcv rx_rcv rx_kzalloc rcv_state rcv_signal rcv_fifo
       rcv_expect rcv_eval_buf].
  eval_branches; reflexivity.
Qed.

(** *** The evaluator reads the buffered bytes only *)

Lemma rd_agree (v v' : list Z) (size i : nat) :
  firstn size v = firstn size v' -> (i < size)%nat -> rd v i = rd v' i.
Proof.
  intros H Hi. unfold rd.
  pose proof (nth_firstn size v i 0) as E.
  pose proof (nth_firstn size v' i 0) as E'.
  destruct (Nat.ltb_spec i size); [|lia].
  rewrite <- E, <- E', H. reflexivity.
Qed.

Lemma region_agree (v v' : list Z) (size off n : nat) :
  firstn size v = firstn size v' -> (off + n <= size)%nat ->
  region v off n = region v' off n.
Proof.
  intros H Hle. unfold region.
  rewrite !firstn_skipn_comm.
  replace (firstn (off + n) v) with (firstn (off + n) (firstn size v))
    by (rewrite firstn_firstn; f_equal; lia).
  replace (firstn (off + n) v') with (firstn (off + n) (firstn size v'))
    by (rewrite firstn_firstn; f_equal; lia).
  rewrite H. reflexivity.
Qed.

Lemma valid_crc_agree (v v' : list Z) (size b e : nat) :
  firstn size v = firstn size v' -> (b <= e)%nat -> (e + 2 <= size)%nat ->
  surfacegen5_ssh_is_valid_crc v b e = surfacegen5_ssh_is_valid_crc v' b e.
Proof.
  intros H Hb He. unfold surfacegen5_ssh_is_valid_crc.
  rewrite (region_agree v v' size b (e - b) H) by lia.
  rewrite (rd_agree v v' size e H), (rd_agree v v' size (e + 1) H) by lia.
  reflexivity.
Qed.

Lemma receive_msg_ctrl_ext (rx : rx_state) (v v' : list Z) (size : nat) :
  firstn size v = firstn size v' ->
  surfacegen5_ssh_receive_msg_ctrl rx v size
  = surfacegen5_ssh_receive_msg_ctrl rx v' size.
Proof.
  intros H. unfold surfacegen5_ssh_receive_msg_ctrl.
  destruct (Nat.ltb_spec size SG5_MSG_LEN_CTRL) as [|Hs]; [reflexivity|].
  unfold surfacegen5_ssh_is_valid_ter, ctrl_type, ctrl_seq.
  sizes.
  rewrite (valid_crc_agree v v' size 2 (2 + 4) H) by lia.
  rewrite (rd_agree v v' size (2 + 4 + 2) H) by lia.
  rewrite (rd_agree v v' size (2 + 4 + 2 + 1) H) by lia.
  rewrite (rd_agree v v' size (2 + 0) H) by lia.
  rewrite (rd_agree v v' size (2 + 3) H) by lia.
  reflexivity.
Qed.

Lemma u16_sub_le (x : Z) : 8 <= x -> 0 <= u16 (x - 8) <= x - 8.
Proof.
  intros H. unfold u16. split.
  - apply Z.mod_pos_bound. lia.
  - apply Z.mod_le; lia.
Qed.

Lemma u8_sub_le (x : Z) : 8 <= x -> 0 <= u8 (x - 8) <= x - 8.
Proof.
  intros H. unfold u8. split.
  - apply Z.mod_pos_bound. lia.
  - apply Z.mod_le; lia.
Qed.

Lemma receive_msg_cmd_ext (rx : rx_state) (v v' : list Z) (size : nat) :
  firstn size v = firstn size v' ->
  8 <= ctrl_len v ->
  surfacegen5_ssh_receive_msg_cmd N IMM tbl rx v size
  = surfacegen5_ssh_receive_msg_cmd N IMM tbl rx v' size.
Proof.
  intros H Hlen. unfold surfacegen5_ssh_receive_msg_cmd.
  destruct (Nat.ltb_spec size
              (SG5_BYTELEN_SYNC + SG5_BYTELEN_CTRL + SG5_BYTELEN_CRC)) as [|Hs];
    [reflexivity|].
  assert (Hl : ctrl_len v' = ctrl_len v).
  { unfold ctrl_len. sizes.
    symmetry. apply (rd_agree v v' size); [assumption | lia]. }
  rewrite Hl. sizes.
  rewrite <- (valid_crc_agree v v' size 2 (2 + 4) H) by lia.
  destruct (negb (surfacegen5_ssh_is_valid_crc v 2 (2 + 4))); [reflexivity|].
  destruct (Nat.ltb_spec size (2 + 4 + 2 + 2 + Z.to_nat (ctrl_len v))) as [|Hm];
    [reflexivity|].
  pose proof (u16_sub_le _ Hlen) as H16.
  pose proof (u8_sub_le _ Hlen) as H8.
  assert (Hrd : forall i, (i < 18)%nat -> rd v' i = rd v i).
  { intros i Hi. symmetry. apply (rd_agree v v' size); [assumption | lia]. }
  assert (Hfld : ctrl_type v' = ctrl_type v /\ ctrl_seq v' = ctrl_seq v
                 /\ cmd_type v' = cmd_type v /\ cmd_tc v' = cmd_tc v
                 /\ cmd_iid v' = cmd_iid v /\ cmd_cid v' = cmd_cid v
                 /\ cmd_rqid v' = cmd_rqid v).
  { unfold ctrl_type, ctrl_seq, cmd_type, cmd_tc, cmd_iid, cmd_cid, cmd_rqid,
      cmd_rqid_hi, cmd_rqid_lo.
    sizes. repeat apply conj; rewrite ?Hrd by lia; reflexivity. }
  destruct Hfld as (Ht & Hq & Hct & Htc & Hiid & Hcid & Hid).
  rewrite <- (valid_crc_agree v v' size (2 + 4 + 2)
                (2 + 4 + 2 + Z.to_nat (ctrl_len v)) H) by lia.
  assert (He : surfacegen5_ssh_handle_event IMM tbl rx v'
               = surfacegen5_ssh_handle_event IMM tbl rx v).
  { unfold surfacegen5_ssh_handle_event.
    rewrite Hl, Hq, Htc, Hiid, Hcid, Hid. sizes.
    rewrite <- (region_agree v v' size (2 + 4 + 2 + 8) _ H); [reflexivity|].
    change (Z.of_nat 8) with 8. lia. }
  rewrite He, Ht, Hq, Hct, Hid. cbn [p_len].
  rewrite <- (region_agree v v' size (2 + 4 + 2 + 8) _ H); [reflexivity|].
  change (Z.of_nat 8) with 8. lia.
Qed.

Lemma cmd_len_ok_cmd (v : list Z) :
  cmd_len_ok v = true -> (ctrl_type v =? SG5_FRAME_TYPE_CMD) = true ->
  8 <= ctrl_len v.
Proof.
  unfold cmd_len_ok. intros H Ht. rewrite Ht in H. cbn [negb orb] in H.
  apply Z.leb_le. assumption.
Qed.

Lemma cmd_len_ok_agree (v v' : list Z) (size : nat) :
  firstn size v = firstn size v' ->
  (SG5_BYTELEN_SYNC + SG5_BYTELEN_CTRL <= size)%nat ->
  cmd_len_ok v = cmd_len_ok v'.
Proof.
  intros H Hs. unfold cmd_len_ok, ctrl_type, ctrl_len. sizes.
  rewrite (rd_agree v v' size (2 + 0) H), (rd_agree v v' size (2 + 1) H) by lia.
  reflexivity.
Qed.

(** Views that agree on the buffered bytes are evaluated alike, provided
    a command message has a sound length byte. *)
Lemma eval_buf_ext (rx : rx_state) (v v' : list Z) (size : nat) :
  firstn size v = firstn size v' ->
  ((SG5_BYTELEN_SYNC + SG5_BYTELEN_CTRL <= size)%nat -> cmd_len_ok v = true) ->
  eval rx v size = eval rx v' size.
Proof.
  intros H Hok. unfold surfacegen5_ssh_eval_buf.
  destruct (Nat.ltb_spec size (SG5_BYTELEN_SYNC + SG5_BYTELEN_CTRL)) as [|Hs];
    [reflexivity|].
  specialize (Hok Hs).
  unfold surfacegen5_ssh_is_valid_syn.
  assert (Ht : ctrl_type v' = ctrl_type v).
  { unfold ctrl_type. sizes. symmetry. apply (rd_agree v v' size); [assumption|lia]. }
  sizes.
  rewrite <- (rd_agree v v' size 0 H), <- (rd_agree v v' size 1 H) by lia.
  rewrite Ht.
  destruct (negb ((rd v 0 =? 170) && (rd v 1 =? 85))); [reflexivity|].
  destruct ((ctrl_type v =? SG5_FRAME_TYPE_ACK)
            || (ctrl_type v =? SG5_FRAME_TYPE_RETRY)).
  - apply receive_msg_ctrl_ext. assumption.
  - destruct (ctrl_type v =? SG5_FRAME_TYPE_CMD) eqn:Hc; [|reflexivity].
    apply receive_msg_cmd_ext; [assumption|].
    apply cmd_len_ok_cmd; assumption.
Qed.

(** An evaluation that consumed bytes, other than by discarding
    everything, gives the same result when more bytes are buffered. *)
Lemma eval_buf_mono (rx : rx_state) (v : list Z) (size size' : nat) :
  (size <= size')%nat ->
  (0 < fst (fst (eval rx v size)))%nat ->
  forallb (fun e => negb (discards_everything e)) (snd (eval rx v size')) = true ->
  eval rx v size' = eval rx v size.
Proof.
  intros Hle.
  unfold surfacegen5_ssh_eval_buf, surfacegen5_ssh_receive_msg_ctrl,
    surfacegen5_ssh_receive_msg_cmd.
  repeat match goal with
    | |- context [(size <? ?k)%nat] =>
        destruct (Nat.ltb_spec size k);
        [ try (cbn [fst snd]; intros; exfalso; lia)
        | rewrite (proj2 (Nat.ltb_ge size' k)) by lia ]
    | |- context [(?a <=? ?b)%nat] => destruct (Nat.leb_spec a b)
    | |- context [match rcv_state ?r with _ => _ end] =>
        destruct (rcv_state r) eqn:?
    | |- context [surfacegen5_ssh_handle_event ?i ?t ?r ?b] =>
        destruct (surfacegen5_ssh_handle_event i t r b) eqn:?
    | |- context [if ?c then _ else _] => destruct c eqn:?
    end;
    cbn [fst snd forallb discards_everything negb andb];
    intros; try reflexivity; try discriminate; sizes; lia.
Qed.

(** *** The evaluation loop *)

Local Abbreviation run_ := (run N IMM tbl).
Local Abbreviation run_clean_ := (run_clean N IMM tbl).
Local Abbreviation step_clean_ := (step_clean N IMM tbl).

Lemma run_unfold (fuel : nat) (rx : rx_state) (v : list Z) (size : nat) :
  run_ (S fuel) rx v size
  = if (0 <? size)%nat
    then
      if (fst (fst (eval rx v size)) =? 0)%nat
      then (snd (fst (eval rx v size)), 0%nat, snd (eval rx v size))
      else
        (fst (fst (run_ fuel (snd (fst (eval rx v size)))
                        (skipn (fst (fst (eval rx v size))) v)
                        (size - fst (fst (eval rx v size))))),
         (fst (fst (eval rx v size))
          + snd (fst (run_ fuel (snd (fst (eval rx v size)))
                           (skipn (fst (fst (eval rx v size))) v)
                           (size - fst (fst (eval rx v size))))))%nat,
         snd (eval rx v size)
         ++ snd (run_ fuel (snd (fst (eval rx v size)))
                      (skipn (fst (fst (eval rx v size))) v)
                      (size - fst (fst (eval rx v size)))))
    else (rx, 0%nat, []).
Proof.
  cbn [run]. destruct (0 <? size)%nat; [|reflexivity].
  destruct (eval rx v size) as [[n rx1] eff]. cbn [fst snd].
  destruct (n =? 0)%nat; [reflexivity|].
  destruct (run N IMM tbl fuel rx1 (skipn n v) (size - n)) as [[rx2 c] eff2].
  reflexivity.
Qed.

Lemma run_clean_unfold (fuel : nat) (rx : rx_state) (v : list Z) (size : nat) :
  run_clean_ (S fuel) rx v size
  = if (0 <? size)%nat
    then
      step_clean_ rx v size
      && (if (fst (fst (eval rx v size)) =? 0)%nat then true
          else run_clean_ fuel (snd (fst (eval rx v size)))
                          (skipn (fst (fst (eval rx v size))) v)
                          (size - fst (fst (eval rx v size))))
    else true.
Proof.
  cbn [run_clean]. destruct (0 <? size)%nat; [|reflexivity].
  destruct (eval rx v size) as [[n rx1] eff]. reflexivity.
Qed.

Lemma run_zero_size (fuel : nat) (rx : rx_state) (v : list Z) :
  run_ fuel rx v 0 = (rx, 0%nat, []).
Proof. destruct fuel; reflexivity. Qed.

Lemma run_clean_zero_size (fuel : nat) (rx : rx_state) (v : list Z) :
  run_clean_ fuel rx v 0 = true.
Proof. destruct fuel; reflexivity. Qed.

(** Enough fuel: with at least [size] turns the loop has run to its end,
    and more fuel changes nothing. *)
Lemma run_fuel (f1 f2 : nat) (rx : rx_state) (v : list Z) (size : nat) :
  (size <= f1)%nat -> (size <= f2)%nat ->
  run_ f1 rx v size = run_ f2 rx v size.
Proof.
  revert f2 rx v size. induction f1 as [|f1 IH]; intros f2 rx v size H1 H2.
  - assert (size = 0%nat) by lia. subst. rewrite !run_zero_size. reflexivity.
  - destruct f2 as [|f2].
    + assert (size = 0%nat) by lia. subst. rewrite !run_zero_size. reflexivity.
    + rewrite !run_unfold.
      destruct (Nat.ltb_spec 0 size); [|reflexivity].
      pose proof (eval_buf_le rx v size).
      destruct (Nat.eqb_spec (fst (fst (eval rx v size))) 0); [reflexivity|].
      rewrite (IH f2) by lia. reflexivity.
Qed.

Lemma run_clean_fuel (f1 f2 : nat) (rx : rx_state) (v : list Z) (size : nat) :
  (size <= f1)%nat -> (size <= f2)%nat ->
  run_clean_ f1 rx v size = run_clean_ f2 rx v size.
Proof.
  revert f2 rx v size. induction f1 as [|f1 IH]; intros f2 rx v size H1 H2.
  - assert (size = 0%nat) by lia. subst. rewrite !run_clean_zero_size.
    reflexivity.
  - destruct f2 as [|f2].
    + assert (size = 0%nat) by lia. subst. rewrite !run_clean_zero_size.
      reflexivity.
    + rewrite !run_clean_unfold.
      destruct (Nat.ltb_spec 0 size); [|reflexivity].
      pose proof (eval_buf_le rx v size).
      destruct (Nat.eqb_spec (fst (fst (eval rx v size))) 0); [reflexivity|].
      rewrite (IH f2) by lia. reflexivity.
Qed.

Lemma run_consumed_le (fuel : nat) (rx : rx_state) (v : list Z) (size : nat) :
  (snd (fst (run_ fuel rx v size)) <= size)%nat.
Proof.
  revert rx v size. induction fuel as [|fuel IH]; intros rx v size.
  - cbn. lia.
  - rewrite run_unfold.
    destruct (Nat.ltb_spec 0 size); [|cbn; lia].
    pose proof (eval_buf_le rx v size).
    destruct (Nat.eqb_spec (fst (fst (eval rx v size))) 0); cbn [fst snd]; [lia|].
    specialize (IH (snd (fst (eval rx v size)))
                   (skipn (fst (fst (eval rx v size))) v)
                   (size - fst (fst (eval rx v size)))%nat).
    lia.
Qed.

Lemma run_set_eval_buf (fuel : nat) (rx : rx_state)
  (eb : surfacegen5_eval_buf) (v : list Z) (size : nat) :
  run_ fuel (set_eval_buf rx eb) v size
  = (set_eval_buf (fst (fst (run_ fuel rx v size))) eb,
     snd (fst (run_ fuel rx v size)),
     snd (run_ fuel rx v size)).
Proof.
  revert rx v size. induction fuel as [|fuel IH]; intros rx v size.
  - reflexivity.
  - rewrite !run_unfold.
    destruct (Nat.ltb_spec 0 size); [|reflexivity].
    rewrite eval_buf_set_eval_buf. cbn [fst snd].
    destruct (Nat.eqb_spec (fst (fst (eval rx v size))) 0); [reflexivity|].
    rewrite IH. reflexivity.
Qed.

(** The loop of the receive callback is the loop on the view that starts
    at [offs]. *)
Lemma eval_loop_run (fuel : nat) (mem : list Z) (len : nat) (rx : rx_state)
  (offs : nat) :
  (offs <= len)%nat ->
  eval_loop N IMM tbl fuel mem len rx offs
  = (fst (fst (run_ fuel rx (skipn offs mem) (len - offs))),
     (offs + snd (fst (run_ fuel rx (skipn offs mem) (len - offs))))%nat,
     snd (run_ fuel rx (skipn offs mem) (len - offs))).
Proof.
  revert rx offs. induction fuel as [|fuel IH]; intros rx offs Hle.
  - cbn [run eval_loop fst snd]. rewrite Nat.add_0_r. reflexivity.
  - rewrite run_unfold. cbn [eval_loop].
    destruct (Nat.ltb_spec offs len); destruct (Nat.ltb_spec 0 (len - offs));
      try lia; [|cbn [fst snd]; rewrite Nat.add_0_r; reflexivity].
    pose proof (eval_buf_le rx (skipn offs mem) (len - offs)) as Hn.
    destruct (eval rx (skipn offs mem) (len - offs)) as [[n rx1] eff].
    cbn [fst snd] in *.
    destruct (Nat.eqb_spec n 0);
      [subst n; rewrite Nat.add_0_r; reflexivity|].
    rewrite IH by lia. rewrite skipn_skipn.
    replace (len - (offs + n))%nat with (len - offs - n)%nat by lia.
    replace (n + offs)%nat with (offs + n)%nat by lia.
    cbn [fst snd]. rewrite Nat.add_assoc. reflexivity.
Qed.

(** The fuel the receive callback gives its loop is enough: more fuel
    yields the same result. *)
Lemma eval_loop_fuel (fuel : nat) (mem : list Z) (len : nat) (rx : rx_state) :
  (len <= fuel)%nat ->
  eval_loop N IMM tbl fuel mem len rx 0 = eval_loop N IMM tbl len mem len rx 0.
Proof.
  intros H. rewrite !eval_loop_run by lia.
  rewrite (run_fuel fuel len) by lia. reflexivity.
Qed.

Lemma eval_buf_pos_size (rx : rx_state) (v : list Z) (size : nat) :
  (0 < fst (fst (eval rx v size)))%nat ->
  (SG5_BYTELEN_SYNC + SG5_BYTELEN_CTRL <= size)%nat.
Proof.
  unfold surfacegen5_ssh_eval_buf.
  destruct (Nat.ltb_spec size (SG5_BYTELEN_SYNC + SG5_BYTELEN_CTRL));
    [cbn [fst]; lia | intros _; assumption].
Qed.

Lemma step_clean_inv (rx : rx_state) (v : list Z) (size : nat) :
  step_clean_ rx v size = true ->
  (SG5_BYTELEN_SYNC + SG5_BYTELEN_CTRL <= size)%nat ->
  forallb (fun e => negb (discards_everything e)) (snd (eval rx v size)) = true
  /\ cmd_len_ok v = true.
Proof.
  unfold step_clean. intros H Hs.
  destruct (Nat.ltb_spec size (SG5_BYTELEN_SYNC + SG5_BYTELEN_CTRL)); [lia|].
  cbn [orb] in H. apply andb_true_iff in H. exact H.
Qed.

Lemma firstn_skipn_agree (v v' : list Z) (size n : nat) :
  firstn size v = firstn size v' -> (n <= size)%nat ->
  firstn (size - n) (skipn n v) = firstn (size - n) (skipn n v').
Proof.
  intros H Hn. rewrite !firstn_skipn_comm.
  replace (n + (size - n))%nat with size by lia. rewrite H. reflexivity.
Qed.

Lemma step_ext (rx : rx_state) (v v' : list Z) (size : nat) :
  firstn size v = firstn size v' ->
  step_clean_ rx v size = true ->
  eval rx v' size = eval rx v size /\ step_clean_ rx v' size = true.
Proof.
  intros H Hc.
  assert (He : eval rx v' size = eval rx v size).
  { symmetry. apply eval_buf_ext; [assumption|].
    intros Hs. apply (step_clean_inv rx v size Hc Hs). }
  split; [exact He|].
  unfold step_clean in *. rewrite He.
  destruct (Nat.ltb_spec size (SG5_BYTELEN_SYNC + SG5_BYTELEN_CTRL));
    [reflexivity|].
  rewrite <- (cmd_len_ok_agree v v' size) by assumption. exact Hc.
Qed.

(** A clean run depends on the buffered bytes only, not on what lies
    behind them in the buffer. *)
Lemma run_ext (fuel : nat) (rx : rx_state) (v v' : list Z) (size : nat) :
  firstn size v = firstn size v' ->
  run_clean_ fuel rx v size = true ->
  run_ fuel rx v' size = run_ fuel rx v size
  /\ run_clean_ fuel rx v' size = true.
Proof.
  revert rx v v' size. induction fuel as [|fuel IH]; intros rx v v' size H Hc.
  - split; reflexivity.
  - rewrite run_clean_unfold in Hc. rewrite !run_unfold, run_clean_unfold.
    destruct (Nat.ltb_spec 0 size); [|split; reflexivity].
    apply andb_true_iff in Hc. destruct Hc as [Hstep Hrest].
    destruct (step_ext rx v v' size H Hstep) as [He Hstep'].
    rewrite He, Hstep'. cbn [andb].
    pose proof (eval_buf_le rx v size) as Hle.
    destruct (Nat.eqb_spec (fst (fst (eval rx v size))) 0);
      [split; reflexivity|].
    destruct (IH (snd (fst (eval rx v size)))
                 (skipn (fst (fst (eval rx v size))) v)
                 (skipn (fst (fst (eval rx v size))) v')
                 (size - fst (fst (eval rx v size)))%nat
                 (firstn_skipn_agree v v' size _ H Hle) Hrest) as [IH1 IH2].
    rewrite IH1, IH2. split; reflexivity.
Qed.

(** One clean evaluation of the whole buffer is the evaluation of a part
    of it whenever that part already yields a message. *)
Lemma eval_buf_stable (rx : rx_state) (v v' : list Z) (s s' : nat) :
  firstn s v = firstn s v' -> (s <= s')%nat ->
  step_clean_ rx v' s' = true ->
  (0 < fst (fst (eval rx v s)))%nat ->
  eval rx v' s' = eval rx v s.
Proof.
  intros H Hle Hc Hpos.
  pose proof (eval_buf_pos_size rx v s Hpos) as Hs.
  destruct (step_clean_inv rx v' s' Hc ltac:(lia)) as [Hall Hok].
  assert (He : eval rx v s = eval rx v' s).
  { apply eval_buf_ext; [assumption|]. intros _.
    rewrite (cmd_len_ok_agree v v' s) by assumption. exact Hok. }
  rewrite He. apply eval_buf_mono; [assumption | rewrite <- He; assumption
                                    | assumption].
Qed.

(** Running the loop on all the bytes is running it on a first part of
    them and then on what that left over together with the rest. *)
Lemma run_absorb (f f' : nat) (rx : rx_state) (v v' : list Z) (s s' : nat) :
  firstn s v = firstn s v' -> (s <= s')%nat -> (s <= f)%nat -> (s' <= f')%nat ->
  run_clean_ f' rx v' s' = true ->
  let r := run_ f rx v s in
  let c := snd (fst r) in
  let r2 := run_ (s' - c) (fst (fst r)) (skipn c v') (s' - c) in
  run_ f' rx v' s' = (fst (fst r2), (c + snd (fst r2))%nat, snd r ++ snd r2)
  /\ run_clean_ (s' - c) (fst (fst r)) (skipn c v') (s' - c) = true.
Proof.
  assert (Hnothing : forall f' rx v' s',
             (s' <= f')%nat -> run_clean_ f' rx v' s' = true ->
             run_ f' rx v' s'
             = (fst (fst (run_ (s' - 0) rx (skipn 0 v') (s' - 0))),
                (0 + snd (fst (run_ (s' - 0) rx (skipn 0 v') (s' - 0))))%nat,
                [] ++ snd (run_ (s' - 0) rx (skipn 0 v') (s' - 0)))
             /\ run_clean_ (s' - 0) rx (skipn 0 v') (s' - 0) = true).
  { clear. intros f' rx v' s' Hf Hc. rewrite Nat.sub_0_r. cbn [skipn app Nat.add].
    rewrite (run_fuel s' f') by lia.
    rewrite (run_clean_fuel s' f') by lia.
    split; [|assumption].
    destruct (run N IMM tbl f' rx v' s') as [[a b] c]. reflexivity. }
  revert f' rx v v' s s'.
  induction f as [|f IH]; intros f' rx v v' s s' H Hle Hf Hf' Hc.
  - assert (s = 0%nat) by lia. subst s. cbv zeta. rewrite run_zero_size.
    cbn [fst snd]. apply Hnothing; assumption.
  - cbv zeta. rewrite (run_unfold f rx v s).
    destruct (Nat.ltb_spec 0 s) as [Hs|Hs];
      [|cbn [fst snd]; apply Hnothing; assumption].
    destruct (Nat.eqb_spec (fst (fst (eval rx v s))) 0) as [Hz|Hz].
    { rewrite (eval_buf_zero rx v s Hz). cbn [fst snd].
      apply Hnothing; assumption. }
    cbn [fst snd].
    destruct f' as [|f']; [lia|].
    rewrite run_clean_unfold in Hc. rewrite (run_unfold f' rx v' s').
    destruct (Nat.ltb_spec 0 s'); [|lia].
    apply andb_true_iff in Hc. destruct Hc as [Hstep Hrest].
    rewrite (eval_buf_stable rx v v' s s' H Hle Hstep ltac:(lia)) in *.
    pose proof (eval_buf_le rx v s) as Hn.
    set (n := fst (fst (eval rx v s))) in *.
    set (rx1 := snd (fst (eval rx v s))) in *.
    destruct (Nat.eqb_spec n 0); [lia|].
    specialize (IH f' rx1 (skipn n v) (skipn n v') (s - n)%nat (s' - n)%nat
                   (firstn_skipn_agree v v' s n H Hn)
                   ltac:(lia) ltac:(lia) ltac:(lia) Hrest).
    cbv zeta in IH. destruct IH as [IH1 IH2].
    set (r := run N IMM tbl f rx1 (skipn n v) (s - n)) in *.
    rewrite skipn_skipn in IH1, IH2.
    replace (snd (fst r) + n)%nat with (n + snd (fst r))%nat in IH1, IH2 by lia.
    replace (s' - n - snd (fst r))%nat with (s' - (n + snd (fst r)))%nat
      in IH1, IH2 by lia.
    rewrite IH1. cbn [fst snd].
    split; [|exact IH2].
    rewrite Nat.add_assoc, app_assoc. reflexivity.
Qed.

(** *** One call of the receive callback *)

Lemma store_length (mem : list Z) (off : nat) (bs : list Z) :
  (off + length bs <= length mem)%nat ->
  length (store mem off bs) = length mem.
Proof.
  intros H. unfold store.
  rewrite !length_app, length_firstn, length_skipn. lia.
Qed.

Lemma firstn_store (mem : list Z) (off : nat) (bs : list Z) :
  (off <= length mem)%nat ->
  firstn (off + length bs) (store mem off bs) = firstn off mem ++ bs.
Proof.
  intros H. unfold store. rewrite app_assoc.
  rewrite firstn_app, length_app, length_firstn.
  replace (off + length bs - (Nat.min off (length mem) + length bs))%nat
    with 0%nat by lia.
  rewrite firstn_O, app_nil_r. apply firstn_all2.
  rewrite length_app, length_firstn. lia.
Qed.

Lemma region_of_prefix (mem : list Z) (len c : nat) :
  (c <= len)%nat ->
  region mem c (len - c) = skipn c (firstn len mem).
Proof.
  intros H. unfold region. rewrite firstn_skipn_comm.
  replace (c + (len - c))%nat with len by lia. reflexivity.
Qed.

Lemma set_eval_buf_twice (rx : rx_state) (eb eb' : surfacegen5_eval_buf) :
  set_eval_buf (set_eval_buf rx eb) eb' = set_eval_buf rx eb'.
Proof. reflexivity. Qed.

(** What one call does, in terms of the loop on the buffer memory. *)
Lemma receive_buf_raw (rx : rx_state) (chunk : list Z) :
  let eb := rcv_eval_buf (rx_rcv rx) in
  eb_wf eb ->
  (length chunk <= eb_cap eb - eb_len eb)%nat ->
  let mem1 := store (eb_mem eb) (eb_len eb) chunk in
  let len1 := (eb_len eb + length chunk)%nat in
  let r := run_ len1 rx mem1 len1 in
  let c := snd (fst r) in
  let eb2 := mk_eval_buf (eb_cap eb) (len1 - c)
               (store mem1 0 (region mem1 c (len1 - c))) in
  surfacegen5_ssh_receive_buf N IMM tbl rx chunk
  = (length chunk, set_eval_buf (fst (fst r)) eb2, snd r)
  /\ firstn len1 mem1 = eb_content eb ++ chunk
  /\ eb_content eb2 = skipn c (eb_content eb ++ chunk)
  /\ eb_wf eb2.
Proof.
  intros eb [Hmem Hlen] Hfit mem1 len1 r c eb2.
  assert (Hc : (c <= len1)%nat) by apply run_consumed_le.
  assert (Hmem1 : length mem1 = eb_cap eb).
  { subst mem1. rewrite store_length; [assumption | lia]. }
  assert (Hpre : firstn len1 mem1 = eb_content eb ++ chunk).
  { subst mem1 len1. apply firstn_store. lia. }
  assert (Hreg : region mem1 c (len1 - c) = skipn c (eb_content eb ++ chunk)).
  { rewrite region_of_prefix by assumption. rewrite Hpre. reflexivity. }
  assert (Hreglen : length (region mem1 c (len1 - c)) = (len1 - c)%nat).
  { rewrite region_of_prefix by assumption.
    rewrite length_skipn, length_firstn. lia. }
  split; [|split; [exact Hpre|split]].
  - unfold surfacegen5_ssh_receive_buf. fold eb.
    rewrite Nat.min_l by assumption. rewrite firstn_all.
    fold mem1. fold len1.
    rewrite eval_loop_run by lia. rewrite run_set_eval_buf.
    cbn [skipn]. rewrite Nat.sub_0_r. fold r. cbn [fst snd Nat.add].
    fold c. rewrite set_eval_buf_twice. reflexivity.
  - rewrite <- Hreg. unfold eb_content, eb2. cbn [eb_len eb_mem].
    rewrite <- Hreglen at 1.
    unfold store. cbn [firstn app]. rewrite firstn_app, firstn_all, Nat.sub_diag.
    cbn [firstn]. apply app_nil_r.
  - unfold eb_wf, eb2. cbn [eb_len eb_mem eb_cap]. split; [|lia].
    rewrite store_length; [assumption|]. cbn [Nat.add]. lia.
Qed.

Lemma run_clean_set_eval_buf (fuel : nat) (rx : rx_state)
  (eb : surfacegen5_eval_buf) (v : list Z) (size : nat) :
  run_clean_ fuel (set_eval_buf rx eb) v size = run_clean_ fuel rx v size.
Proof.
  revert rx v size. induction fuel as [|fuel IH]; intros rx v size.
  - reflexivity.
  - rewrite !run_clean_unfold. unfold step_clean.
    rewrite eval_buf_set_eval_buf. cbn [fst snd]. rewrite IH. reflexivity.
Qed.

Lemma rx_equiv_sym (a b : rx_state) : rx_equiv a b -> rx_equiv b a.
Proof. unfold rx_equiv. intuition congruence. Qed.

Lemma rx_equiv_trans (a b c : rx_state) :
  rx_equiv a b -> rx_equiv b c -> rx_equiv a c.
Proof. unfold rx_equiv. intuition congruence. Qed.

Lemma eb_content_length (eb : surfacegen5_eval_buf) :
  eb_wf eb -> length (eb_content eb) = eb_len eb.
Proof.
  intros [Hm Hl]. unfold eb_content. rewrite length_firstn. lia.
Qed.

Lemma rx_equiv_with_content (rx : rx_state) (eb : surfacegen5_eval_buf)
  (bytes : list Z) :
  eb_len eb = length bytes -> eb_content eb = bytes ->
  rx_equiv (set_eval_buf rx eb) (with_content rx (eb_cap eb) bytes).
Proof.
  intros Hl Hc. unfold rx_equiv, set_eval_buf, set_rcv, with_content.
  cbn [rx_rcv rx_kzalloc rcv_state rcv_signal rcv_fifo rcv_expect rcv_eval_buf
       eb_cap eb_len].
  repeat apply conj; try reflexivity; try assumption.
  rewrite Hc. unfold eb_content. cbn [eb_len eb_mem]. symmetry. apply firstn_all.
Qed.

(** Successive calls against the loop on all the bytes: what was
    buffered followed by the whole stream. *)
Lemma receive_chunks_canon (chunks : list (list Z)) :
  forall rx : rx_state,
  chunks <> [] ->
  let eb := rcv_eval_buf (rx_rcv rx) in
  eb_wf eb ->
  (length (concat chunks) <= eb_cap eb - eb_len eb)%nat ->
  let bytes := eb_content eb ++ concat chunks in
  run_clean_ (length bytes) rx bytes (length bytes) = true ->
  let r := run_ (length bytes) rx bytes (length bytes) in
  snd (receive_chunks N IMM tbl rx chunks) = snd r
  /\ rx_equiv (fst (receive_chunks N IMM tbl rx chunks))
              (with_content (fst (fst r)) (eb_cap eb)
                            (skipn (snd (fst r)) bytes)).
Proof.
  induction chunks as [|c rest IH]; intros rx Hne eb Hwf Hfit bytes Hclean r;
    [contradiction|].
  pose proof (eb_content_length eb Hwf) as Hcl.
  assert (Hfitc : (length c <= eb_cap eb - eb_len eb)%nat).
  { cbn [concat] in Hfit. rewrite length_app in Hfit. lia. }
  destruct (receive_buf_raw rx c Hwf Hfitc) as (Hraw & Hpre & Hcont & Hwf2).
  fold eb in Hraw, Hpre, Hcont, Hwf2.
  set (mem1 := store (eb_mem eb) (eb_len eb) c) in *.
  set (len1 := (eb_len eb + length c)%nat) in *.
  set (r1 := run N IMM tbl len1 rx mem1 len1) in *.
  set (c1 := snd (fst r1)) in *.
  set (eb2 := mk_eval_buf (eb_cap eb) (len1 - c1)
                (store mem1 0 (region mem1 c1 (len1 - c1)))) in *.
  assert (Hc1 : (c1 <= len1)%nat) by apply run_consumed_le.
  assert (Hlen : length bytes = (len1 + length (concat rest))%nat).
  { subst bytes len1. cbn [concat]. rewrite !length_app. lia. }
  assert (Hagree : firstn len1 mem1 = firstn len1 bytes).
  { rewrite Hpre. subst bytes. cbn [concat]. rewrite app_assoc.
    rewrite firstn_app, firstn_all2 by (rewrite length_app; lia).
    rewrite length_app.
    replace (len1 - (length (eb_content eb) + length c))%nat with 0%nat
      by (subst len1; lia).
    rewrite firstn_O, app_nil_r. reflexivity. }
  destruct (run_absorb len1 (length bytes) rx mem1 bytes len1 (length bytes)
              Hagree ltac:(lia) ltac:(lia) ltac:(lia) Hclean) as [Habs Hclean2].
  cbv zeta in Habs. fold r1 in Habs, Hclean2. fold c1 in Habs, Hclean2.
  fold r in Habs.
  assert (Hskip : skipn c1 bytes = eb_content eb2 ++ concat rest).
  { rewrite Hcont. subst bytes. cbn [concat]. rewrite app_assoc.
    rewrite skipn_app. f_equal.
    replace (c1 - length (eb_content eb ++ c))%nat with 0%nat
      by (rewrite length_app; subst len1; lia).
    reflexivity. }
  assert (Hlen2 : (length bytes - c1)%nat = length (eb_content eb2 ++ concat rest)).
  { rewrite <- Hskip, length_skipn. reflexivity. }
  rewrite Hskip, Hlen2 in Habs, Hclean2.
  set (bytes1 := eb_content eb2 ++ concat rest) in *.
  set (r2 := run N IMM tbl (length bytes1) (fst (fst r1)) bytes1 (length bytes1))
    in *.
  cbn [receive_chunks]. rewrite Hraw.
  destruct rest as [|c2 rest'].
  - (* the last call *)
    cbn [receive_chunks fst snd]. rewrite app_nil_r.
    assert (Hbytes : bytes = eb_content eb ++ c).
    { subst bytes. cbn [concat]. rewrite app_nil_r. reflexivity. }
    assert (Hlen1 : length bytes = len1) by (rewrite Hlen; cbn; lia).
    assert (Hr : r1 = r).
    { subst r1 r. rewrite Hlen1 in *.
      apply (run_ext len1 rx bytes mem1 len1); [symmetry|]; assumption. }
    rewrite <- Hr. fold c1. split; [reflexivity|].
    replace (eb_cap eb) with (eb_cap eb2) by reflexivity.
    apply rx_equiv_with_content.
    + cbn [eb2 eb_len]. rewrite length_skipn, Hlen1. reflexivity.
    + rewrite Hcont, Hbytes. reflexivity.
  - (* a call followed by more *)
    set (rest := c2 :: rest') in *.
    set (rx1 := set_eval_buf (fst (fst r1)) eb2) in *.
    assert (Hfit2 : (length (concat rest) <= eb_cap eb2 - eb_len eb2)%nat).
    { cbn [eb2 eb_cap eb_len]. cbn [concat] in Hfit. rewrite length_app in Hfit.
      lia. }
    specialize (IH rx1 ltac:(discriminate)).
    cbv zeta in IH. cbn [rx1 set_eval_buf set_rcv rx_rcv rcv_eval_buf] in IH.
    fold rx1 in IH. fold bytes1 in IH.
    assert (Hrun1 : run N IMM tbl (length bytes1) rx1 bytes1 (length bytes1)
                    = (set_eval_buf (fst (fst r2)) eb2, snd (fst r2), snd r2)).
    { subst rx1. rewrite run_set_eval_buf. reflexivity. }
    assert (Hclean1 : run_clean N IMM tbl (length bytes1) rx1 bytes1
                        (length bytes1) = true).
    { subst rx1. rewrite run_clean_set_eval_buf. exact Hclean2. }
    specialize (IH Hwf2 Hfit2 Hclean1). rewrite Hrun1 in IH.
    cbn [fst snd] in IH. destruct IH as [IHeff IHst].
    destruct (receive_chunks N IMM tbl rx1 rest) as [rx2 eff2].
    cbn [fst snd] in *. subst eff2.
    rewrite Habs. cbn [fst snd]. split; [reflexivity|].
    rewrite (Nat.add_comm c1), <- skipn_skipn, Hskip. exact IHst.
Qed.

(** C2 (as the code has it): let the stream fit the free space of the
    evaluation buffer and let its delivery in one call be clean, that is,
    no evaluation takes a discard-everything branch (invalid SYN, invalid
    TERM, invalid control CRC of a command message, wrong command frame
    type, unknown frame type) and every command message announces at least
    the eight bytes of its command frame.  Then every way of cutting the
    stream into one or more chunks yields the same effects in the same
    order (events dispatched) and the same receiver (state, fifo with the
    packets enqueued, completion count, buffered remainder) as the delivery
    in one call. *)
Theorem receive_chunks_one_piece (chunks : list (list Z)) (rx : rx_state) :
  chunks <> [] ->
  eb_wf (rcv_eval_buf (rx_rcv rx)) ->
  (length (concat chunks)
   <= eb_cap (rcv_eval_buf (rx_rcv rx)) - eb_len (rcv_eval_buf (rx_rcv rx)))%nat ->
  receive_clean N IMM tbl rx (concat chunks) = true ->
  snd (receive_chunks N IMM tbl rx chunks)
  = snd (surfacegen5_ssh_receive_buf N IMM tbl rx (concat chunks))
  /\ rx_equiv (fst (receive_chunks N IMM tbl rx chunks))
              (snd (fst (surfacegen5_ssh_receive_buf N IMM tbl rx (concat chunks)))).
Proof.
  intros Hne Hwf Hfit Hclean.
  set (eb := rcv_eval_buf (rx_rcv rx)) in *.
  set (stream := concat chunks) in *.
  set (bytes := eb_content eb ++ stream).
  pose proof (eb_content_length eb Hwf) as Hcl.
  (* the clean delivery in one call, on the buffered bytes alone *)
  assert (Hcanon : run_clean N IMM tbl (length bytes) rx bytes (length bytes) = true).
  { unfold receive_clean in Hclean. fold eb in Hclean.
    rewrite Nat.min_l, firstn_all in Hclean by assumption.
    assert (Hl : length bytes = (eb_len eb + length stream)%nat).
    { subst bytes. rewrite length_app. lia. }
    rewrite Hl.
    apply (run_ext (eb_len eb + length stream) rx
             (store (eb_mem eb) (eb_len eb) stream) bytes
             (eb_len eb + length stream)); [|assumption].
    rewrite firstn_store by (destruct Hwf; lia).
    subst bytes. fold (eb_content eb). symmetry. apply firstn_all2.
    rewrite length_app. lia. }
  destruct (receive_chunks_canon chunks rx Hne Hwf Hfit Hcanon) as [Heff Hst].
  assert (Hone : concat [stream] = stream) by (cbn; apply app_nil_r).
  destruct (receive_chunks_canon [stream] rx ltac:(discriminate) Hwf
              ltac:(rewrite Hone; exact Hfit)
              ltac:(rewrite Hone; exact Hcanon)) as [Heff1 Hst1].
  rewrite Hone in Heff1, Hst1. fold eb bytes in Heff, Hst, Heff1, Hst1.
  cbn [receive_chunks] in Heff1, Hst1.
  destruct (surfacegen5_ssh_receive_buf N IMM tbl rx stream) as [[used rx1] eff1].
  cbn [fst snd] in *. rewrite app_nil_r in Heff1.
  split.
  - rewrite Heff, Heff1. reflexivity.
  - apply (rx_equiv_trans _ _ _ Hst). apply rx_equiv_sym. exact Hst1.
Qed.

End Chunking.

Lemma receive_chunks_one_piece_witness :
  let rx := example_rx SG5_RCV_CONTROL (mk_expect true 1 0x40) in
  let chunks := [firstn 7 example_ack_then_response;
                 firstn 10 (skipn 7 example_ack_then_response);
                 skipn 17 example_ack_then_response] in
  snd (receive_chunks 5 example_immediate [] rx chunks)
  = snd (surfacegen5_ssh_receive_buf 5 example_immediate [] rx (concat chunks))
  /\ rx_equiv (fst (receive_chunks 5 example_immediate [] rx chunks))
              (snd (fst (surfacegen5_ssh_receive_buf 5 example_immediate [] rx
                           (concat chunks)))).
Proof.
  intros rx chunks.
  apply (receive_chunks_one_piece 5 example_immediate [] chunks rx).
  - discriminate.
  - split; vm_compute; [reflexivity | lia].
  - vm_compute. lia.
  - vm_compute. reflexivity.
Defined.

(** Delivered in one call, ACK and response reach the fifo, the
    completion is raised twice, nothing stays buffered. *)
Example ack_then_response_delivered :
  let rx := example_rx SG5_RCV_CONTROL (mk_expect true 1 0x40) in
  let rcv := rx_rcv (snd (fst (surfacegen5_ssh_receive_buf 5 example_immediate []
                                 rx example_ack_then_response))) in
  rcv_fifo rcv = [0x40; 1; 0; 0x80; 0x07; 1; 0x00]
  /\ rcv_signal rcv = 2%nat
  /\ rcv_state rcv = SG5_RCV_DISCARD
  /\ eb_len (rcv_eval_buf rcv) = 0%nat.
Proof. vm_compute. repeat apply conj; reflexivity. Qed.

(** C2 in the words of the specification does not hold: delivered in one
    call, six bytes of noise take the
    ACK that follows them along (everything buffered is discarded, nothing
    is enqueued); delivered as two chunks, the noise is discarded alone and
    the ACK is enqueued. *)
Lemma chunking_changes_messages :
  let rx := example_rx SG5_RCV_CONTROL (mk_expect true 1 0x40) in
  let chunks := [firstn 6 example_noise_then_ack; skipn 6 example_noise_then_ack] in
  concat chunks = example_noise_then_ack
  /\ rcv_fifo (rx_rcv (snd (fst (surfacegen5_ssh_receive_buf 5 example_immediate []
                                   rx example_noise_then_ack)))) = []
  /\ rcv_fifo (rx_rcv (fst (receive_chunks 5 example_immediate [] rx chunks)))
     = [0x40; 1; 0]
  /\ snd (receive_chunks 5 example_immediate [] rx chunks)
     <> snd (surfacegen5_ssh_receive_buf 5 example_immediate [] rx
               example_noise_then_ack).
Proof.
  vm_compute. repeat apply conj; try reflexivity. discriminate.
Qed.

(** ** Request engine *)

Section EngineFacts.

Variable N : Z.
Variable MAX : Z.
Variable IMM : Z.

Lemma wait_counter (ec : surfacegen5_ec) (wd : world) :
  ec_counter (snd (fst (fst (wait_for_completion_timeout N IMM ec wd))))
  = ec_counter ec.
Proof.
  unfold wait_for_completion_timeout.
  destruct (receive_chunks N IMM (ec_events ec) _ _) as [rx eff].
  destruct (rcv_signal (rx_rcv rx)); reflexivity.
Qed.

Lemma ack_loop_counter (tries : nat) (packet : surfacegen5_fifo_packet)
  (ec : surfacegen5_ec) (wd : world) :
  ec_counter (snd (fst (fst (ack_loop N IMM tries packet ec wd))))
  = ec_counter ec.
Proof.
  revert packet ec wd. induction tries as [|tries IH]; intros packet ec wd.
  - reflexivity.
  - cbn [ack_loop].
    destruct (surfacegen5_ssh_writer_flush ec wd) as [[status wd1] eff1].
    destruct (negb (status =? 0)); [reflexivity|].
    pose proof (wait_counter ec wd1) as Hw.
    destruct (wait_for_completion_timeout N IMM ec wd1) as [[[rem ec1] wd2] eff2].
    cbn [fst snd] in Hw.
    destruct rem.
    + unfold fifo_take, kfifo_out.
      destruct (p_type _ =? SG5_FRAME_TYPE_ACK); [exact Hw|].
      match goal with
      | |- context [ack_loop N IMM tries ?p ?e ?w] =>
          specialize (IH p e w); destruct (ack_loop N IMM tries p e w)
            as [[[[ex p'] ec3] wd3] eff3]
      end.
      cbn [fst snd] in *. rewrite IH. exact Hw.
    + specialize (IH packet ec1 wd2).
      destruct (ack_loop N IMM tries packet ec1 wd2) as [[[[ex p'] ec3] wd3] eff3].
      cbn [fst snd] in *. rewrite IH. exact Hw.
Qed.

Lemma rqst_send_counter (ec : surfacegen5_ec) (rqst : surfacegen5_rqst)
  (wd : world) :
  ec_counter (snd (fst (fst (rqst_send N IMM ec rqst wd)))) = ec_counter ec.
Proof. unfold rqst_send. rewrite ack_loop_counter. reflexivity. Qed.

Lemma rqst_response_counter (ec : surfacegen5_ec) (rqst : surfacegen5_rqst)
  (result : option surfacegen5_buf) (packet : surfacegen5_fifo_packet)
  (wd : world) :
  ec_counter (snd (fst (fst (fst (rqst_response N IMM ec rqst result packet wd)))))
  = ec_counter ec.
Proof.
  unfold rqst_response.
  destruct result as [res|]; [|reflexivity].
  destruct (negb (rq_snc rqst =? 0)); [|reflexivity].
  pose proof (wait_counter ec wd) as Hw.
  destruct (wait_for_completion_timeout N IMM ec wd) as [[[rem ec1] wd1] eff1].
  cbn [fst snd] in Hw.
  destruct rem; [|exact Hw].
  unfold fifo_take, kfifo_out. cbn [fst snd].
  destruct (Z.of_nat (b_cap res) <? _); [exact Hw|].
  destruct (surfacegen5_ssh_writer_flush _ wd1) as [[status wd2] eff2].
  exact Hw.
Qed.

(** C4: a call of the request engine leaves the counters as they were when
    the payload is too long, when a flush fails before an ACK, and when all
    tries pass without an ACK; once the send loop has been left with an
    ACK, seq and rqid are each one more than before (modulo 2^8 and 2^16),
    whatever the response phase does. *)
Theorem rqst_unlocked_counters (ec : surfacegen5_ec) (rqst : surfacegen5_rqst)
  (result : option surfacegen5_buf) (wd : world) :
  ec_counter (snd (fst (fst (fst
     (surfacegen5_ec_rqst_unlocked N MAX IMM ec rqst result wd)))))
  = if MAX <? rq_cdl rqst then ec_counter ec
    else match fst (fst (fst (fst (rqst_send N IMM ec rqst wd)))) with
         | AckReceived =>
             mk_counters (u8 (cnt_seq (ec_counter ec) + 1))
                         (u16 (cnt_rqid (ec_counter ec) + 1))
         | FlushFailed _ | RetriesExhausted => ec_counter ec
         end.
Proof.
  unfold surfacegen5_ec_rqst_unlocked.
  destruct (MAX <? rq_cdl rqst); [reflexivity|].
  pose proof (rqst_send_counter ec rqst wd) as Hs.
  destruct (rqst_send N IMM ec rqst wd) as [[[[ex packet] ec3] wd1] eff1].
  cbn [fst snd] in *.
  destruct ex as [|status|]; cbn [fst snd]; try exact Hs.
  match goal with
  | |- context [rqst_response N IMM ?e ?r ?res ?p ?w] =>
      pose proof (rqst_response_counter e r res p w) as Hr;
      destruct (rqst_response N IMM e r res p w) as [[[[st ec5] res1] wd2] eff2]
  end.
  cbn [fst snd] in *. rewrite <- Hs. exact Hr.
Qed.

End EngineFacts.

Section FacadeFacts.

Variable N : Z.
Variable MAX : Z.
Variable IMM : Z.

(** C10: when the caller passes no result buffer, the engine is done once
    the ACK has arrived: it returns 0, waits for nothing more, takes
    nothing more from the fifo, writes nothing more to the serial device,
    and leaves the receiver discarding with an empty fifo and an empty
    evaluation buffer.  The [snc] byte of the request plays no part. *)
Theorem rqst_unlocked_without_result (ec : surfacegen5_ec)
  (rqst : surfacegen5_rqst) (wd : world) :
  rq_cdl rqst <= MAX ->
  fst (fst (fst (fst (rqst_send N IMM ec rqst wd)))) = AckReceived ->
  let sent := rqst_send N IMM ec rqst wd in
  let ec3 := snd (fst (fst sent)) in
  let done := surfacegen5_ec_rqst_unlocked N MAX IMM ec rqst None wd in
  let ec' := snd (fst (fst (fst done))) in
  done = (0,
          surfacegen5_ssh_receiver_discard
            (set_counter ec3
               (mk_counters (u8 (cnt_seq (ec_counter ec3) + 1))
                            (u16 (cnt_rqid (ec_counter ec3) + 1)))),
          None, snd (fst sent), snd sent)
  /\ rcv_state (ec_receiver ec') = SG5_RCV_DISCARD
  /\ rcv_fifo (ec_receiver ec') = []
  /\ eb_len (rcv_eval_buf (ec_receiver ec')) = 0%nat.
Proof.
  intros Hcdl Hack. cbv zeta.
  unfold surfacegen5_ec_rqst_unlocked.
  destruct (Z.ltb_spec MAX (rq_cdl rqst)); [lia|].
  destruct (rqst_send N IMM ec rqst wd) as [[[[ex packet] ec3] wd1] eff1].
  cbn [fst snd] in *. subst ex.
  cbn [rqst_response fst snd]. rewrite app_nil_r.
  repeat apply conj; reflexivity.
Qed.

(** C8: outside the initialized state the public request operation
    returns at once, -ENXIO for an uninitialized controller and -EPERM for
    a suspended one; the controller, the result buffer and the environment
    are as before, and the only effect is the warning, so nothing was
    encoded or written to the serial device. *)
Theorem rqst_rejected_unless_initialized (ec : surfacegen5_ec)
  (rqst : surfacegen5_rqst) (result : option surfacegen5_buf) (wd : world) :
  ec_lock ec = false ->
  (ec_state ec = SG5_EC_UNINITIALIZED ->
   surfacegen5_ec_rqst N MAX IMM ec rqst result wd
   = (- ENXIO, ec, result, wd, [Log LogUninitialized]))
  /\ (ec_state ec = SG5_EC_SUSPENDED ->
      surfacegen5_ec_rqst N MAX IMM ec rqst result wd
      = (- EPERM, ec, result, wd, [Log LogSuspended]))
  /\ - ENXIO <> - EPERM.
Proof.
  intros Hlock. destruct ec as [lock state counter writer receiver events].
  cbn [ec_lock ec_state] in *. subst lock.
  split; [|split]; [intros -> | intros -> | discriminate]; reflexivity.
Qed.

End FacadeFacts.

Lemma rqst_unlocked_without_result_witness :
  let ec := example_ec SG5_EC_INITIALIZED in
  let done := surfacegen5_ec_rqst_unlocked 5 94 example_immediate ec example_rqst
                None example_peer in
  fst (fst (fst (fst done))) = 0
  /\ snd done
     = [SerdevWrite (request_message 5 0 2 example_rqst); Log LogValidCtrl]
  /\ rcv_state (ec_receiver (snd (fst (fst (fst done))))) = SG5_RCV_DISCARD.
Proof.
  intros ec done.
  destruct (rqst_unlocked_without_result 5 94 example_immediate ec example_rqst
              example_peer ltac:(vm_compute; discriminate) eq_refl)
    as (H & Hst & _ & _).
  cbv zeta in H. fold done in H, Hst.
  split; [rewrite H; reflexivity|].
  split; [rewrite H; vm_compute; reflexivity | exact Hst].
Defined.

Lemma rqst_rejected_unless_initialized_witness :
  surfacegen5_ec_rqst 5 94 example_immediate (example_ec SG5_EC_SUSPENDED)
    example_rqst None example_peer
  = (- EPERM, example_ec SG5_EC_SUSPENDED, None, example_peer, [Log LogSuspended]).
Proof.
  exact (proj1 (proj2 (rqst_rejected_unless_initialized 5 94 example_immediate
                         (example_ec SG5_EC_SUSPENDED) example_rqst None
                         example_peer eq_refl)) eq_refl).
Defined.

(** The first scenario: the request is sent once, ACK and response arrive,
    the response byte is copied out, the response is acknowledged and the
    counters advance from (0, 2) to (1, 3). *)
Example request_with_response :
  let done := surfacegen5_ec_rqst 5 94 example_immediate
                (example_ec SG5_EC_INITIALIZED) example_rqst
                (Some (mk_buf 1 0 [0xff])) example_peer in
  let ec' := snd (fst (fst (fst done))) in
  fst (fst (fst (fst done))) = 0
  /\ snd (fst (fst done)) = Some (mk_buf 1 1 [0x00])
  /\ ec_counter ec' = mk_counters 1 3
  /\ ec_lock ec' = false
  /\ rcv_state (ec_receiver ec') = SG5_RCV_DISCARD
  /\ snd done
     = [SerdevWrite (request_message 5 0 2 example_rqst);
        Log LogValidCtrl; Log LogValidCmd;
        SerdevWrite (ack_message 0)].
Proof. vm_compute. repeat apply conj; reflexivity. Qed.

(** The third scenario: the peer stays silent, the request is written
    three times and fails with -EIO; the counters stay at (0, 2). *)
Example request_retries_exhausted :
  let done := surfacegen5_ec_rqst 5 94 example_immediate
                (example_ec SG5_EC_INITIALIZED) example_rqst
                (Some (mk_buf 1 0 [0xff])) example_peer_silent in
  fst (fst (fst (fst done))) = - EIO
  /\ ec_counter (snd (fst (fst (fst done)))) = mk_counters 0 2
  /\ snd done
     = [SerdevWrite (request_message 5 0 2 example_rqst);
        SerdevWrite (request_message 5 0 2 example_rqst);
        SerdevWrite (request_message 5 0 2 example_rqst);
        Log LogGivingUp].
Proof. vm_compute. repeat apply conj; reflexivity. Qed.

(** * Further properties of the driver *)

(** ** Checksums *)

Lemma lxor_u16 (a b : Z) : is_u16 a -> is_u16 b -> is_u16 (Z.lxor a b).
Proof.
  unfold is_u16. intros [Ha Ha'] [Hb Hb'].
  assert (Hn : 0 <= Z.lxor a b) by (apply Z.lxor_nonneg; lia).
  split; [assumption|].
  destruct (Z.eq_dec (Z.lxor a b) 0) as [-> | Hne]; [lia|].
  change 65536 with (2 ^ 16). apply Z.log2_lt_pow2; [lia|].
  pose proof (Z.log2_lxor a b Ha Hb) as Hl.
  assert (La : Z.log2 a < 16).
  { destruct (Z.eq_dec a 0) as [-> | ?]; [reflexivity|].
    apply Z.log2_lt_pow2; lia. }
  assert (Lb : Z.log2 b < 16).
  { destruct (Z.eq_dec b 0) as [-> | ?]; [reflexivity|].
    apply Z.log2_lt_pow2; lia. }
  lia.
Qed.

Lemma u16_is_u16 (x : Z) : is_u16 (u16 x).
Proof. unfold is_u16, u16. apply Z.mod_pos_bound. lia. Qed.

Lemma crc_shift_u16 (crc : Z) : is_u16 (crc_shift crc).
Proof.
  unfold crc_shift. destruct (Z.testbit crc 15).
  - apply lxor_u16; [apply u16_is_u16 | unfold is_u16; lia].
  - apply u16_is_u16.
Qed.

Lemma crc_byte_u16 (crc c : Z) : is_u16 (crc_ccitt_false_byte crc c).
Proof. unfold crc_ccitt_false_byte. cbn [Nat.iter nat_rect]. apply crc_shift_u16. Qed.

Lemma crc_ccitt_false_u16 (buf : list Z) :
  forall crc, is_u16 crc -> is_u16 (crc_ccitt_false crc buf).
Proof.
  unfold crc_ccitt_false. induction buf as [|c buf IH]; intros crc H.
  - exact H.
  - cbn [fold_left]. apply IH. apply crc_byte_u16.
Qed.

Lemma le16_bytes (v : Z) : is_u16 v -> Forall is_u8 (le16 v).
Proof.
  unfold is_u16, is_u8, le16. intros H.
  repeat constructor.
  - apply Z.land_nonneg. lia.
  - change 255 with (Z.ones 8). rewrite Z.land_ones by lia.
    apply Z.mod_pos_bound. lia.
  - apply Z.shiftr_nonneg. lia.
  - rewrite Z.shiftr_div_pow2 by lia. apply Z.div_lt_upper_bound; lia.
Qed.

(** X1: The checksum of any buffer is a 16-bit value, whatever the buffer
    holds, so the two bytes stored for it are bytes. *)
Theorem ssh_crc_is_u16 (buf : list Z) :
  is_u16 (surfacegen5_ssh_crc buf)
  /\ Forall is_u8 (le16 (surfacegen5_ssh_crc buf)).
Proof.
  assert (H : is_u16 (surfacegen5_ssh_crc buf)).
  { apply crc_ccitt_false_u16. unfold is_u16. lia. }
  split; [exact H | apply le16_bytes; exact H].
Qed.

Lemma rd_app_at (p rest : list Z) (i : nat) :
  rd (p ++ rest) (length p + i) = rd rest i.
Proof.
  unfold rd. rewrite app_nth2 by lia.
  replace (length p + i - length p)%nat with i by lia. reflexivity.
Qed.

Lemma region_app_at (p q rest : list Z) :
  region (p ++ q ++ rest) (length p) (length q) = q.
Proof.
  unfold region. rewrite skipn_app, skipn_all, Nat.sub_diag. cbn [skipn app].
  rewrite firstn_app, firstn_all, Nat.sub_diag, firstn_O. apply app_nil_r.
Qed.

(** A checksum written behind the bytes it covers is accepted by the
    validator, wherever the covered bytes start. *)
Lemma valid_crc_written (p q rest : list Z) :
  surfacegen5_ssh_is_valid_crc (p ++ q ++ le16 (surfacegen5_ssh_crc q) ++ rest)
    (length p) (length p + length q) = true.
Proof.
  unfold surfacegen5_ssh_is_valid_crc.
  replace (length p + length q - length p)%nat with (length q) by lia.
  rewrite region_app_at.
  rewrite (app_assoc p q), <- length_app.
  replace (length (p ++ q) + 1)%nat with (length (p ++ q) + 1)%nat by reflexivity.
  rewrite <- (Nat.add_0_r (length (p ++ q))) at 1.
  rewrite !rd_app_at. unfold le16, rd. cbn [app nth].
  rewrite !Z.eqb_refl. reflexivity.
Qed.

Lemma le16_join (v : Z) :
  0 <= v -> Z.lor (Z.shiftl (Z.shiftr v 8) 8) (Z.land v 0xff) = v.
Proof.
  intros H. change 255 with (Z.ones 8).
  rewrite <- Z.ldiff_ones_r by lia. apply Z.lor_ldiff_and.
Qed.

(** ** Encoder against decoder *)

Lemma request_message_split (N seq rqid : Z) (rqst : surfacegen5_rqst) :
  let ctrl := [0x80; 8 + rq_cdl rqst; 0x00; seq] in
  let id := u16 (Z.shiftl rqid N) in
  let cmd := [0x80; rq_tc rqst; 0x01; 0x00; rq_iid rqst;
              Z.land id 0xff; Z.shiftr id 8; rq_cid rqst] in
  let pld := firstn (Z.to_nat (rq_cdl rqst)) (rq_pld rqst) in
  request_message N seq rqid rqst
  = [0xaa; 0x55] ++ ctrl ++ le16 (surfacegen5_ssh_crc ctrl)
    ++ (cmd ++ pld ++ le16 (surfacegen5_ssh_crc (cmd ++ pld)))
  /\ request_message N seq rqid rqst
     = ([0xaa; 0x55] ++ ctrl ++ le16 (surfacegen5_ssh_crc ctrl))
       ++ (cmd ++ pld) ++ le16 (surfacegen5_ssh_crc (cmd ++ pld)) ++ [].
Proof.
  cbv zeta. unfold request_message. split; [reflexivity|].
  rewrite app_nil_r, <- !app_assoc. reflexivity.
Qed.

(** What the receiver's accessors and validators read from an encoded
    request. *)
Lemma request_message_decodes (N seq rqid : Z) (rqst : surfacegen5_rqst) :
  0 <= rq_cdl rqst ->
  (Z.to_nat (rq_cdl rqst) <= length (rq_pld rqst))%nat ->
  let m := request_message N seq rqid rqst in
  surfacegen5_ssh_is_valid_syn m = true
  /\ ctrl_type m = SG5_FRAME_TYPE_CMD
  /\ ctrl_len m = 8 + rq_cdl rqst
  /\ ctrl_seq m = seq
  /\ surfacegen5_ssh_is_valid_crc m SG5_FRAME_OFFS_CTRL SG5_FRAME_OFFS_CTRL_CRC = true
  /\ cmd_type m = SG5_FRAME_TYPE_CMD
  /\ cmd_tc m = rq_tc rqst
  /\ cmd_iid m = rq_iid rqst
  /\ cmd_cid m = rq_cid rqst
  /\ cmd_rqid m = surfacegen5_rqid_to_rqst N rqid
  /\ surfacegen5_ssh_is_valid_crc m SG5_FRAME_OFFS_CMD
       (SG5_FRAME_OFFS_CMD + Z.to_nat (ctrl_len m)) = true
  /\ region m SG5_FRAME_OFFS_CMD_PLD (Z.to_nat (rq_cdl rqst))
     = firstn (Z.to_nat (rq_cdl rqst)) (rq_pld rqst)
  /\ length m = (SG5_MSG_LEN_CMD_BASE + Z.to_nat (ctrl_len m))%nat.
Proof.
  intros Hcdl Hpld m.
  destruct (request_message_split N seq rqid rqst) as [Hm1 Hm2].
  cbv zeta in Hm1, Hm2. fold m in Hm1, Hm2.
  set (ctrl := [0x80; 8 + rq_cdl rqst; 0x00; seq]) in *.
  set (id := u16 (Z.shiftl rqid N)) in *.
  set (cmd := [0x80; rq_tc rqst; 0x01; 0x00; rq_iid rqst;
               Z.land id 0xff; Z.shiftr id 8; rq_cid rqst]) in *.
  set (pld := firstn (Z.to_nat (rq_cdl rqst)) (rq_pld rqst)) in *.
  set (c1 := surfacegen5_ssh_crc ctrl) in *.
  set (c2 := surfacegen5_ssh_crc (cmd ++ pld)) in *.
  assert (Hlen : ctrl_len m = 8 + rq_cdl rqst) by (rewrite Hm1; reflexivity).
  assert (Hpl : length pld = Z.to_nat (rq_cdl rqst)).
  { subst pld. rewrite length_firstn. lia. }
  assert (Hn : Z.to_nat (ctrl_len m) = (8 + length pld)%nat) by (rewrite Hlen; lia).
  split; [rewrite Hm1; reflexivity|].
  split; [rewrite Hm1; reflexivity|].
  split; [exact Hlen|].
  split; [rewrite Hm1; reflexivity|].
  split.
  { rewrite Hm1. subst c1.
    exact (valid_crc_written [0xaa; 0x55] ctrl _). }
  split; [rewrite Hm1; reflexivity|].
  split; [rewrite Hm1; reflexivity|].
  split; [rewrite Hm1; reflexivity|].
  split; [rewrite Hm1; reflexivity|].
  split.
  { rewrite Hm1. unfold cmd_rqid, cmd_rqid_hi, cmd_rqid_lo. sizes.
    unfold le16, ctrl, cmd, rd. cbn [app nth Nat.add].
    unfold surfacegen5_rqid_to_rqst. fold id.
    apply le16_join. apply u16_is_u16. }
  split.
  { rewrite Hn. rewrite Hm2. subst c2.
    pose proof (valid_crc_written ([0xaa; 0x55] ++ ctrl ++ le16 c1)
                  (cmd ++ pld) []) as H.
    replace (length ([0xaa; 0x55] ++ ctrl ++ le16 c1)) with SG5_FRAME_OFFS_CMD in H
      by reflexivity.
    replace (length (cmd ++ pld)) with (8 + length pld)%nat in H
      by (rewrite length_app; reflexivity).
    exact H. }
  split.
  { rewrite <- Hpl. rewrite Hm1.
    replace ([0xaa; 0x55] ++ ctrl ++ le16 c1 ++ cmd ++ pld ++ le16 c2)
      with (([0xaa; 0x55] ++ ctrl ++ le16 c1 ++ cmd) ++ pld ++ le16 c2)
      by (rewrite <- !app_assoc; reflexivity).
    replace SG5_FRAME_OFFS_CMD_PLD
      with (length ([0xaa; 0x55] ++ ctrl ++ le16 c1 ++ cmd)) by reflexivity.
    rewrite region_app_at. reflexivity. }
  rewrite Hn, Hm1. unfold le16, ctrl, cmd. rewrite !length_app. cbn [length].
  sizes. lia.
Qed.

(** X2: Round trip: what the encoder leaves in the write buffer for a request
    is, for the receiver's own accessors and validators, a complete command
    message with valid SYN and both checksums valid, and it reads back the
    sequence number, the target, instance and command ids, the request id made
    from the counter, and the payload. *)
Theorem encoded_request_decodes (N : Z) (ec : surfacegen5_ec)
  (rqst : surfacegen5_rqst) :
  0 <= rq_cdl rqst <= 247 ->
  (Z.to_nat (rq_cdl rqst) <= length (rq_pld rqst))%nat ->
  let m := writer_bytes (ec_writer (surfacegen5_ssh_write_msg_cmd N ec rqst)) in
  surfacegen5_ssh_is_valid_syn m = true
  /\ ctrl_type m = SG5_FRAME_TYPE_CMD
  /\ ctrl_len m = 8 + rq_cdl rqst
  /\ ctrl_seq m = cnt_seq (ec_counter ec)
  /\ surfacegen5_ssh_is_valid_crc m SG5_FRAME_OFFS_CTRL SG5_FRAME_OFFS_CTRL_CRC = true
  /\ cmd_type m = SG5_FRAME_TYPE_CMD
  /\ cmd_tc m = rq_tc rqst
  /\ cmd_iid m = rq_iid rqst
  /\ cmd_cid m = rq_cid rqst
  /\ cmd_rqid m = surfacegen5_rqid_to_rqst N (cnt_rqid (ec_counter ec))
  /\ surfacegen5_ssh_is_valid_crc m SG5_FRAME_OFFS_CMD
       (SG5_FRAME_OFFS_CMD + Z.to_nat (ctrl_len m)) = true
  /\ region m SG5_FRAME_OFFS_CMD_PLD (Z.to_nat (rq_cdl rqst))
     = firstn (Z.to_nat (rq_cdl rqst)) (rq_pld rqst)
  /\ length m = (SG5_MSG_LEN_CMD_BASE + Z.to_nat (ctrl_len m))%nat.
Proof.
  intros Hcdl Hpld m. subst m.
  rewrite (writer_at_bytes _ _ _ (write_msg_cmd_at N ec rqst Hcdl Hpld)).
  apply request_message_decodes; [lia | assumption].
Qed.

Lemma encoded_request_decodes_witness :
  let m := writer_bytes
             (ec_writer (surfacegen5_ssh_write_msg_cmd 5
                           (example_ec SG5_EC_INITIALIZED)
                           (mk_rqst 0x01 0x00 0x0b 0x01 2 [0x08; 0x02]))) in
  cmd_rqid m = 0x40
  /\ region m SG5_FRAME_OFFS_CMD_PLD 2 = [0x08; 0x02]
  /\ length m = 20%nat.
Proof.
  intros m.
  pose proof (encoded_request_decodes 5 (example_ec SG5_EC_INITIALIZED)
                (mk_rqst 0x01 0x00 0x0b 0x01 2 [0x08; 0x02])
                ltac:(cbn; lia) ltac:(cbn; lia)) as H.
  cbv zeta in H. fold m in H.
  destruct H as (_ & _ & Hl & _ & _ & _ & _ & _ & _ & Hid & _ & Hp & Hlen).
  split; [exact Hid|]. split; [exact Hp|].
  rewrite Hlen, Hl. reflexivity.
Defined.

(** ** The two ACK encoders and the control-message decoder *)

Lemma write_msg_ack_at (ec : surfacegen5_ec) (seq : Z) :
  writer_at (w_data (ec_writer ec))
            (ec_writer (surfacegen5_ssh_write_msg_ack ec seq))
            (ack_message seq).
Proof.
  unfold surfacegen5_ssh_write_msg_ack. cbn [ec_writer set_writer].
  pose proof (writer_at_reset (ec_writer ec)) as H0.
  apply writer_at_syn in H0. cbn [app] in H0.
  set (w1 := surfacegen5_ssh_write_syn _) in *.
  assert (H1 : writer_at (w_data (ec_writer ec))
                 (surfacegen5_ssh_write_ack w1 seq)
                 ([0xaa; 0x55] ++ [0x40; 0x00; 0x00; seq]
                  ++ le16 (surfacegen5_ssh_crc [0x40; 0x00; 0x00; seq]))).
  { unfold surfacegen5_ssh_write_ack.
    replace (w_ptr w1) with (length [0xaa; 0x55]) at 3 by (apply H0).
    apply writer_at_crc.
    apply (writer_at_store _ _ _ [SG5_FRAME_TYPE_ACK; 0x00; 0x00; seq] H0). }
  apply writer_at_ter in H1.
  rewrite <- !app_assoc in H1. exact H1.
Qed.

(** X3: The ACK that the request engine encodes with the writer for a response
    and the ACK that the event work item builds on its stack are the same ten
    bytes, and encoding it keeps the size of a write buffer that has room for
    it. *)
Theorem ack_encoders_agree (ec : surfacegen5_ec) (seq status : Z) :
  surfacegen5_ssh_send_ack seq status
  = (status,
     [SerdevWrite (writer_bytes (ec_writer (surfacegen5_ssh_write_msg_ack ec seq)))])
  /\ length (writer_bytes (ec_writer (surfacegen5_ssh_write_msg_ack ec seq)))
     = SG5_MSG_LEN_CTRL
  /\ ((SG5_MSG_LEN_CTRL <= length (w_data (ec_writer ec)))%nat ->
      length (w_data (ec_writer (surfacegen5_ssh_write_msg_ack ec seq)))
      = length (w_data (ec_writer ec))).
Proof.
  pose proof (write_msg_ack_at ec seq) as H.
  rewrite (writer_at_bytes _ _ _ H).
  split; [reflexivity|]. split; [reflexivity|].
  intros Hlen. apply (writer_at_length _ _ _ H). exact Hlen.
Qed.

Lemma ack_message_split (seq : Z) (rest : list Z) :
  ack_message seq ++ rest
  = [0xaa; 0x55] ++ [0x40; 0x00; 0x00; seq]
    ++ le16 (surfacegen5_ssh_crc [0x40; 0x00; 0x00; seq]) ++ [0xff; 0xff] ++ rest.
Proof. reflexivity. Qed.

(** What the evaluator does with an ACK for the expected sequence number
    while a control message is awaited. *)
Lemma eval_buf_ack (N IMM : Z)
  (tbl : list surfacegen5_ec_event_handler)
  (rx : rx_state) (seq : Z) (rest : list Z) (size : nat) :
  rcv_state (rx_rcv rx) = SG5_RCV_CONTROL ->
  ex_seq (rcv_expect (rx_rcv rx)) = seq ->
  (3 <= kfifo_avail (rcv_fifo (rx_rcv rx)))%nat ->
  (SG5_MSG_LEN_CTRL <= size)%nat ->
  surfacegen5_ssh_eval_buf N IMM tbl rx (ack_message seq ++ rest) size
  = (SG5_MSG_LEN_CTRL,
     mk_rx (mk_receiver
              (if ex_pld (rcv_expect (rx_rcv rx))
               then SG5_RCV_COMMAND else SG5_RCV_DISCARD)
              (S (rcv_signal (rx_rcv rx)))
              (rcv_fifo (rx_rcv rx) ++ [SG5_FRAME_TYPE_ACK; seq; 0])
              (rcv_expect (rx_rcv rx))
              (rcv_eval_buf (rx_rcv rx)))
           (rx_kzalloc rx),
     [Log LogValidCtrl]).
Proof.
  intros Hst Hseq Hfifo Hsize.
  assert (Hcrc : surfacegen5_ssh_is_valid_crc (ack_message seq ++ rest)
                   SG5_FRAME_OFFS_CTRL SG5_FRAME_OFFS_CTRL_CRC = true).
  { rewrite ack_message_split.
    exact (valid_crc_written [0xaa; 0x55] [0x40; 0x00; 0x00; seq] _). }
  unfold surfacegen5_ssh_eval_buf, surfacegen5_ssh_receive_msg_ctrl.
  rewrite Hcrc, Hst, Hseq.
  destruct (Nat.ltb_spec size (SG5_BYTELEN_SYNC + SG5_BYTELEN_CTRL));
    [sizes; lia|].
  destruct (Nat.ltb_spec size SG5_MSG_LEN_CTRL); [lia|].
  destruct (Nat.leb_spec 3 (kfifo_avail (rcv_fifo (rx_rcv rx)))); [|lia].
  change (surfacegen5_ssh_is_valid_syn (ack_message seq ++ rest)) with true.
  change (ctrl_type (ack_message seq ++ rest)) with SG5_FRAME_TYPE_ACK.
  change (ctrl_seq (ack_message seq ++ rest)) with seq.
  change (surfacegen5_ssh_is_valid_ter (ack_message seq ++ rest)
            SG5_FRAME_OFFS_TERM) with true.
  rewrite !Z.eqb_refl. cbn [negb andb orb].
  rewrite kfifo_in_fits by (cbn [packet_bytes length]; lia).
  reflexivity.
Qed.

(** X4: Round trip for the ACK: while a control message is awaited, an ACK in
    the driver's own encoding for the expected sequence number is consumed as
    one message of ten bytes, put into the fifo as the packet (0x40, seq, 0)
    with the completion raised once, and moves the receiver on to awaiting the
    response, or to discarding when none is expected. Whatever is buffered
    behind it is left alone. *)
Theorem ack_message_accepted (N IMM : Z)
  (tbl : list surfacegen5_ec_event_handler)
  (rx : rx_state) (seq : Z) (rest : list Z) (size : nat) :
  rcv_state (rx_rcv rx) = SG5_RCV_CONTROL ->
  ex_seq (rcv_expect (rx_rcv rx)) = seq ->
  (3 <= kfifo_avail (rcv_fifo (rx_rcv rx)))%nat ->
  (SG5_MSG_LEN_CTRL <= size)%nat ->
  surfacegen5_ssh_eval_buf N IMM tbl rx (ack_message seq ++ rest) size
  = (SG5_MSG_LEN_CTRL,
     mk_rx (mk_receiver
              (if ex_pld (rcv_expect (rx_rcv rx))
               then SG5_RCV_COMMAND else SG5_RCV_DISCARD)
              (S (rcv_signal (rx_rcv rx)))
              (rcv_fifo (rx_rcv rx) ++ [SG5_FRAME_TYPE_ACK; seq; 0])
              (rcv_expect (rx_rcv rx))
              (rcv_eval_buf (rx_rcv rx)))
           (rx_kzalloc rx),
     [Log LogValidCtrl]).
Proof. apply eval_buf_ack. Qed.

Lemma ack_message_accepted_witness :
  rcv_fifo (rx_rcv (snd (fst
     (surfacegen5_ssh_eval_buf 5 example_immediate []
        (example_rx SG5_RCV_CONTROL (mk_expect true 7 0x40))
        (ack_message 7 ++ [0xaa]) 11))))
  = [0x40; 7; 0].
Proof.
  rewrite (ack_message_accepted 5 example_immediate []
             (example_rx SG5_RCV_CONTROL (mk_expect true 7 0x40)) 7 [0xaa] 11
             eq_refl eq_refl ltac:(vm_compute; lia) ltac:(vm_compute; lia)).
  reflexivity.
Defined.

(** ** Invariants of the receive path *)

Section ReceiverFacts.

Variable N : Z.
Variable IMM : Z.
Variable tbl : list surfacegen5_ec_event_handler.

Lemma rcv_progress_refl (rcv : surfacegen5_ec_receiver) : rcv_progress rcv rcv.
Proof.
  unfold rcv_progress. repeat apply conj; auto.
  exists []. symmetry. apply app_nil_r.
Qed.

Lemma rcv_progress_trans (a b c : surfacegen5_ec_receiver) :
  rcv_progress a b -> rcv_progress b c -> rcv_progress a c.
Proof.
  unfold rcv_progress.
  intros (He1 & Hr1 & (x & Hf1) & Hs1 & Hb1 & Hd1)
         (He2 & Hr2 & (y & Hf2) & Hs2 & Hb2 & Hd2).
  repeat apply conj.
  - congruence.
  - lia.
  - exists (x ++ y). rewrite Hf2, Hf1, app_assoc. reflexivity.
  - lia.
  - auto.
  - intros Hst. destruct (Hd1 Hst) as [Hf Hsg].
    assert (Hst' : rcv_state b = SG5_RCV_DISCARD).
    { rewrite Hst in Hr1. destruct (rcv_state b); cbn in Hr1; [reflexivity|lia|lia]. }
    destruct (Hd2 Hst') as [Hf' Hsg']. split; congruence.
Qed.

Lemma rcv_progress_eval_buf_field (rcv : surfacegen5_ec_receiver)
  (eb : surfacegen5_eval_buf) :
  rcv_progress rcv (mk_receiver (rcv_state rcv) (rcv_signal rcv) (rcv_fifo rcv)
                                (rcv_expect rcv) eb).
Proof.
  unfold rcv_progress. cbn. repeat apply conj; auto.
  exists []. symmetry. apply app_nil_r.
Qed.

Lemma kfifo_in_length (fifo bs : list Z) :
  (length fifo <= SG5_READ_BUF_LEN)%nat ->
  (length (kfifo_in fifo bs) <= SG5_READ_BUF_LEN)%nat.
Proof.
  intros H. unfold kfifo_in, kfifo_avail.
  rewrite length_app, length_firstn. lia.
Qed.

(** One evaluation. *)
Lemma eval_buf_progress (rx : rx_state) (buf : list Z) (size : nat) :
  rcv_progress (rx_rcv rx)
    (rx_rcv (snd (fst (surfacegen5_ssh_eval_buf N IMM tbl rx buf size)))).
Proof.
  unfold surfacegen5_ssh_eval_buf, surfacegen5_ssh_receive_msg_ctrl,
    surfacegen5_ssh_receive_msg_cmd.
  pose proof (handle_event_rcv IMM tbl rx buf) as Hev.
  repeat match goal with
    | |- context [(?a <? ?b)%nat] => destruct (a <? b)%nat
    | |- context [(?a <=? ?b)%nat] => destruct (a <=? b)%nat
    | |- context [match rcv_state ?r with _ => _ end] =>
        destruct (rcv_state r) eqn:?
    | |- context [surfacegen5_ssh_handle_event ?i ?t ?r ?b] =>
        destruct (surfacegen5_ssh_handle_event i t r b) eqn:?
    | |- context [if ?c then _ else _] => destruct c eqn:?
    end;
    cbn [fst snd] in *; try rewrite Hev; try apply rcv_progress_refl;
    unfold rcv_progress, set_rcv;
    cbn [rx_rcv rcv_state rcv_signal rcv_fifo rcv_expect rcv_rank];
    repeat match goal with
      | H : rcv_state _ = _ |- _ => rewrite H
      end;
    cbn [rcv_rank];
    (repeat apply conj;
     [ reflexivity
     | lia
     | unfold kfifo_in; rewrite <- ?app_assoc; eexists; reflexivity
     | lia
     | intros; repeat apply kfifo_in_length; assumption
     | discriminate ]).
Qed.

Lemma eval_loop_progress (fuel : nat) (mem : list Z) (len : nat)
  (rx : rx_state) (offs : nat) :
  rcv_progress (rx_rcv rx)
    (rx_rcv (fst (fst (eval_loop N IMM tbl fuel mem len rx offs)))).
Proof.
  revert rx offs. induction fuel as [|fuel IH]; intros rx offs.
  - apply rcv_progress_refl.
  - cbn [eval_loop].
    destruct (offs <? len)%nat; [|apply rcv_progress_refl].
    pose proof (eval_buf_progress rx (skipn offs mem) (len - offs)) as Hstep.
    destruct (surfacegen5_ssh_eval_buf N IMM tbl rx (skipn offs mem) (len - offs))
      as [[n rx1] eff].
    cbn [fst snd] in Hstep.
    destruct (n =? 0)%nat; [exact Hstep|].
    specialize (IH rx1 (offs + n)%nat).
    destruct (eval_loop N IMM tbl fuel mem len rx1 (offs + n)) as [[rx2 offs2] eff2].
    cbn [fst snd] in *. exact (rcv_progress_trans _ _ _ Hstep IH).
Qed.

Lemma receive_buf_progress (rx : rx_state) (chunk : list Z) :
  rcv_progress (rx_rcv rx)
    (rx_rcv (snd (fst (surfacegen5_ssh_receive_buf N IMM tbl rx chunk)))).
Proof.
  unfold surfacegen5_ssh_receive_buf.
  match goal with
  | |- context [eval_loop N IMM tbl ?f ?m ?l ?r ?o] =>
      pose proof (eval_loop_progress f m l r o) as Hloop;
      destruct (eval_loop N IMM tbl f m l r o) as [[rx1 offs] eff]
  end.
  cbn [fst snd] in *.
  eapply rcv_progress_trans; [apply rcv_progress_eval_buf_field|].
  eapply rcv_progress_trans; [exact Hloop|].
  apply rcv_progress_eval_buf_field.
Qed.

(** X5: For every sequence of calls of the receive callback and whatever the
    bytes are: the expectation set by the request engine is not touched, the
    receiver never returns to an earlier phase (awaiting control, then
    awaiting the response, then discarding), the fifo is only appended to and
    never holds more than its 512 bytes, the completion count never drops, and
    while the receiver discards nothing reaches the fifo and the completion is
    not raised. *)
Theorem receive_chunks_progress (chunks : list (list Z)) (rx : rx_state) :
  rcv_progress (rx_rcv rx)
    (rx_rcv (fst (receive_chunks N IMM tbl rx chunks))).
Proof.
  revert rx. induction chunks as [|c cs IH]; intros rx.
  - apply rcv_progress_refl.
  - cbn [receive_chunks].
    pose proof (receive_buf_progress rx c) as H1.
    destruct (surfacegen5_ssh_receive_buf N IMM tbl rx c) as [[used rx1] eff1].
    specialize (IH rx1).
    destruct (receive_chunks N IMM tbl rx1 cs) as [rx2 eff2].
    cbn [fst snd] in *. exact (rcv_progress_trans _ _ _ H1 IH).
Qed.

Lemma receive_buf_truncate (rx : rx_state) (chunk : list Z) :
  let eb := rcv_eval_buf (rx_rcv rx) in
  let used := Nat.min (length chunk) (eb_cap eb - eb_len eb) in
  surfacegen5_ssh_receive_buf N IMM tbl rx chunk
  = (used,
     snd (fst (surfacegen5_ssh_receive_buf N IMM tbl rx (firstn used chunk))),
     snd (surfacegen5_ssh_receive_buf N IMM tbl rx (firstn used chunk))).
Proof.
  intros eb used. unfold surfacegen5_ssh_receive_buf. fold eb. fold used.
  assert (Hl : Nat.min (length (firstn used chunk)) (eb_cap eb - eb_len eb) = used).
  { rewrite length_firstn. subst used. lia. }
  rewrite Hl. rewrite firstn_firstn, Nat.min_id.
  destruct (eval_loop N IMM tbl _ _ _ _ 0) as [[rx1 offs] eff]. reflexivity.
Qed.

(** X6: The evaluation buffer under one call of the receive callback, for any
    chunk: the callback accepts as many bytes as the buffer has room for and
    reports that number; the buffer keeps its allocation and never holds more
    than its capacity; and what stays buffered is a tail of the bytes buffered
    before followed by the accepted bytes, so bytes are neither reordered nor
    invented. *)
Theorem receive_buf_buffer (rx : rx_state) (chunk : list Z) :
  let eb := rcv_eval_buf (rx_rcv rx) in
  eb_wf eb ->
  let used := Nat.min (length chunk) (eb_cap eb - eb_len eb) in
  let r := surfacegen5_ssh_receive_buf N IMM tbl rx chunk in
  let eb' := rcv_eval_buf (rx_rcv (snd (fst r))) in
  fst (fst r) = used
  /\ eb_wf eb'
  /\ eb_cap eb' = eb_cap eb
  /\ exists c, (c <= eb_len eb + used)%nat
               /\ eb_len eb' = (eb_len eb + used - c)%nat
               /\ eb_content eb' = skipn c (eb_content eb ++ firstn used chunk).
Proof.
  intros eb Hwf used r eb'. subst r eb'.
  rewrite receive_buf_truncate. fold eb. fold used. cbn [fst snd].
  assert (Hu : length (firstn used chunk) = used).
  { rewrite length_firstn. subst used. lia. }
  assert (Hfit : (length (firstn used chunk) <= eb_cap eb - eb_len eb)%nat).
  { rewrite Hu. subst used. lia. }
  destruct (receive_buf_raw N IMM tbl rx (firstn used chunk) Hwf Hfit)
    as (Hraw & _ & Hcont & Hwf2).
  fold eb in Hraw, Hcont, Hwf2. rewrite Hu in Hraw, Hcont, Hwf2.
  rewrite Hraw. cbn [fst snd set_eval_buf set_rcv rx_rcv rcv_eval_buf].
  split; [reflexivity|]. split; [exact Hwf2|]. split; [reflexivity|].
  eexists. split; [|split; [reflexivity | exact Hcont]].
  apply run_consumed_le.
Qed.

End ReceiverFacts.

Lemma receive_buf_buffer_witness :
  let rx := example_rx SG5_RCV_CONTROL (mk_expect true 1 0x40) in
  let r := surfacegen5_ssh_receive_buf 5 example_immediate [] rx
             (repeat 0xaa 120) in
  fst (fst r) = 112%nat
  /\ eb_wf (rcv_eval_buf (rx_rcv (snd (fst r)))).
Proof.
  intros rx r.
  destruct (receive_buf_buffer 5 example_immediate [] rx (repeat 0xaa 120))
    as (H1 & H2 & _).
  - split; vm_compute; [reflexivity | lia].
  - split; [exact H1 | exact H2].
Defined.

(** ** The send loop of the request engine *)

Section SendFacts.

Variable N : Z.
Variable MAX : Z.
Variable IMM : Z.

Lemma serdev_writes_app (a b : list effect) :
  serdev_writes (a ++ b) = serdev_writes a ++ serdev_writes b.
Proof.
  induction a as [|e a IH]; [reflexivity|].
  destruct e; cbn [app serdev_writes]; rewrite IH; reflexivity.
Qed.

Lemma handle_event_no_write (tbl : list surfacegen5_ec_event_handler)
  (rx : rx_state) (buf : list Z) :
  serdev_writes (snd (surfacegen5_ssh_handle_event IMM tbl rx buf)) = [].
Proof.
  unfold surfacegen5_ssh_handle_event, surfacegen5_event_work_evt_handler.
  destruct (kzalloc rx) as [[|] rx1]; [|reflexivity].
  cbn [snd serdev_writes].
  repeat match goal with
    | |- context [match ?c with _ => _ end] => destruct c
    end; reflexivity.
Qed.

Lemma eval_buf_no_write (tbl : list surfacegen5_ec_event_handler)
  (rx : rx_state) (buf : list Z) (size : nat) :
  serdev_writes (snd (surfacegen5_ssh_eval_buf N IMM tbl rx buf size)) = [].
Proof.
  unfold surfacegen5_ssh_eval_buf, surfacegen5_ssh_receive_msg_ctrl,
    surfacegen5_ssh_receive_msg_cmd.
  pose proof (handle_event_no_write tbl rx buf) as Hev.
  repeat match goal with
    | |- context [(?a <? ?b)%nat] => destruct (a <? b)%nat
    | |- context [(?a <=? ?b)%nat] => destruct (a <=? b)%nat
    | |- context [match rcv_state ?r with _ => _ end] => destruct (rcv_state r)
    | |- context [surfacegen5_ssh_handle_event ?i ?t ?r ?b] =>
        destruct (surfacegen5_ssh_handle_event i t r b)
    | |- context [if ?c then _ else _] => destruct c
    end; cbn [fst snd] in *; try assumption; reflexivity.
Qed.

Lemma eval_loop_no_write (tbl : list surfacegen5_ec_event_handler)
  (fuel : nat) (mem : list Z) (len : nat) (rx : rx_state) (offs : nat) :
  serdev_writes (snd (eval_loop N IMM tbl fuel mem len rx offs)) = [].
Proof.
  revert rx offs. induction fuel as [|fuel IH]; intros rx offs; [reflexivity|].
  cbn [eval_loop]. destruct (offs <? len)%nat; [|reflexivity].
  pose proof (eval_buf_no_write tbl rx (skipn offs mem) (len - offs)) as Hs.
  destruct (surfacegen5_ssh_eval_buf N IMM tbl rx (skipn offs mem) (len - offs))
    as [[n rx1] eff].
  cbn [snd] in Hs. destruct (n =? 0)%nat; [exact Hs|].
  specialize (IH rx1 (offs + n)%nat).
  destruct (eval_loop N IMM tbl fuel mem len rx1 (offs + n)) as [[rx2 o2] eff2].
  cbn [snd] in *. rewrite serdev_writes_app, Hs, IH. reflexivity.
Qed.

(** The receive path never writes to the serial device. *)
Lemma receive_chunks_no_write (tbl : list surfacegen5_ec_event_handler)
  (chunks : list (list Z)) (rx : rx_state) :
  serdev_writes (snd (receive_chunks N IMM tbl rx chunks)) = [].
Proof.
  revert rx. induction chunks as [|c cs IH]; intros rx; [reflexivity|].
  cbn [receive_chunks].
  assert (H1 : serdev_writes
                 (snd (surfacegen5_ssh_receive_buf N IMM tbl rx c)) = []).
  { unfold surfacegen5_ssh_receive_buf.
    match goal with
    | |- context [eval_loop N IMM tbl ?f ?m ?l ?r ?o] =>
        pose proof (eval_loop_no_write tbl f m l r o) as Hl;
        destruct (eval_loop N IMM tbl f m l r o) as [[rx1 offs] eff]
    end. exact Hl. }
  destruct (surfacegen5_ssh_receive_buf N IMM tbl rx c) as [[used rx1] eff1].
  specialize (IH rx1).
  destruct (receive_chunks N IMM tbl rx1 cs) as [rx2 eff2].
  cbn [snd] in *. rewrite serdev_writes_app, H1, IH. reflexivity.
Qed.

Lemma wait_frame (ec : surfacegen5_ec) (wd : world) :
  only_receiver_changed ec
    (snd (fst (fst (wait_for_completion_timeout N IMM ec wd))))
  /\ serdev_writes (snd (wait_for_completion_timeout N IMM ec wd)) = [].
Proof.
  unfold wait_for_completion_timeout.
  pose proof (receive_chunks_no_write (ec_events ec) (hd [] (wd_inbound wd))
                (mk_rx (ec_receiver ec) (wd_kzalloc wd))) as Hw.
  destruct (receive_chunks N IMM (ec_events ec) _ _) as [rx eff].
  cbn [snd] in Hw.
  destruct (rcv_signal (rx_rcv rx)); split; try exact Hw; reflexivity.
Qed.

Lemma only_receiver_changed_trans (a b c : surfacegen5_ec) :
  only_receiver_changed a b -> only_receiver_changed b c ->
  only_receiver_changed a c.
Proof.
  unfold only_receiver_changed. intros Hab Hbc.
  rewrite Hbc. rewrite Hab. reflexivity.
Qed.

Lemma fifo_take_frame (ec : surfacegen5_ec) (n : nat) :
  only_receiver_changed ec (snd (fifo_take ec n)).
Proof. reflexivity. Qed.

Lemma flush_effect (ec : surfacegen5_ec) (wd : world) :
  snd (surfacegen5_ssh_writer_flush ec wd)
  = [SerdevWrite (writer_bytes (ec_writer ec))].
Proof.
  unfold surfacegen5_ssh_writer_flush. destruct (wd_write wd); reflexivity.
Qed.

(** The send loop: only the receiver changes, and the loop writes the
    content of the write buffer, the same bytes each time, once per try. *)
Lemma ack_loop_writes (tries : nat) (packet : surfacegen5_fifo_packet)
  (ec : surfacegen5_ec) (wd : world) :
  let r := ack_loop N IMM tries packet ec wd in
  only_receiver_changed ec (snd (fst (fst r)))
  /\ exists k,
       (k <= tries)%nat
       /\ (0 < tries -> 0 < k)%nat
       /\ (fst (fst (fst (fst r))) = RetriesExhausted -> k = tries)
       /\ serdev_writes (snd r) = repeat (writer_bytes (ec_writer ec)) k.
Proof.
  revert packet ec wd. induction tries as [|tries IH]; intros packet ec wd.
  - cbn. split; [destruct ec; reflexivity|].
    exists 0%nat. repeat apply conj; try reflexivity; lia.
  - cbv zeta. cbn [ack_loop].
    pose proof (flush_effect ec wd) as Hf.
    destruct (surfacegen5_ssh_writer_flush ec wd) as [[status wd1] eff1].
    cbn [snd] in Hf. subst eff1.
    destruct (negb (status =? 0)).
    { cbn [fst snd]. split; [destruct ec; reflexivity|].
      exists 1%nat. repeat apply conj; try reflexivity; try lia. discriminate. }
    destruct (wait_frame ec wd1) as [Hw Hnw].
    destruct (wait_for_completion_timeout N IMM ec wd1) as [[[rem ec1] wd2] eff2].
    cbn [fst snd] in Hw, Hnw.
    assert (Hwr : ec_writer ec1 = ec_writer ec) by (rewrite Hw; reflexivity).
    destruct rem.
    + pose proof (fifo_take_frame ec1 3) as Hft.
      destruct (fifo_take ec1 3) as [bs ec2]. cbn [snd] in Hft.
      assert (Hwr2 : ec_writer ec2 = ec_writer ec)
        by (rewrite Hft; exact Hwr).
      destruct (p_type (packet_load packet bs) =? SG5_FRAME_TYPE_ACK).
      * cbn [fst snd]. split; [exact (only_receiver_changed_trans _ _ _ Hw Hft)|].
        exists 1%nat. repeat apply conj; try lia; try discriminate.
        rewrite serdev_writes_app, Hnw. reflexivity.
      * specialize (IH (packet_load packet bs) ec2 wd2). cbv zeta in IH.
        destruct (ack_loop N IMM tries (packet_load packet bs) ec2 wd2)
          as [[[[ex p'] ec3] wd3] eff3].
        cbn [fst snd] in *. destruct IH as (Hfr & k & Hk1 & Hk2 & Hk3 & Hk4).
        split.
        { exact (only_receiver_changed_trans _ _ _
                   (only_receiver_changed_trans _ _ _ Hw Hft) Hfr). }
        exists (S k). repeat apply conj; try lia.
        { intros Hex. rewrite (Hk3 Hex). reflexivity. }
        rewrite !serdev_writes_app, Hnw, Hk4, Hwr2. reflexivity.
    + specialize (IH packet ec1 wd2). cbv zeta in IH.
      destruct (ack_loop N IMM tries packet ec1 wd2) as [[[[ex p'] ec3] wd3] eff3].
      cbn [fst snd] in *. destruct IH as (Hfr & k & Hk1 & Hk2 & Hk3 & Hk4).
      split; [exact (only_receiver_changed_trans _ _ _ Hw Hfr)|].
      exists (S k). repeat apply conj; try lia.
      { intros Hex. rewrite (Hk3 Hex). reflexivity. }
      rewrite !serdev_writes_app, Hnw, Hk4, Hwr. reflexivity.
Qed.

(** X7: Retries are byte-identical: every write of the send phase of a request
    carries the encoded request, the same bytes each time; there is at least
    one write and there are at most SG5_NUM_RETRY, exactly that many when the
    tries are used up; and the send phase changes nothing of the controller
    but writer and receiver. *)
Theorem rqst_send_writes (ec : surfacegen5_ec) (rqst : surfacegen5_rqst)
  (wd : world) :
  0 <= rq_cdl rqst <= 247 ->
  (Z.to_nat (rq_cdl rqst) <= length (rq_pld rqst))%nat ->
  let r := rqst_send N IMM ec rqst wd in
  let ec' := snd (fst (fst r)) in
  (exists k,
      (1 <= k <= SG5_NUM_RETRY)%nat
      /\ (fst (fst (fst (fst r))) = RetriesExhausted -> k = SG5_NUM_RETRY)
      /\ serdev_writes (snd r)
         = repeat (request_message N (cnt_seq (ec_counter ec))
                                   (cnt_rqid (ec_counter ec)) rqst) k)
  /\ ec_lock ec' = ec_lock ec
  /\ ec_state ec' = ec_state ec
  /\ ec_counter ec' = ec_counter ec
  /\ ec_events ec' = ec_events ec.
Proof.
  intros Hcdl Hpld r ec'. subst ec' r. unfold rqst_send.
  set (ec2 := surfacegen5_ssh_receiver_restart N
                (surfacegen5_ssh_write_msg_cmd N ec rqst) rqst).
  destruct (ack_loop_writes SG5_NUM_RETRY (mk_packet 0 0 0) ec2 wd)
    as (Hfr & k & Hk1 & Hk2 & Hk3 & Hk4).
  assert (Hw : writer_bytes (ec_writer ec2)
               = request_message N (cnt_seq (ec_counter ec))
                                 (cnt_rqid (ec_counter ec)) rqst).
  { exact (writer_at_bytes _ _ _ (write_msg_cmd_at N ec rqst Hcdl Hpld)). }
  rewrite Hw in Hk4.
  split.
  - exists k. split; [|split; [exact Hk3 | exact Hk4]].
    split; [apply Hk2; unfold SG5_NUM_RETRY; lia | exact Hk1].
  - rewrite Hfr. repeat apply conj; reflexivity.
Qed.

Lemma set_receiver_same (ec : surfacegen5_ec) :
  set_receiver ec (ec_receiver ec) = ec.
Proof. destruct ec; reflexivity. Qed.

Lemma ack_loop_silent (tries : nat) (packet : surfacegen5_fifo_packet)
  (ec : surfacegen5_ec) (kz : list bool) :
  rcv_signal (ec_receiver ec) = 0%nat ->
  ack_loop N IMM tries packet ec (mk_world kz [] [])
  = (RetriesExhausted, packet, ec, mk_world kz [] [],
     repeat (SerdevWrite (writer_bytes (ec_writer ec))) tries).
Proof.
  intros Hsig. induction tries as [|tries IH]; [reflexivity|].
  cbn [ack_loop].
  unfold surfacegen5_ssh_writer_flush, wait_for_completion_timeout.
  cbn [wd_write wd_inbound wd_kzalloc hd tl receive_chunks rx_rcv rx_kzalloc
       Z.eqb negb fst snd].
  rewrite Hsig, set_receiver_same, IH. reflexivity.
Qed.

(** X8: A silent peer: when every write succeeds and nothing ever arrives, a
    request with an admissible payload is written SG5_NUM_RETRY times and
    fails with -EIO; the result buffer and the environment are as before, and
    the controller is left as encoding and the restart of the receiver made
    it, with the receiver discarding. *)
Theorem rqst_unlocked_silent_peer (ec : surfacegen5_ec)
  (rqst : surfacegen5_rqst) (result : option surfacegen5_buf) (kz : list bool) :
  rq_cdl rqst <= MAX ->
  let ec2 := surfacegen5_ssh_receiver_restart N
               (surfacegen5_ssh_write_msg_cmd N ec rqst) rqst in
  let frame := SerdevWrite (writer_bytes (ec_writer ec2)) in
  surfacegen5_ec_rqst_unlocked N MAX IMM ec rqst result (mk_world kz [] [])
  = (- EIO, surfacegen5_ssh_receiver_discard ec2, result, mk_world kz [] [],
     [frame; frame; frame; Log LogGivingUp]).
Proof.
  intros Hcdl ec2 frame. unfold surfacegen5_ec_rqst_unlocked.
  destruct (Z.ltb_spec MAX (rq_cdl rqst)); [lia|].
  unfold rqst_send. fold ec2.
  rewrite ack_loop_silent by reflexivity. reflexivity.
Qed.

(** X9: A failed write: when the first write to the serial device fails, the
    request returns the status of that write after this one attempt; it does
    not wait, so what the link holds stays undelivered, and leaves the
    receiver discarding. *)
Theorem rqst_unlocked_write_failure (ec : surfacegen5_ec)
  (rqst : surfacegen5_rqst) (result : option surfacegen5_buf)
  (kz : list bool) (status : Z) (statuses : list Z)
  (inbound : list (list (list Z))) :
  rq_cdl rqst <= MAX ->
  status <> 0 ->
  let ec2 := surfacegen5_ssh_receiver_restart N
               (surfacegen5_ssh_write_msg_cmd N ec rqst) rqst in
  surfacegen5_ec_rqst_unlocked N MAX IMM ec rqst result
    (mk_world kz (status :: statuses) inbound)
  = (status, surfacegen5_ssh_receiver_discard ec2, result,
     mk_world kz statuses inbound,
     [SerdevWrite (writer_bytes (ec_writer ec2))]).
Proof.
  intros Hcdl Hst ec2. unfold surfacegen5_ec_rqst_unlocked.
  destruct (Z.ltb_spec MAX (rq_cdl rqst)); [lia|].
  unfold rqst_send. fold ec2. unfold SG5_NUM_RETRY. cbn [ack_loop].
  unfold surfacegen5_ssh_writer_flush. cbn [wd_write wd_kzalloc wd_inbound].
  apply Z.eqb_neq in Hst. rewrite Hst. reflexivity.
Qed.

End SendFacts.

Lemma rqst_send_writes_witness :
  exists k,
    (1 <= k <= SG5_NUM_RETRY)%nat
    /\ serdev_writes
         (snd (rqst_send 5 example_immediate (example_ec SG5_EC_INITIALIZED)
                 example_rqst example_peer_silent))
       = repeat (request_message 5 0 2 example_rqst) k.
Proof.
  destruct (rqst_send_writes 5 example_immediate (example_ec SG5_EC_INITIALIZED)
              example_rqst example_peer_silent
              ltac:(cbn; lia) ltac:(cbn; lia)) as [(k & Hk & _ & Hw) _].
  exists k. split; [exact Hk | exact Hw].
Defined.

Lemma rqst_unlocked_silent_peer_witness :
  fst (fst (fst (fst
    (surfacegen5_ec_rqst_unlocked 5 94 example_immediate
       (example_ec SG5_EC_INITIALIZED) example_rqst None (mk_world [] [] [])))))
  = - EIO.
Proof.
  rewrite (rqst_unlocked_silent_peer 5 94 example_immediate
             (example_ec SG5_EC_INITIALIZED) example_rqst None []
             ltac:(cbn; lia)).
  reflexivity.
Defined.

Lemma rqst_unlocked_write_failure_witness :
  fst (fst (fst (fst
    (surfacegen5_ec_rqst_unlocked 5 94 example_immediate
       (example_ec SG5_EC_INITIALIZED) example_rqst None
       (mk_world [] [-110] [[ctrl_message SG5_FRAME_TYPE_ACK 0]])))))
  = -110.
Proof.
  rewrite (rqst_unlocked_write_failure 5 94 example_immediate
             (example_ec SG5_EC_INITIALIZED) example_rqst None [] (-110) []
             [[ctrl_message SG5_FRAME_TYPE_ACK 0]]
             ltac:(cbn; lia) ltac:(discriminate)).
  reflexivity.
Defined.

(** ** What a request leaves behind *)

Section EpilogueFacts.

Variable N : Z.
Variable MAX : Z.
Variable IMM : Z.

Lemma facade_kept_refl (ec : surfacegen5_ec) : facade_kept ec ec.
Proof. repeat split. Qed.

Lemma facade_kept_trans (a b c : surfacegen5_ec) :
  facade_kept a b -> facade_kept b c -> facade_kept a c.
Proof. unfold facade_kept. intuition congruence. Qed.

Lemma only_receiver_facade (ec ec' : surfacegen5_ec) :
  only_receiver_changed ec ec' -> facade_kept ec ec'.
Proof. intros H. rewrite H. repeat split. Qed.

Lemma rqst_send_kept (ec : surfacegen5_ec) (rqst : surfacegen5_rqst)
  (wd : world) :
  facade_kept ec (snd (fst (fst (rqst_send N IMM ec rqst wd)))).
Proof.
  unfold rqst_send.
  match goal with
  | |- context [ack_loop N IMM ?t ?p ?e ?w] =>
      destruct (ack_loop_writes N IMM t p e w) as [Hfr _]
  end.
  apply only_receiver_facade in Hfr.
  eapply facade_kept_trans; [|exact Hfr]. repeat split.
Qed.

Lemma rqst_response_kept (ec : surfacegen5_ec) (rqst : surfacegen5_rqst)
  (result : option surfacegen5_buf) (packet : surfacegen5_fifo_packet)
  (wd : world) :
  facade_kept ec
    (snd (fst (fst (fst (rqst_response N IMM ec rqst result packet wd))))).
Proof.
  unfold rqst_response.
  destruct result as [res|]; [|apply facade_kept_refl].
  destruct (negb (rq_snc rqst =? 0)); [|apply facade_kept_refl].
  destruct (wait_frame N IMM ec wd) as [Hw _].
  apply only_receiver_facade in Hw.
  destruct (wait_for_completion_timeout N IMM ec wd) as [[[rem ec1] wd1] eff1].
  cbn [fst snd] in Hw.
  destruct rem; [|exact Hw].
  unfold fifo_take, kfifo_out. cbn [fst snd].
  destruct (Z.of_nat (b_cap res) <? _); [exact Hw|].
  destruct (surfacegen5_ssh_writer_flush _ wd1) as [[status wd2] eff2].
  cbn [fst snd]. exact Hw.
Qed.

Lemma receiver_discard_idle (ec : surfacegen5_ec) :
  receiver_idle (ec_receiver (surfacegen5_ssh_receiver_discard ec))
  /\ facade_kept ec (surfacegen5_ssh_receiver_discard ec).
Proof. repeat split. Qed.

Lemma rqst_unlocked_kept (ec : surfacegen5_ec) (rqst : surfacegen5_rqst)
  (result : option surfacegen5_buf) (wd : world) :
  let ec' := snd (fst (fst (fst
               (surfacegen5_ec_rqst_unlocked N MAX IMM ec rqst result wd)))) in
  facade_kept ec ec'
  /\ (rq_cdl rqst <= MAX -> receiver_idle (ec_receiver ec')).
Proof.
  cbv zeta. unfold surfacegen5_ec_rqst_unlocked.
  destruct (Z.ltb_spec MAX (rq_cdl rqst)).
  { cbn [fst snd]. split; [apply facade_kept_refl | lia]. }
  pose proof (rqst_send_kept ec rqst wd) as Hs.
  destruct (rqst_send N IMM ec rqst wd) as [[[[ex packet] ec3] wd1] eff1].
  cbn [fst snd] in Hs.
  destruct ex as [|status|]; cbn [fst snd].
  - match goal with
    | |- context [rqst_response N IMM ?e ?r ?res ?p ?w] =>
        pose proof (rqst_response_kept e r res p w) as Hr;
        destruct (rqst_response N IMM e r res p w) as [[[[st ec5] res1] wd2] eff2]
    end.
    cbn [fst snd] in *.
    split; [|intros _; apply receiver_discard_idle].
    eapply facade_kept_trans; [exact Hs|].
    eapply facade_kept_trans; [|exact Hr]. repeat split.
  - split; [exact Hs | intros _; apply receiver_discard_idle].
  - split; [exact Hs | intros _; apply receiver_discard_idle].
Qed.

(** X10: Whatever the state of the controller, the request and the peer do:
    the public request operation returns with the controller mutex released,
    and with the controller state and the handler table as they were; and when
    the controller is initialized and the payload admissible, it leaves the
    receiver discarding, with an empty fifo and an empty evaluation buffer, on
    success and on every failure alike. *)
Theorem rqst_epilogue (ec : surfacegen5_ec) (rqst : surfacegen5_rqst)
  (result : option surfacegen5_buf) (wd : world) :
  let ec' := snd (fst (fst (fst
               (surfacegen5_ec_rqst N MAX IMM ec rqst result wd)))) in
  ec_lock ec' = false
  /\ ec_state ec' = ec_state ec
  /\ ec_events ec' = ec_events ec
  /\ (ec_state ec = SG5_EC_INITIALIZED -> rq_cdl rqst <= MAX ->
      receiver_idle (ec_receiver ec')).
Proof.
  cbv zeta. unfold surfacegen5_ec_rqst, surfacegen5_ec_acquire_init,
    surfacegen5_ec_acquire, surfacegen5_ec_release.
  cbn [set_lock ec_state].
  destruct (ec_state ec) eqn:Hst;
    cbn [fst snd set_lock ec_lock ec_state ec_events ec_receiver];
    rewrite ?Hst;
    cbn [fst snd set_lock ec_lock ec_state ec_events ec_receiver].
  - repeat apply conj; try reflexivity; try exact Hst;
      intros H; discriminate H.
  - match goal with
    | |- context [surfacegen5_ec_rqst_unlocked N MAX IMM ?e ?r ?res ?w] =>
        destruct (rqst_unlocked_kept e r res w) as [(Hl & Hs & He) Hidle];
        destruct (surfacegen5_ec_rqst_unlocked N MAX IMM e r res w)
          as [[[[st ec2] res1] wd1] eff]
    end.
    cbn [fst snd set_lock ec_lock ec_state ec_events ec_receiver] in *.
    split; [reflexivity|]. split; [congruence|]. split; [assumption|].
    intros _ Hcdl. exact (Hidle Hcdl).
  - repeat apply conj; try reflexivity; try exact Hst;
      intros H; discriminate H.
Qed.

End EpilogueFacts.

(** ** Handler registry *)

Section RegistryFacts.

Variable N : Z.
Hypothesis HN : 0 <= N <= 16.

Lemma array_set_length {A : Type} (l : list A) (i : nat) (x : A) :
  length (array_set l i x) = length l.
Proof.
  unfold array_set. destruct (skipn i l) as [|y rest] eqn:E; [reflexivity|].
  rewrite <- (firstn_skipn i l) at 2. rewrite E, !length_app. reflexivity.
Qed.

Lemma nth_array_set_same {A : Type} (l : list A) (i : nat) (x d : A) :
  (i < length l)%nat -> nth i (array_set l i x) d = x.
Proof.
  intros Hi. unfold array_set.
  destruct (skipn i l) as [|y rest] eqn:E.
  - apply (f_equal (@length A)) in E. rewrite length_skipn in E. cbn in E. lia.
  - rewrite app_nth2 by (rewrite length_firstn; lia).
    rewrite length_firstn. replace (i - Nat.min i (length l))%nat with 0%nat by lia.
    reflexivity.
Qed.

Lemma nth_array_set_other {A : Type} (l : list A) (i j : nat) (x d : A) :
  j <> i -> nth j (array_set l i x) d = nth j l d.
Proof.
  intros Hj. unfold array_set.
  destruct (skipn i l) as [|y rest] eqn:E; [reflexivity|].
  rewrite <- (firstn_skipn i l) at 2. rewrite E.
  assert (Hl : (i <= length l)%nat).
  { apply (f_equal (@length A)) in E. rewrite length_skipn in E. cbn in E. lia. }
  destruct (Nat.lt_ge_cases j i) as [Hlt | Hge].
  - rewrite !app_nth1 by (rewrite length_firstn; lia). reflexivity.
  - rewrite !app_nth2 by (rewrite length_firstn; lia).
    rewrite length_firstn.
    replace (j - Nat.min i (length l))%nat with (S (j - i - 1)) by lia.
    reflexivity.
Qed.

Lemma event_slot_index (rqid : Z) :
  is_u16 rqid -> surfacegen5_rqid_is_event N rqid = true ->
  (Z.to_nat (rqid - 1) < Z.to_nat (SG5_NUM_EVENT_TYPES N))%nat.
Proof.
  intros [Hr _] Hev. apply rqid_is_event_range in Hev; [|assumption|assumption].
  unfold SG5_NUM_EVENT_TYPES. rewrite Z.shiftl_1_l. lia.
Qed.

Lemma event_slot_distinct (p q : Z) :
  is_u16 p -> is_u16 q ->
  surfacegen5_rqid_is_event N p = true ->
  surfacegen5_rqid_is_event N q = true ->
  p <> q -> Z.to_nat (q - 1) <> Z.to_nat (p - 1).
Proof.
  intros [Hp _] [Hq _] Ep Eq Hne.
  apply rqid_is_event_range in Ep; [|assumption|assumption].
  apply rqid_is_event_range in Eq; [|assumption|assumption].
  lia.
Qed.

Lemma registered_slot (ec : surfacegen5_ec) (rqid : Z)
  (fn delay : option (surfacegen5_event -> Z)) :
  ec_lock ec = false ->
  is_u16 rqid ->
  length (ec_events ec) = Z.to_nat (SG5_NUM_EVENT_TYPES N) ->
  surfacegen5_rqid_is_event N rqid = true ->
  ec_state ec <> SG5_EC_UNINITIALIZED ->
  handler_slot
    (ec_events (snd (surfacegen5_ec_set_delayed_event_handler N ec rqid fn delay)))
    rqid
  = mk_handler fn delay.
Proof.
  intros Hlock Hu Hlen Hev Hst.
  unfold surfacegen5_ec_set_delayed_event_handler, surfacegen5_ec_acquire_init,
    surfacegen5_ec_acquire, surfacegen5_ec_release.
  destruct ec as [lock state counter writer receiver events].
  cbn [ec_lock ec_state ec_events set_lock set_events] in *. subst lock.
  rewrite Hev. cbn [negb].
  destruct state; [contradiction| |];
    cbn [fst snd ec_events set_events set_lock ec_lock ec_state ec_counter
         ec_writer ec_receiver];
    unfold handler_slot; apply nth_array_set_same;
    rewrite Hlen; apply event_slot_index; assumption.
Qed.

(** X11: Registering a handler. A request id outside the event range is
    refused with -EINVAL and an uninitialized controller with -ENXIO, both
    without any change. Otherwise the call succeeds, the slot of the request
    id holds the handler and its delay function, the slots of all other event
    ids and the size of the table are as before (the write stays inside the
    table), and nothing but the table has changed. *)
Theorem set_delayed_event_handler_spec (ec : surfacegen5_ec) (rqid : Z)
  (fn delay : option (surfacegen5_event -> Z)) :
  ec_lock ec = false ->
  is_u16 rqid ->
  length (ec_events ec) = Z.to_nat (SG5_NUM_EVENT_TYPES N) ->
  let r := surfacegen5_ec_set_delayed_event_handler N ec rqid fn delay in
  (surfacegen5_rqid_is_event N rqid = false -> r = (- EINVAL, ec))
  /\ (surfacegen5_rqid_is_event N rqid = true ->
      ec_state ec = SG5_EC_UNINITIALIZED -> r = (- ENXIO, ec))
  /\ (surfacegen5_rqid_is_event N rqid = true ->
      ec_state ec <> SG5_EC_UNINITIALIZED ->
      fst r = 0
      /\ handler_slot (ec_events (snd r)) rqid = mk_handler fn delay
      /\ (forall q, is_u16 q -> surfacegen5_rqid_is_event N q = true ->
                    q <> rqid ->
                    handler_slot (ec_events (snd r)) q
                    = handler_slot (ec_events ec) q)
      /\ length (ec_events (snd r)) = length (ec_events ec)
      /\ snd r = set_events ec (ec_events (snd r))).
Proof.
  intros Hlock Hu Hlen r. subst r.
  unfold surfacegen5_ec_set_delayed_event_handler, surfacegen5_ec_acquire_init,
    surfacegen5_ec_acquire, surfacegen5_ec_release.
  destruct ec as [lock state counter writer receiver events].
  cbn [ec_lock ec_state ec_events set_lock set_events] in *. subst lock.
  split; [intros ->; reflexivity|].
  split; [intros -> ->; reflexivity|].
  intros Hev Hst. rewrite Hev. cbn [negb].
  destruct state; [contradiction| |];
    cbn [fst snd ec_events set_events set_lock ec_lock ec_state ec_counter
         ec_writer ec_receiver];
    (split; [reflexivity|]);
    (split; [unfold handler_slot; apply nth_array_set_same;
             rewrite Hlen; apply event_slot_index; assumption|]);
    (split; [intros q Hq Eq Hne; unfold handler_slot;
             apply nth_array_set_other;
             apply event_slot_distinct; try assumption; congruence|]);
    (split; [apply array_set_length | reflexivity]).
Qed.


(** X13: Registration and dispatch together: once a handler is registered for
    an event id, an event message with that id is dispatched to it. The ACK
    work is queued first; then, if the registered delay function answers
    SURFACEGEN5_EVENT_IMMEDIATE, the handler is called at once, and otherwise
    the handler work is queued with the delay the function gave, or with no
    delay when no delay function is registered. *)
Theorem registered_handler_is_called (IMM : Z) (ec : surfacegen5_ec) (rqid : Z)
  (fn : surfacegen5_event -> Z) (delay : option (surfacegen5_event -> Z))
  (rx : rx_state) (buf : list Z) :
  ec_lock ec = false ->
  is_u16 rqid ->
  length (ec_events ec) = Z.to_nat (SG5_NUM_EVENT_TYPES N) ->
  surfacegen5_rqid_is_event N rqid = true ->
  ec_state ec <> SG5_EC_UNINITIALIZED ->
  cmd_rqid buf = rqid ->
  fst (kzalloc rx) = true ->
  let tbl := ec_events (snd (surfacegen5_ec_set_delayed_event_handler N ec rqid
                               (Some fn) delay)) in
  let ev := event_of buf in
  let wait := match delay with Some delay_fn => delay_fn ev | None => 0 end in
  let call := HandlerCall ev :: (if fn ev =? 0 then [] else [Log LogHandlerError]) in
  snd (surfacegen5_ssh_handle_event IMM tbl rx buf)
  = QueueWorkAck (ctrl_seq buf) ev
    :: (if wait =? IMM then call else [QueueDelayedWorkEvt ev wait])
  /\ surfacegen5_event_work_evt_handler tbl ev = call.
Proof.
  intros Hlock Hu Hlen Hev Hst Hid Hk tbl ev wait call.
  pose proof (registered_slot ec rqid (Some fn) delay Hlock Hu Hlen Hev Hst)
    as Hslot.
  fold tbl in Hslot.
  assert (Hcall : surfacegen5_event_work_evt_handler tbl ev = call).
  { unfold surfacegen5_event_work_evt_handler.
    replace (ev_rqid ev) with rqid by (symmetry; exact Hid).
    rewrite Hslot. reflexivity. }
  split; [|exact Hcall].
  unfold surfacegen5_ssh_handle_event.
  destruct (kzalloc rx) as [ok rx1]. cbn [fst] in Hk. subst ok. cbn [snd].
  fold (event_of buf). fold ev.
  replace (ev_rqid ev) with rqid by (symmetry; exact Hid).
  rewrite Hslot. cbn [h_delay]. fold wait. rewrite Hcall. reflexivity.
Qed.

End RegistryFacts.

Lemma set_delayed_event_handler_spec_witness :
  handler_slot
    (ec_events (snd (surfacegen5_ec_set_delayed_event_handler 5 example_ec_slots
                       0x1f (Some example_handler) (Some example_delay))))
    0x1f
  = mk_handler (Some example_handler) (Some example_delay).
Proof.
  destruct (set_delayed_event_handler_spec 5 ltac:(lia) example_ec_slots 0x1f
              (Some example_handler) (Some example_delay)
              eq_refl ltac:(unfold is_u16; lia) eq_refl) as (_ & _ & H).
  destruct (H eq_refl ltac:(discriminate)) as (_ & Hslot & _).
  exact Hslot.
Defined.


Lemma registered_handler_is_called_witness :
  snd (surfacegen5_ssh_handle_event example_immediate
         (ec_events (snd (surfacegen5_ec_set_delayed_event_handler 5
                            example_ec_slots 0x01 (Some example_handler)
                            (Some example_delay))))
         (example_rx SG5_RCV_DISCARD (mk_expect false 0 0)) example_event)
  = [QueueWorkAck 0x05 (event_of example_event);
     QueueDelayedWorkEvt (event_of example_event) 3].
Proof.
  exact (proj1 (registered_handler_is_called 5 ltac:(lia) example_immediate
                  example_ec_slots 0x01 example_handler (Some example_delay)
                  (example_rx SG5_RCV_DISCARD (mk_expect false 0 0)) example_event
                  eq_refl ltac:(unfold is_u16; lia) eq_refl eq_refl
                  ltac:(discriminate) eq_refl eq_refl)).
Defined.

(** ** Power management *)

Section PowerFacts.

Variable N : Z.
Variable MAX : Z.
Variable IMM : Z.

Lemma ec_power_request_kept (cid : Z) (ec : surfacegen5_ec) (wd : world) :
  facade_kept ec (snd (fst (fst (ec_power_request N MAX IMM cid ec wd)))).
Proof.
  unfold ec_power_request.
  match goal with
  | |- context [surfacegen5_ec_rqst_unlocked N MAX IMM ?e ?r ?res ?w] =>
      destruct (rqst_unlocked_kept N MAX IMM e r res w) as [Hk _];
      destruct (surfacegen5_ec_rqst_unlocked N MAX IMM e r res w)
        as [[[[st ec1] res1] wd1] eff]
  end.
  cbn [fst snd] in Hk. destruct (negb (st =? 0)); exact Hk.
Qed.

(** X14: The suspend callback. On an uninitialized controller it does nothing
    and returns 0. On any other controller, already suspended or not, it runs
    the EC suspend request and then marks the controller suspended and
    releases the mutex, whatever the request returned; the status of the
    request is what it returns, and the handler table is not touched. From
    then on the public request operation is refused with -EPERM and writes
    nothing. *)
Theorem ssh_suspend_spec (ec : surfacegen5_ec) (wd : world) :
  ec_lock ec = false ->
  let r := surfacegen5_ssh_suspend N MAX IMM ec wd in
  let ec' := snd (fst (fst r)) in
  (ec_state ec = SG5_EC_UNINITIALIZED -> r = (0, ec, wd, []))
  /\ (ec_state ec <> SG5_EC_UNINITIALIZED ->
      ec_state ec' = SG5_EC_SUSPENDED
      /\ ec_lock ec' = false
      /\ ec_events ec' = ec_events ec
      /\ fst (fst (fst r))
         = fst (fst (fst (surfacegen5_ssh_ec_suspend N MAX IMM
                            (surfacegen5_ec_acquire ec) wd)))
      /\ forall rqst result wd',
           surfacegen5_ec_rqst N MAX IMM ec' rqst result wd'
           = (- EPERM, ec', result, wd', [Log LogSuspended])).
Proof.
  intros Hlock r ec'. subst ec' r.
  unfold surfacegen5_ssh_suspend, surfacegen5_ec_acquire_init.
  split.
  - intros Hst. destruct ec as [lock state counter writer receiver events].
    cbn in Hlock, Hst. subst. reflexivity.
  - intros Hst.
    assert (Hacq : ec_state (surfacegen5_ec_acquire ec) = ec_state ec)
      by reflexivity.
    rewrite Hacq.
    pose proof (ec_power_request_kept 0x15 (surfacegen5_ec_acquire ec) wd) as Hk.
    unfold surfacegen5_ssh_ec_suspend.
    destruct (ec_state ec) eqn:E; [contradiction| |];
      destruct (ec_power_request N MAX IMM 0x15 (surfacegen5_ec_acquire ec) wd)
        as [[[status ec2] wd1] eff];
      cbn [fst snd] in *; destruct Hk as (_ & _ & He);
      (split; [reflexivity|]); (split; [reflexivity|]);
      (split; [exact He|]); (split; [reflexivity|]);
      intros rqst result wd'; destruct ec2; reflexivity.
Qed.

(** X15: The resume callback. On an uninitialized controller it does nothing
    and returns 0. On any other controller it marks the controller initialized
    before it runs the EC resume request, and the controller stays initialized
    with the mutex released even when that request fails; the status of the
    request is what it returns. *)
Theorem ssh_resume_spec (ec : surfacegen5_ec) (wd : world) :
  ec_lock ec = false ->
  let r := surfacegen5_ssh_resume N MAX IMM ec wd in
  let ec' := snd (fst (fst r)) in
  (ec_state ec = SG5_EC_UNINITIALIZED -> r = (0, ec, wd, []))
  /\ (ec_state ec <> SG5_EC_UNINITIALIZED ->
      ec_state ec' = SG5_EC_INITIALIZED
      /\ ec_lock ec' = false
      /\ ec_events ec' = ec_events ec
      /\ fst (fst (fst r))
         = fst (fst (fst (surfacegen5_ssh_ec_resume N MAX IMM
                            (set_state (surfacegen5_ec_acquire ec)
                                       SG5_EC_INITIALIZED) wd)))).
Proof.
  intros Hlock r ec'. subst ec' r.
  unfold surfacegen5_ssh_resume, surfacegen5_ec_acquire_init.
  split.
  - intros Hst. destruct ec as [lock state counter writer receiver events].
    cbn in Hlock, Hst. subst. reflexivity.
  - intros Hst.
    assert (Hacq : ec_state (surfacegen5_ec_acquire ec) = ec_state ec)
      by reflexivity.
    rewrite Hacq.
    pose proof (ec_power_request_kept 0x16
                  (set_state (surfacegen5_ec_acquire ec) SG5_EC_INITIALIZED) wd)
      as Hk.
    unfold surfacegen5_ssh_ec_resume.
    destruct (ec_state ec) eqn:E; [contradiction| |];
      destruct (ec_power_request N MAX IMM 0x16
                  (set_state (surfacegen5_ec_acquire ec) SG5_EC_INITIALIZED) wd)
        as [[[status ec2] wd1] eff];
      cbn [fst snd] in *; destruct Hk as (_ & Hs & He);
      (split; [exact Hs|]); (split; [reflexivity|]);
      (split; [exact He | reflexivity]).
Qed.

End PowerFacts.

Lemma ssh_suspend_spec_witness :
  let ec' := snd (fst (fst (surfacegen5_ssh_suspend 5 94 example_immediate
                              (example_ec SG5_EC_INITIALIZED)
                              example_peer_silent))) in
  ec_state ec' = SG5_EC_SUSPENDED /\ ec_lock ec' = false.
Proof.
  intros ec'.
  destruct (ssh_suspend_spec 5 94 example_immediate
              (example_ec SG5_EC_INITIALIZED) example_peer_silent eq_refl)
    as [_ H].
  destruct (H ltac:(discriminate)) as (Hs & Hl & _).
  split; [exact Hs | exact Hl].
Defined.

Lemma ssh_resume_spec_witness :
  let ec' := snd (fst (fst (surfacegen5_ssh_resume 5 94 example_immediate
                              (example_ec SG5_EC_SUSPENDED)
                              example_peer_silent))) in
  ec_state ec' = SG5_EC_INITIALIZED /\ ec_lock ec' = false.
Proof.
  intros ec'.
  destruct (ssh_resume_spec 5 94 example_immediate
              (example_ec SG5_EC_SUSPENDED) example_peer_silent eq_refl)
    as [_ H].
  destruct (H ltac:(discriminate)) as (Hs & Hl & _).
  split; [exact Hs | exact Hl].
Defined.

(** ** A request that succeeds *)

Section SuccessFacts.

Variable N : Z.
Variable MAX : Z.
Variable IMM : Z.
Hypothesis HN : 0 <= N <= 16.

Lemma rqid_to_rqst_not_event (c : Z) :
  surfacegen5_rqid_is_event N (surfacegen5_rqid_to_rqst N c) = false.
Proof.
  destruct (rqid_to_rqst_multiple N c HN) as (k & Hk & Hc).
  assert (Hpos : 0 < 2 ^ N) by (apply Z.pow_pos_nonneg; lia).
  destruct (surfacegen5_rqid_is_event N (surfacegen5_rqid_to_rqst N c)) eqn:E;
    [|reflexivity].
  apply rqid_is_event_range in E;
    [|assumption|rewrite Hc; apply Z.mul_nonneg_nonneg; lia].
  rewrite Hc in E. clear Hc. revert Hpos E. generalize (2 ^ N). intros p Hp E.
  destruct (Z.eq_dec k 0) as [-> | Hk0]; [lia | nia].
Qed.

Lemma response_message_split (seq tc iid rqid cid : Z) (pld rest : list Z) :
  let ctrl := [0x80; 8 + Z.of_nat (length pld); 0x00; seq] in
  let cmd := [0x80; tc; 0x00; 0x01; iid;
              Z.land rqid 0xff; Z.shiftr rqid 8; cid] in
  response_message seq tc iid rqid cid pld ++ rest
  = [0xaa; 0x55] ++ ctrl ++ le16 (surfacegen5_ssh_crc ctrl)
    ++ (cmd ++ pld ++ le16 (surfacegen5_ssh_crc (cmd ++ pld)) ++ rest)
  /\ response_message seq tc iid rqid cid pld ++ rest
     = ([0xaa; 0x55] ++ ctrl ++ le16 (surfacegen5_ssh_crc ctrl))
       ++ (cmd ++ pld) ++ le16 (surfacegen5_ssh_crc (cmd ++ pld)) ++ rest.
Proof.
  cbv zeta. unfold response_message, cmd_message.
  split.
  - rewrite <- !app_assoc. reflexivity.
  - rewrite <- !app_assoc. reflexivity.
Qed.

Lemma response_message_length (seq tc iid rqid cid : Z) (pld : list Z) :
  length (response_message seq tc iid rqid cid pld) = (18 + length pld)%nat.
Proof.
  unfold response_message, cmd_message, le16.
  rewrite !length_app. cbn [length]. lia.
Qed.

(** While the response is awaited, a response message with the expected
    request id is consumed as one message and handed to the request
    engine: the packet (0x80, seq, payload length) and the payload go into
    the fifo, the completion is raised and the receiver starts
    discarding. *)
Lemma eval_buf_response (tbl : list surfacegen5_ec_event_handler)
  (rx : rx_state) (seq tc iid rqid cid : Z) (pld rest : list Z) (size : nat) :
  0 <= rqid ->
  surfacegen5_rqid_is_event N rqid = false ->
  (length pld <= 247)%nat ->
  rcv_state (rx_rcv rx) = SG5_RCV_COMMAND ->
  ex_rqid (rcv_expect (rx_rcv rx)) = rqid ->
  (3 + length pld <= kfifo_avail (rcv_fifo (rx_rcv rx)))%nat ->
  (18 + length pld <= size)%nat ->
  surfacegen5_ssh_eval_buf N IMM tbl rx
    (response_message seq tc iid rqid cid pld ++ rest) size
  = ((18 + length pld)%nat,
     mk_rx (mk_receiver SG5_RCV_DISCARD
              (S (rcv_signal (rx_rcv rx)))
              (rcv_fifo (rx_rcv rx)
               ++ [SG5_FRAME_TYPE_CMD; seq; Z.of_nat (length pld)] ++ pld)
              (rcv_expect (rx_rcv rx))
              (rcv_eval_buf (rx_rcv rx)))
           (rx_kzalloc rx),
     [Log LogValidCmd]).
Proof.
  intros Hid Hev Hpl Hst Hex Hfifo Hsize.
  destruct (response_message_split seq tc iid rqid cid pld rest) as [Hm1 Hm2].
  cbv zeta in Hm1, Hm2.
  set (m := response_message seq tc iid rqid cid pld ++ rest) in *.
  set (ctrl := [0x80; 8 + Z.of_nat (length pld); 0x00; seq]) in *.
  set (cmd := [0x80; tc; 0x00; 0x01; iid;
               Z.land rqid 0xff; Z.shiftr rqid 8; cid]) in *.
  set (c1 := surfacegen5_ssh_crc ctrl) in *.
  set (c2 := surfacegen5_ssh_crc (cmd ++ pld)) in *.
  assert (Hsyn : surfacegen5_ssh_is_valid_syn m = true)
    by (rewrite Hm1; reflexivity).
  assert (Hty : ctrl_type m = SG5_FRAME_TYPE_CMD) by (rewrite Hm1; reflexivity).
  assert (Hlen : ctrl_len m = 8 + Z.of_nat (length pld))
    by (rewrite Hm1; reflexivity).
  assert (Hseq : ctrl_seq m = seq) by (rewrite Hm1; reflexivity).
  assert (Hcty : cmd_type m = SG5_FRAME_TYPE_CMD) by (rewrite Hm1; reflexivity).
  assert (Hcrc1 : surfacegen5_ssh_is_valid_crc m SG5_FRAME_OFFS_CTRL
                    SG5_FRAME_OFFS_CTRL_CRC = true).
  { rewrite Hm1. subst c1. exact (valid_crc_written [0xaa; 0x55] ctrl _). }
  assert (Hn : Z.to_nat (ctrl_len m) = (8 + length pld)%nat)
    by (rewrite Hlen; lia).
  assert (Hcrc2 : surfacegen5_ssh_is_valid_crc m SG5_FRAME_OFFS_CMD
                    (SG5_FRAME_OFFS_CMD + Z.to_nat (ctrl_len m)) = true).
  { rewrite Hn, Hm2. subst c2.
    pose proof (valid_crc_written ([0xaa; 0x55] ++ ctrl ++ le16 c1)
                  (cmd ++ pld) rest) as H.
    replace (length ([0xaa; 0x55] ++ ctrl ++ le16 c1)) with SG5_FRAME_OFFS_CMD in H
      by reflexivity.
    replace (length (cmd ++ pld)) with (8 + length pld)%nat in H
      by (rewrite length_app; reflexivity).
    exact H. }
  assert (Hrq : cmd_rqid m = rqid).
  { rewrite Hm1. unfold cmd_rqid, cmd_rqid_hi, cmd_rqid_lo. sizes.
    unfold le16, ctrl, cmd, rd. cbn [app nth Nat.add].
    apply le16_join. exact Hid. }
  assert (Hu8 : u8 (ctrl_len m - Z.of_nat SG5_BYTELEN_CMDFRAME)
                = Z.of_nat (length pld)).
  { rewrite Hlen. unfold u8. sizes. rewrite Z.mod_small; lia. }
  assert (Hreg : region m SG5_FRAME_OFFS_CMD_PLD (length pld) = pld).
  { rewrite Hm1.
    replace ([0xaa; 0x55] ++ ctrl ++ le16 c1
             ++ cmd ++ pld ++ le16 c2 ++ rest)
      with (([0xaa; 0x55] ++ ctrl ++ le16 c1 ++ cmd) ++ pld ++ le16 c2 ++ rest)
      by (rewrite <- !app_assoc; reflexivity).
    replace SG5_FRAME_OFFS_CMD_PLD
      with (length ([0xaa; 0x55] ++ ctrl ++ le16 c1 ++ cmd)) by reflexivity.
    apply region_app_at. }
  unfold surfacegen5_ssh_eval_buf, surfacegen5_ssh_receive_msg_cmd.
  rewrite Hsyn, Hty, Hcrc1, Hcty, Hcrc2, Hrq, Hev, Hst, Hex, Hseq.
  cbn [p_len]. rewrite Hu8, Hn, Nat2Z.id.
  destruct (Nat.ltb_spec size (SG5_BYTELEN_SYNC + SG5_BYTELEN_CTRL));
    [sizes; lia|].
  destruct (Nat.ltb_spec size
              (SG5_BYTELEN_SYNC + SG5_BYTELEN_CTRL + SG5_BYTELEN_CRC));
    [sizes; lia|].
  destruct (Nat.ltb_spec size (SG5_MSG_LEN_CMD_BASE + (8 + length pld)));
    [sizes; lia|].
  destruct (Nat.leb_spec (3 + length pld) (kfifo_avail (rcv_fifo (rx_rcv rx))));
    [|lia].
  change (SG5_FRAME_TYPE_CMD =? SG5_FRAME_TYPE_ACK) with false.
  change (SG5_FRAME_TYPE_CMD =? SG5_FRAME_TYPE_RETRY) with false.
  change (SG5_FRAME_TYPE_CMD =? SG5_FRAME_TYPE_CMD) with true.
  rewrite (Z.eqb_refl rqid).
  cbn [negb andb orb].
  rewrite Hreg.
  unfold kfifo_avail in *.
  rewrite (kfifo_in_fits (rcv_fifo (rx_rcv rx)))
    by (unfold kfifo_avail, packet_bytes; cbn [length]; lia).
  rewrite kfifo_in_fits
    by (unfold kfifo_avail, packet_bytes; rewrite length_app; cbn [length]; lia).
  unfold packet_bytes. cbn [p_type p_seq p_len].
  rewrite <- app_assoc. sizes. reflexivity.
Qed.

(** A chunk that is one whole message, received into an empty evaluation
    buffer that has room for it, is evaluated at once and leaves the buffer
    empty again. *)
Lemma receive_buf_one_message (tbl : list surfacegen5_ec_event_handler)
  (rx : rx_state) (msg : list Z) (rx1 : rx_state) (eff : list effect) :
  eb_len (rcv_eval_buf (rx_rcv rx)) = 0%nat ->
  (0 < length msg <= eb_cap (rcv_eval_buf (rx_rcv rx)))%nat ->
  (forall rest,
      surfacegen5_ssh_eval_buf N IMM tbl rx (msg ++ rest) (length msg)
      = (length msg, rx1, eff)) ->
  surfacegen5_ssh_receive_buf N IMM tbl rx msg
  = (length msg,
     set_eval_buf rx1
       (mk_eval_buf (eb_cap (rcv_eval_buf (rx_rcv rx))) 0
                    (store (eb_mem (rcv_eval_buf (rx_rcv rx))) 0 msg)),
     eff).
Proof.
  intros Hlen Hcap Heval.
  unfold surfacegen5_ssh_receive_buf.
  rewrite Hlen, Nat.sub_0_r, Nat.min_l by lia.
  rewrite firstn_all. cbn [Nat.add].
  set (mem1 := store (eb_mem (rcv_eval_buf (rx_rcv rx))) 0 msg).
  set (eb1 := mk_eval_buf (eb_cap (rcv_eval_buf (rx_rcv rx))) (length msg) mem1).
  assert (Hmem : mem1 = msg ++ skipn (length msg)
                                 (eb_mem (rcv_eval_buf (rx_rcv rx))))
    by reflexivity.
  assert (Hloop : eval_loop N IMM tbl (length msg) mem1 (length msg)
                    (set_eval_buf rx eb1) 0
                  = (set_eval_buf rx1 eb1, length msg, eff)).
  { pose proof (Heval (skipn (length msg) (eb_mem (rcv_eval_buf (rx_rcv rx)))))
      as He.
    rewrite <- Hmem in He. clear Hmem.
    destruct (length msg) as [|n] eqn:Hl; [lia|].
    cbn [eval_loop].
    change (0 <? S n)%nat with true. cbn iota.
    cbn [skipn]. rewrite Nat.sub_0_r.
    rewrite eval_buf_set_eval_buf, He. cbn [fst snd].
    change (S n =? 0)%nat with false. cbn iota. cbn [Nat.add].
    destruct n as [|n'].
    - cbn [eval_loop]. rewrite app_nil_r. reflexivity.
    - cbn [eval_loop]. rewrite Nat.ltb_irrefl, app_nil_r. reflexivity. }
  rewrite Hloop, Nat.sub_diag.
  unfold set_eval_buf, set_rcv. reflexivity.
Qed.

Lemma flush_ok (ec : surfacegen5_ec) (wd : world) :
  hd 0 (wd_write wd) = 0 ->
  surfacegen5_ssh_writer_flush ec wd
  = (0, mk_world (wd_kzalloc wd) (tl (wd_write wd)) (wd_inbound wd),
     [SerdevWrite (writer_bytes (ec_writer ec))]).
Proof.
  intros H. unfold surfacegen5_ssh_writer_flush.
  destruct wd as [kz [|s ws] inb]; cbn [wd_write hd tl wd_kzalloc wd_inbound] in *;
    [reflexivity | subst s; reflexivity].
Qed.

(** A wait during which the link delivers one chunk. *)
Lemma wait_one_chunk (ec : surfacegen5_ec) (wd : world) (msg : list Z)
  (more : list (list (list Z))) (n s : nat) (rx1 : rx_state)
  (eff : list effect) :
  wd_inbound wd = [msg] :: more ->
  surfacegen5_ssh_receive_buf N IMM (ec_events ec)
    (mk_rx (ec_receiver ec) (wd_kzalloc wd)) msg = (n, rx1, eff) ->
  rcv_signal (rx_rcv rx1) = S s ->
  wait_for_completion_timeout N IMM ec wd
  = (true,
     set_receiver ec
       (mk_receiver (rcv_state (rx_rcv rx1)) s (rcv_fifo (rx_rcv rx1))
                    (rcv_expect (rx_rcv rx1)) (rcv_eval_buf (rx_rcv rx1))),
     mk_world (rx_kzalloc rx1) (wd_write wd) more,
     eff).
Proof.
  intros Hin Hrb Hsig. unfold wait_for_completion_timeout.
  rewrite Hin. cbn [hd tl receive_chunks]. rewrite Hrb, app_nil_r, Hsig.
  reflexivity.
Qed.

Lemma wait_ack (ec : surfacegen5_ec) (wd : world) (seq : Z)
  (more : list (list (list Z))) :
  let rcv := ec_receiver ec in
  rcv_state rcv = SG5_RCV_CONTROL ->
  ex_seq (rcv_expect rcv) = seq ->
  (3 <= kfifo_avail (rcv_fifo rcv))%nat ->
  eb_len (rcv_eval_buf rcv) = 0%nat ->
  (SG5_MSG_LEN_CTRL <= eb_cap (rcv_eval_buf rcv))%nat ->
  wd_inbound wd = [ack_message seq] :: more ->
  wait_for_completion_timeout N IMM ec wd
  = (true,
     set_receiver ec
       (mk_receiver (if ex_pld (rcv_expect rcv)
                     then SG5_RCV_COMMAND else SG5_RCV_DISCARD)
                    (rcv_signal rcv)
                    (rcv_fifo rcv ++ [SG5_FRAME_TYPE_ACK; seq; 0])
                    (rcv_expect rcv)
                    (mk_eval_buf (eb_cap (rcv_eval_buf rcv)) 0
                                 (store (eb_mem (rcv_eval_buf rcv)) 0
                                        (ack_message seq)))),
     mk_world (wd_kzalloc wd) (wd_write wd) more,
     [Log LogValidCtrl]).
Proof.
  intros rcv Hst Hseq Hfifo Hlen Hcap Hin. subst rcv.
  pose proof (receive_buf_one_message (ec_events ec)
                (mk_rx (ec_receiver ec) (wd_kzalloc wd)) (ack_message seq)
                (mk_rx (mk_receiver
                          (if ex_pld (rcv_expect (ec_receiver ec))
                           then SG5_RCV_COMMAND else SG5_RCV_DISCARD)
                          (S (rcv_signal (ec_receiver ec)))
                          (rcv_fifo (ec_receiver ec)
                           ++ [SG5_FRAME_TYPE_ACK; seq; 0])
                          (rcv_expect (ec_receiver ec))
                          (rcv_eval_buf (ec_receiver ec)))
                       (wd_kzalloc wd))
                [Log LogValidCtrl] Hlen) as Hrb.
  match type of Hrb with
  | ?A -> ?B -> _ => assert (Hc : A); [|assert (He : B)]
  end.
  { change (length (ack_message seq)) with SG5_MSG_LEN_CTRL.
    cbn [rx_rcv]. split; [sizes; lia | exact Hcap]. }
  { intros rest. change (length (ack_message seq)) with SG5_MSG_LEN_CTRL.
    apply eval_buf_ack; try assumption. apply Nat.le_refl. }
  specialize (Hrb Hc He).
  rewrite (wait_one_chunk ec wd _ more _ (rcv_signal (ec_receiver ec)) _ _ Hin
             Hrb eq_refl).
  reflexivity.
Qed.

Lemma wait_response (ec : surfacegen5_ec) (wd : world)
  (seq tc iid rqid cid : Z) (pld : list Z) (more : list (list (list Z))) :
  let rcv := ec_receiver ec in
  0 <= rqid ->
  surfacegen5_rqid_is_event N rqid = false ->
  (length pld <= 247)%nat ->
  rcv_state rcv = SG5_RCV_COMMAND ->
  ex_rqid (rcv_expect rcv) = rqid ->
  (3 + length pld <= kfifo_avail (rcv_fifo rcv))%nat ->
  eb_len (rcv_eval_buf rcv) = 0%nat ->
  (18 + length pld <= eb_cap (rcv_eval_buf rcv))%nat ->
  wd_inbound wd = [response_message seq tc iid rqid cid pld] :: more ->
  wait_for_completion_timeout N IMM ec wd
  = (true,
     set_receiver ec
       (mk_receiver SG5_RCV_DISCARD
                    (rcv_signal rcv)
                    (rcv_fifo rcv
                     ++ [SG5_FRAME_TYPE_CMD; seq; Z.of_nat (length pld)] ++ pld)
                    (rcv_expect rcv)
                    (mk_eval_buf (eb_cap (rcv_eval_buf rcv)) 0
                                 (store (eb_mem (rcv_eval_buf rcv)) 0
                                        (response_message seq tc iid rqid cid
                                                          pld)))),
     mk_world (wd_kzalloc wd) (wd_write wd) more,
     [Log LogValidCmd]).
Proof.
  intros rcv Hid Hev Hpl Hst Hex Hfifo Hlen Hcap Hin. subst rcv.
  pose proof (receive_buf_one_message (ec_events ec)
                (mk_rx (ec_receiver ec) (wd_kzalloc wd))
                (response_message seq tc iid rqid cid pld)
                (mk_rx (mk_receiver SG5_RCV_DISCARD
                          (S (rcv_signal (ec_receiver ec)))
                          (rcv_fifo (ec_receiver ec)
                           ++ [SG5_FRAME_TYPE_CMD; seq; Z.of_nat (length pld)]
                           ++ pld)
                          (rcv_expect (ec_receiver ec))
                          (rcv_eval_buf (ec_receiver ec)))
                       (wd_kzalloc wd))
                [Log LogValidCmd] Hlen) as Hrb.
  match type of Hrb with
  | ?A -> ?B -> _ => assert (Hc : A); [|assert (He : B)]
  end.
  { rewrite response_message_length. cbn [rx_rcv]. lia. }
  { intros rest. rewrite response_message_length.
    apply eval_buf_response; try assumption. apply Nat.le_refl. }
  specialize (Hrb Hc He).
  rewrite (wait_one_chunk ec wd _ more _ (rcv_signal (ec_receiver ec)) _ _ Hin
             Hrb eq_refl).
  reflexivity.
Qed.

(** X16: A request that succeeds. The receiver is idle with room for the
    response, both writes succeed, and the peer sends, each in one chunk, the
    ACK for the sequence number of the request and then a response that
    carries the request id made from the counter. Then the call returns 0; the
    result buffer holds the payload of the response and its length; the
    request was written once and after it one ACK for the sequence number of
    the response, and nothing else; both counters are one further; and the
    receiver is idle again. *)
Theorem rqst_unlocked_success (ec : surfacegen5_ec) (rqst : surfacegen5_rqst)
  (res : surfacegen5_buf) (wd : world) (rseq tc iid cid : Z) (pld : list Z)
  (more : list (list (list Z))) :
  let seq := cnt_seq (ec_counter ec) in
  let rqid := cnt_rqid (ec_counter ec) in
  0 <= rq_cdl rqst <= 247 ->
  rq_cdl rqst <= MAX ->
  (Z.to_nat (rq_cdl rqst) <= length (rq_pld rqst))%nat ->
  rq_snc rqst <> 0 ->
  rcv_fifo (ec_receiver ec) = [] ->
  (length pld <= 247)%nat ->
  (18 + length pld <= eb_cap (rcv_eval_buf (ec_receiver ec)))%nat ->
  (length pld <= b_cap res)%nat ->
  hd 0 (wd_write wd) = 0 ->
  hd 0 (tl (wd_write wd)) = 0 ->
  wd_inbound wd
  = [ack_message seq]
    :: [response_message rseq tc iid (surfacegen5_rqid_to_rqst N rqid) cid pld]
    :: more ->
  exists ec' wd' eff,
    surfacegen5_ec_rqst_unlocked N MAX IMM ec rqst (Some res) wd
    = (0, ec',
       Some (mk_buf (b_cap res) (length pld) (store (b_data res) 0 pld)),
       wd', eff)
    /\ serdev_writes eff = [request_message N seq rqid rqst; ack_message rseq]
    /\ ec_counter ec' = mk_counters (u8 (seq + 1)) (u16 (rqid + 1))
    /\ receiver_idle (ec_receiver ec')
    /\ wd_inbound wd' = more.
Proof.
  intros seq rqid Hcdl Hmax Hpld Hsnc Hfifo Hpl Hcap Hres Hw1 Hw2 Hin.
  unfold surfacegen5_ec_rqst_unlocked.
  destruct (Z.ltb_spec MAX (rq_cdl rqst)); [lia|].
  unfold rqst_send.
  pose proof (writer_at_bytes _ _ _ (write_msg_cmd_at N ec rqst Hcdl Hpld)) as Hreq.
  fold seq rqid in Hreq.
  assert (Hec1 : surfacegen5_ssh_write_msg_cmd N ec rqst
                 = set_writer ec
                     (ec_writer (surfacegen5_ssh_write_msg_cmd N ec rqst)))
    by reflexivity.
  set (w := ec_writer (surfacegen5_ssh_write_msg_cmd N ec rqst)) in *.
  rewrite Hec1. clear Hec1.
  assert (Hs : negb (rq_snc rqst =? 0) = true).
  { destruct (Z.eqb_spec (rq_snc rqst) 0); [contradiction | reflexivity]. }
  unfold surfacegen5_ssh_receiver_restart. rewrite Hs.
  destruct ec as [lock st [cseq crqid] w0 [rst rsig rfifo rexp [cap len mem]] events].
  cbn [ec_receiver ec_counter cnt_seq cnt_rqid rcv_fifo rcv_eval_buf eb_cap
       set_writer set_receiver ec_lock ec_state ec_writer ec_events eb_mem] in *.
  subst rfifo seq rqid.
  unfold SG5_NUM_RETRY. cbn [ack_loop].
  rewrite flush_ok by exact Hw1.
  change (negb (0 =? 0)) with false. cbn iota.
  set (resp := response_message rseq tc iid
                 (surfacegen5_rqid_to_rqst N crqid) cid pld) in *.
  rewrite (wait_ack _ _ cseq ([resp] :: more));
    [ | reflexivity | reflexivity
      | proj_cbn; unfold kfifo_avail, SG5_READ_BUF_LEN; cbn [length]; lia
      | reflexivity
      | proj_cbn; sizes; lia
      | proj_cbn; exact Hin ].
  cbv beta iota zeta.
  unfold fifo_take, kfifo_out. proj_cbn. cbn [app firstn skipn].
  cbv beta iota zeta.
  unfold packet_load. cbn [nth p_type].
  change (SG5_FRAME_TYPE_ACK =? SG5_FRAME_TYPE_ACK) with true.
  cbv beta iota zeta.
  unfold set_receiver, set_writer, set_counter. proj_cbn.
  unfold rqst_response. rewrite Hs.
  rewrite (wait_response _ _ rseq tc iid (surfacegen5_rqid_to_rqst N crqid)
             cid pld more);
    [ | unfold surfacegen5_rqid_to_rqst; apply u16_is_u16
      | apply rqid_to_rqst_not_event
      | exact Hpl | reflexivity | reflexivity
      | proj_cbn; unfold kfifo_avail, SG5_READ_BUF_LEN; cbn [length]; lia
      | reflexivity
      | proj_cbn; lia
      | reflexivity ].
  cbv beta iota zeta.
  unfold fifo_take, kfifo_out. proj_cbn. cbn [app firstn skipn].
  cbv beta iota zeta.
  unfold packet_load. cbn [nth p_type p_seq p_len].
  destruct (Z.ltb_spec (Z.of_nat (b_cap res)) (Z.of_nat (length pld))); [lia|].
  proj_cbn. cbn [app firstn skipn].
  rewrite Nat2Z.id, firstn_all, skipn_all.
  unfold set_receiver, set_writer, set_counter. proj_cbn.
  rewrite flush_ok by exact Hw2.
  cbv beta iota zeta.
  rewrite (writer_at_bytes _ _ _ (write_msg_ack_at _ rseq)), Hreq.
  do 3 eexists. split; [reflexivity|].
  split; [reflexivity|].
  split; [reflexivity|].
  split; [|reflexivity].
  unfold receiver_idle. repeat apply conj; reflexivity.
Qed.

(** X17: A response that does not fit. With a peer that acknowledges and
    answers in the same way, when the payload of the response is longer than
    the capacity of the result buffer, the call returns -EINVAL and leaves the
    result buffer as it was; the request is the only thing written, so the
    response is not acknowledged; the counters have advanced all the same, and
    the payload that stayed in the fifo is dropped with the receiver idle
    again. *)
Theorem rqst_unlocked_response_too_large (ec : surfacegen5_ec) (rqst : surfacegen5_rqst)
  (res : surfacegen5_buf) (wd : world) (rseq tc iid cid : Z) (pld : list Z)
  (more : list (list (list Z))) :
  let seq := cnt_seq (ec_counter ec) in
  let rqid := cnt_rqid (ec_counter ec) in
  0 <= rq_cdl rqst <= 247 ->
  rq_cdl rqst <= MAX ->
  (Z.to_nat (rq_cdl rqst) <= length (rq_pld rqst))%nat ->
  rq_snc rqst <> 0 ->
  rcv_fifo (ec_receiver ec) = [] ->
  (length pld <= 247)%nat ->
  (18 + length pld <= eb_cap (rcv_eval_buf (ec_receiver ec)))%nat ->
  (b_cap res < length pld)%nat ->
  hd 0 (wd_write wd) = 0 ->
  wd_inbound wd
  = [ack_message seq]
    :: [response_message rseq tc iid (surfacegen5_rqid_to_rqst N rqid) cid pld]
    :: more ->
  exists ec' wd' eff,
    surfacegen5_ec_rqst_unlocked N MAX IMM ec rqst (Some res) wd
    = (- EINVAL, ec', Some res, wd', eff)
    /\ serdev_writes eff = [request_message N seq rqid rqst]
    /\ ec_counter ec' = mk_counters (u8 (seq + 1)) (u16 (rqid + 1))
    /\ receiver_idle (ec_receiver ec')
    /\ wd_inbound wd' = more.
Proof.
  intros seq rqid Hcdl Hmax Hpld Hsnc Hfifo Hpl Hcap Hres Hw1 Hin.
  unfold surfacegen5_ec_rqst_unlocked.
  destruct (Z.ltb_spec MAX (rq_cdl rqst)); [lia|].
  unfold rqst_send.
  pose proof (writer_at_bytes _ _ _ (write_msg_cmd_at N ec rqst Hcdl Hpld)) as Hreq.
  fold seq rqid in Hreq.
  assert (Hec1 : surfacegen5_ssh_write_msg_cmd N ec rqst
                 = set_writer ec
                     (ec_writer (surfacegen5_ssh_write_msg_cmd N ec rqst)))
    by reflexivity.
  set (w := ec_writer (surfacegen5_ssh_write_msg_cmd N ec rqst)) in *.
  rewrite Hec1. clear Hec1.
  assert (Hs : negb (rq_snc rqst =? 0) = true).
  { destruct (Z.eqb_spec (rq_snc rqst) 0); [contradiction | reflexivity]. }
  unfold surfacegen5_ssh_receiver_restart. rewrite Hs.
  destruct ec as [lock st [cseq crqid] w0 [rst rsig rfifo rexp [cap len mem]] events].
  cbn [ec_receiver ec_counter cnt_seq cnt_rqid rcv_fifo rcv_eval_buf eb_cap
       set_writer set_receiver ec_lock ec_state ec_writer ec_events eb_mem] in *.
  subst rfifo seq rqid.
  unfold SG5_NUM_RETRY. cbn [ack_loop].
  rewrite flush_ok by exact Hw1.
  change (negb (0 =? 0)) with false. cbn iota.
  set (resp := response_message rseq tc iid
                 (surfacegen5_rqid_to_rqst N crqid) cid pld) in *.
  rewrite (wait_ack _ _ cseq ([resp] :: more));
    [ | reflexivity | reflexivity
      | proj_cbn; unfold kfifo_avail, SG5_READ_BUF_LEN; cbn [length]; lia
      | reflexivity
      | proj_cbn; sizes; lia
      | proj_cbn; exact Hin ].
  cbv beta iota zeta.
  unfold fifo_take, kfifo_out. proj_cbn. cbn [app firstn skipn].
  cbv beta iota zeta.
  unfold packet_load. cbn [nth p_type].
  change (SG5_FRAME_TYPE_ACK =? SG5_FRAME_TYPE_ACK) with true.
  cbv beta iota zeta.
  unfold set_receiver, set_writer, set_counter. proj_cbn.
  unfold rqst_response. rewrite Hs.
  rewrite (wait_response _ _ rseq tc iid (surfacegen5_rqid_to_rqst N crqid)
             cid pld more);
    [ | unfold surfacegen5_rqid_to_rqst; apply u16_is_u16
      | apply rqid_to_rqst_not_event
      | exact Hpl | reflexivity | reflexivity
      | proj_cbn; unfold kfifo_avail, SG5_READ_BUF_LEN; cbn [length]; lia
      | reflexivity
      | proj_cbn; lia
      | reflexivity ].
  cbv beta iota zeta.
  unfold fifo_take, kfifo_out. proj_cbn. cbn [app firstn skipn].
  cbv beta iota zeta.
  unfold packet_load. cbn [nth p_type p_seq p_len].
  destruct (Z.ltb_spec (Z.of_nat (b_cap res)) (Z.of_nat (length pld))); [|lia].
  proj_cbn. rewrite Hreq.
  do 3 eexists. split; [reflexivity|].
  split; [reflexivity|].
  split; [reflexivity|].
  split; [|reflexivity].
  unfold receiver_idle. repeat apply conj; reflexivity.
Qed.


End SuccessFacts.

Lemma rqst_unlocked_success_witness :
  exists ec' wd' eff,
    surfacegen5_ec_rqst_unlocked 5 94 example_immediate
      (example_ec SG5_EC_INITIALIZED) example_rqst (Some example_result)
      example_peer
    = (0, ec', Some (mk_buf 1 1 [0x00]), wd', eff)
    /\ serdev_writes eff = [request_message 5 0 2 example_rqst; ack_message 0]
    /\ ec_counter ec' = mk_counters 1 3
    /\ receiver_idle (ec_receiver ec')
    /\ wd_inbound wd' = [].
Proof.
  exact (rqst_unlocked_success 5 94 example_immediate ltac:(lia)
           (example_ec SG5_EC_INITIALIZED) example_rqst example_result
           example_peer 0 0x01 0x00 0x16 [0x00] []
           ltac:(cbn; lia) ltac:(cbn; lia) ltac:(cbn; lia) ltac:(discriminate)
           eq_refl ltac:(cbn; lia) ltac:(cbn; lia) ltac:(cbn; lia)
           eq_refl eq_refl eq_refl).
Defined.

Lemma rqst_unlocked_response_too_large_witness :
  exists ec' wd' eff,
    surfacegen5_ec_rqst_unlocked 5 94 example_immediate
      (example_ec SG5_EC_INITIALIZED) example_rqst (Some example_result_empty)
      example_peer
    = (- EINVAL, ec', Some example_result_empty, wd', eff)
    /\ serdev_writes eff = [request_message 5 0 2 example_rqst]
    /\ ec_counter ec' = mk_counters 1 3
    /\ receiver_idle (ec_receiver ec')
    /\ wd_inbound wd' = [].
Proof.
  exact (rqst_unlocked_response_too_large 5 94 example_immediate ltac:(lia)
           (example_ec SG5_EC_INITIALIZED) example_rqst example_result_empty
           example_peer 0 0x01 0x00 0x16 [0x00] []
           ltac:(cbn; lia) ltac:(cbn; lia) ltac:(cbn; lia) ltac:(discriminate)
           eq_refl ltac:(cbn; lia) ltac:(cbn; lia) ltac:(cbn; lia)
           eq_refl eq_refl).
Defined.

(** ** Event sources *)

Section EventSourceFacts.

Variable N : Z.
Variable MAX : Z.
Variable IMM : Z.

Lemma ack_loop_first_write (tries : nat) (packet : surfacegen5_fifo_packet)
  (ec : surfacegen5_ec) (wd : world) :
  exists rest,
    snd (ack_loop N IMM (S tries) packet ec wd)
    = SerdevWrite (writer_bytes (ec_writer ec)) :: rest.
Proof.
  cbn [ack_loop].
  pose proof (flush_effect ec wd) as Hf.
  destruct (surfacegen5_ssh_writer_flush ec wd) as [[status wd1] eff1].
  cbn [snd] in Hf. subst eff1.
  destruct (negb (status =? 0)); [eexists; reflexivity|].
  destruct (wait_for_completion_timeout N IMM ec wd1) as [[[rem ec1] wd2] eff2].
  destruct rem.
  - destruct (fifo_take ec1 3) as [bs ec2].
    destruct (p_type (packet_load packet bs) =? SG5_FRAME_TYPE_ACK);
      [eexists; reflexivity|].
    destruct (ack_loop N IMM tries (packet_load packet bs) ec2 wd2)
      as [[[[ex p'] ec3] wd3] eff3].
    eexists; reflexivity.
  - destruct (ack_loop N IMM tries packet ec1 wd2) as [[[[ex p'] ec3] wd3] eff3].
    eexists; reflexivity.
Qed.

Lemma rqst_unlocked_first_write (ec : surfacegen5_ec) (rqst : surfacegen5_rqst)
  (result : option surfacegen5_buf) (wd : world) :
  0 <= rq_cdl rqst <= 247 ->
  rq_cdl rqst <= MAX ->
  (Z.to_nat (rq_cdl rqst) <= length (rq_pld rqst))%nat ->
  exists rest,
    snd (surfacegen5_ec_rqst_unlocked N MAX IMM ec rqst result wd)
    = SerdevWrite (request_message N (cnt_seq (ec_counter ec))
                                   (cnt_rqid (ec_counter ec)) rqst) :: rest.
Proof.
  intros Hcdl Hmax Hpld. unfold surfacegen5_ec_rqst_unlocked.
  destruct (Z.ltb_spec MAX (rq_cdl rqst)); [lia|].
  unfold rqst_send, SG5_NUM_RETRY.
  match goal with
  | |- context [ack_loop N IMM (S ?t) ?p ?e ?w] =>
      destruct (ack_loop_first_write t p e w) as [rest Hrest];
      assert (Hw : writer_bytes (ec_writer e)
                   = request_message N (cnt_seq (ec_counter ec))
                                     (cnt_rqid (ec_counter ec)) rqst)
        by exact (writer_at_bytes _ _ _ (write_msg_cmd_at N ec rqst Hcdl Hpld));
      rewrite Hw in Hrest;
      destruct (ack_loop N IMM (S t) p e w) as [[[[ex p'] ec3] wd1] eff1]
  end.
  cbn [snd] in Hrest. subst eff1.
  destruct ex as [|status|].
  - match goal with
    | |- context [rqst_response N IMM ?e ?r ?res ?p ?w] =>
        destruct (rqst_response N IMM e r res p w) as [[[[st ec5] res1] wd2] eff2]
    end.
    eexists; reflexivity.
  - eexists; reflexivity.
  - eexists; reflexivity.
Qed.

(** X18: Enabling and disabling an event source. A request id outside the
    event range is refused with -EINVAL before the controller is looked at; an
    uninitialized controller gives -ENXIO and a suspended one -EPERM, with a
    warning and nothing else. On an initialized controller the first thing
    written to the serial device is the request 0x01/[cid] with the four
    payload bytes [tc], [unknown] and the request id, low byte first; the
    mutex is released again, and controller state and handler table are as
    before. *)
Theorem event_source_request_spec (cid : Z) (ec : surfacegen5_ec)
  (tc unknown rqid : Z) (wd : world) :
  ec_lock ec = false ->
  is_u16 rqid ->
  let r := event_source_request N MAX IMM cid ec tc unknown rqid wd in
  (surfacegen5_rqid_is_event N rqid = false -> r = (- EINVAL, ec, wd, []))
  /\ (surfacegen5_rqid_is_event N rqid = true ->
      (ec_state ec = SG5_EC_UNINITIALIZED ->
       r = (- ENXIO, ec, wd, [Core (Log LogUninitialized)]))
      /\ (ec_state ec = SG5_EC_SUSPENDED ->
          r = (- EPERM, ec, wd, [Core (Log LogSuspended)]))
      /\ (ec_state ec = SG5_EC_INITIALIZED ->
          4 <= MAX ->
          (exists rest,
              snd r
              = Core (SerdevWrite
                        (request_message N (cnt_seq (ec_counter ec))
                           (cnt_rqid (ec_counter ec))
                           (mk_rqst 0x01 0x00 cid 0x01 0x04
                              [tc; unknown; rqid mod 256; rqid / 256])))
                :: rest)
          /\ facade_kept ec (snd (fst (fst r))))).
Proof.
  intros Hlock Hu r. subst r. unfold event_source_request.
  split; [intros ->; reflexivity|].
  intros ->. cbn [negb].
  destruct ec as [lock state counter writer receiver events].
  cbn [ec_lock ec_state] in *. subst lock.
  split; [intros ->; reflexivity|].
  split; [intros ->; reflexivity|].
  intros -> Hmax.
  unfold surfacegen5_ec_acquire_init, surfacegen5_ec_acquire.
  cbn [set_lock ec_state ec_lock ec_counter ec_writer ec_receiver ec_events].
  assert (Hrq : event_source_rqst cid tc unknown rqid
                = mk_rqst 0x01 0x00 cid 0x01 0x04
                          [tc; unknown; rqid mod 256; rqid / 256]).
  { unfold event_source_rqst. destruct Hu as [Hu0 Hu1].
    change 255 with (Z.ones 8). rewrite Z.land_ones by lia.
    rewrite Z.shiftr_div_pow2 by lia. unfold u8.
    change (2 ^ 8) with 256.
    rewrite (Z.mod_small (rqid / 256)); [reflexivity|].
    split; [apply Z.div_pos; lia | apply Z.div_lt_upper_bound; lia]. }
  rewrite Hrq.
  match goal with
  | |- context [surfacegen5_ec_rqst_unlocked N MAX IMM ?e ?q ?res ?w] =>
      destruct (rqst_unlocked_first_write e q res w) as [rest Hrest];
      [cbn [rq_cdl]; lia | exact Hmax | cbn [rq_cdl rq_pld length]; lia |];
      destruct (rqst_unlocked_kept N MAX IMM e q res w) as [(Hl & Hs & He) _];
      destruct (surfacegen5_ec_rqst_unlocked N MAX IMM e q res w)
        as [[[[st ec2] res1] wd1] eff]
  end.
  cbn [fst snd ec_counter ec_lock ec_state ec_events] in *. subst eff.
  split.
  - eexists. cbn [map app]. reflexivity.
  - unfold facade_kept, surfacegen5_ec_release.
    cbn [set_lock ec_lock ec_state ec_events].
    split; [reflexivity|]. split; assumption.
Qed.

End EventSourceFacts.

Lemma event_source_request_spec_witness :
  exists rest,
    snd (surfacegen5_ec_enable_event_source 5 94 example_immediate
           (example_ec SG5_EC_INITIALIZED) 0x01 0x01 0x1f example_peer)
    = Core (SerdevWrite
              (request_message 5 0 2
                 (mk_rqst 0x01 0x00 0x0b 0x01 0x04 [0x01; 0x01; 0x1f; 0x00])))
      :: rest.
Proof.
  destruct (event_source_request_spec 5 94 example_immediate 0x0b
              (example_ec SG5_EC_INITIALIZED) 0x01 0x01 0x1f example_peer
              eq_refl ltac:(unfold is_u16; lia)) as [_ H].
  destruct (H eq_refl) as (_ & _ & H3).
  destruct (H3 eq_refl ltac:(lia)) as [Hw _].
  exact Hw.
Defined.

(** ** Events, handlers and the power state *)

Section EventCompositionFacts.

Variable N : Z.
Variable MAX : Z.
Variable IMM : Z.
Hypothesis HN : 0 <= N <= 16.

Lemma removed_slot (ec : surfacegen5_ec) (rqid : Z) :
  ec_lock ec = false ->
  is_u16 rqid ->
  length (ec_events ec) = Z.to_nat (SG5_NUM_EVENT_TYPES N) ->
  surfacegen5_rqid_is_event N rqid = true ->
  ec_state ec <> SG5_EC_UNINITIALIZED ->
  handler_slot
    (ec_events (snd (fst (surfacegen5_ec_remove_event_handler N ec rqid)))) rqid
  = no_handler.
Proof.
  intros Hlock Hu Hlen Hev Hst.
  unfold surfacegen5_ec_remove_event_handler, surfacegen5_ec_acquire_init,
    surfacegen5_ec_acquire, surfacegen5_ec_release.
  destruct ec as [lock state counter writer receiver events].
  cbn [ec_lock ec_state ec_events set_lock set_events] in *. subst lock.
  rewrite Hev. cbn [negb].
  destruct state; [contradiction| |];
    cbn [fst snd ec_events set_events set_lock ec_lock ec_state ec_counter
         ec_writer ec_receiver];
    unfold handler_slot; apply nth_array_set_same;
    rewrite Hlen; apply (event_slot_index N HN); assumption.
Qed.

(** X19: Removal and dispatch together: once the handler of an event id has
    been removed, an event message with that id is still acknowledged, its
    handler work is queued without delay, and running that work calls no
    handler: it only warns about the unhandled event. *)
Theorem removed_handler_is_not_called (ec : surfacegen5_ec) (rqid : Z)
  (rx : rx_state) (buf : list Z) :
  ec_lock ec = false ->
  is_u16 rqid ->
  length (ec_events ec) = Z.to_nat (SG5_NUM_EVENT_TYPES N) ->
  surfacegen5_rqid_is_event N rqid = true ->
  ec_state ec <> SG5_EC_UNINITIALIZED ->
  cmd_rqid buf = rqid ->
  fst (kzalloc rx) = true ->
  IMM <> 0 ->
  let tbl := ec_events (snd (fst (surfacegen5_ec_remove_event_handler N ec rqid))) in
  let ev := event_of buf in
  snd (surfacegen5_ssh_handle_event IMM tbl rx buf)
  = [QueueWorkAck (ctrl_seq buf) ev; QueueDelayedWorkEvt ev 0]
  /\ surfacegen5_event_work_evt_handler tbl ev = [Log LogUnhandledEvent].
Proof.
  intros Hlock Hu Hlen Hev Hst Hid Hk Himm tbl ev.
  pose proof (removed_slot ec rqid Hlock Hu Hlen Hev Hst) as Hslot.
  fold tbl in Hslot.
  split.
  - unfold surfacegen5_ssh_handle_event.
    destruct (kzalloc rx) as [ok rx1]. cbn [fst] in Hk. subst ok. cbn [snd].
    fold (event_of buf). fold ev.
    replace (ev_rqid ev) with rqid by (symmetry; exact Hid).
    rewrite Hslot. cbn [h_delay no_handler].
    destruct (Z.eqb_spec 0 IMM) as [E|_]; [symmetry in E; contradiction|].
    reflexivity.
  - unfold surfacegen5_event_work_evt_handler.
    replace (ev_rqid ev) with rqid by (symmetry; exact Hid).
    rewrite Hslot. reflexivity.
Qed.

Lemma ssh_suspend_state (ec : surfacegen5_ec) (wd : world) :
  ec_state ec <> SG5_EC_UNINITIALIZED ->
  ec_state (snd (fst (fst (surfacegen5_ssh_suspend N MAX IMM ec wd))))
  = SG5_EC_SUSPENDED.
Proof.
  intros Hst. unfold surfacegen5_ssh_suspend, surfacegen5_ec_acquire_init.
  assert (Hacq : ec_state (surfacegen5_ec_acquire ec) = ec_state ec)
    by reflexivity.
  rewrite Hacq.
  destruct (ec_state ec); [contradiction| |];
    destruct (surfacegen5_ssh_ec_suspend N MAX IMM (surfacegen5_ec_acquire ec) wd)
      as [[[status ec2] wd1] eff]; reflexivity.
Qed.

Lemma ssh_resume_state (ec : surfacegen5_ec) (wd : world) :
  ec_state ec <> SG5_EC_UNINITIALIZED ->
  ec_state (snd (fst (fst (surfacegen5_ssh_resume N MAX IMM ec wd))))
  = SG5_EC_INITIALIZED.
Proof.
  intros Hst. unfold surfacegen5_ssh_resume, surfacegen5_ec_acquire_init.
  assert (Hacq : ec_state (surfacegen5_ec_acquire ec) = ec_state ec)
    by reflexivity.
  rewrite Hacq.
  pose proof (ec_power_request_kept N MAX IMM 0x16
                (set_state (surfacegen5_ec_acquire ec) SG5_EC_INITIALIZED) wd)
    as Hk.
  unfold surfacegen5_ssh_ec_resume.
  destruct (ec_state ec); [contradiction| |];
    destruct (ec_power_request N MAX IMM 0x16
                (set_state (surfacegen5_ec_acquire ec) SG5_EC_INITIALIZED) wd)
      as [[[status ec2] wd1] eff];
    cbn [fst snd] in *; destruct Hk as (_ & Hs & _); exact Hs.
Qed.

(** X20: Events and the power state: the ACK work of an event that runs after
    the suspend callback writes nothing to the serial device, so an event that
    arrives while the controller is suspended is never acknowledged; after the
    resume callback the ACK work writes the ACK for the sequence number of the
    event, and that is its only write. *)
Theorem event_ack_follows_power_state (ec : surfacegen5_ec) (wd : world)
  (seq status : Z) :
  ec_state ec <> SG5_EC_UNINITIALIZED ->
  let suspended := snd (fst (fst (surfacegen5_ssh_suspend N MAX IMM ec wd))) in
  let resumed := snd (fst (fst (surfacegen5_ssh_resume N MAX IMM ec wd))) in
  surfacegen5_event_work_ack_handler (ec_state suspended) seq status = []
  /\ serdev_writes
       (surfacegen5_event_work_ack_handler (ec_state resumed) seq status)
     = [ack_message seq].
Proof.
  intros Hst suspended resumed. subst suspended resumed.
  rewrite (ssh_suspend_state ec wd Hst), (ssh_resume_state ec wd Hst).
  split; [reflexivity|].
  unfold surfacegen5_event_work_ack_handler, surfacegen5_ssh_send_ack.
  destruct (status =? 0); reflexivity.
Qed.

End EventCompositionFacts.

Lemma removed_handler_is_not_called_witness :
  snd (surfacegen5_ssh_handle_event example_immediate
         (ec_events (snd (fst (surfacegen5_ec_remove_event_handler 5
                                 (snd (surfacegen5_ec_set_event_handler 5
                                         example_ec_slots 0x01
                                         (Some example_handler))) 0x01))))
         (example_rx SG5_RCV_DISCARD (mk_expect false 0 0)) example_event)
  = [QueueWorkAck 0x05 (event_of example_event);
     QueueDelayedWorkEvt (event_of example_event) 0].
Proof.
  exact (proj1 (removed_handler_is_not_called 5 example_immediate ltac:(lia)
                  (snd (surfacegen5_ec_set_event_handler 5 example_ec_slots 0x01
                          (Some example_handler))) 0x01
                  (example_rx SG5_RCV_DISCARD (mk_expect false 0 0)) example_event
                  eq_refl ltac:(unfold is_u16; lia) eq_refl eq_refl
                  ltac:(discriminate) eq_refl eq_refl ltac:(discriminate))).
Defined.

Lemma event_ack_follows_power_state_witness :
  surfacegen5_event_work_ack_handler
    (ec_state (snd (fst (fst (surfacegen5_ssh_suspend 5 94 example_immediate
                                (example_ec SG5_EC_INITIALIZED)
                                example_peer_silent))))) 0x05 0
  = [].
Proof.
  exact (proj1 (event_ack_follows_power_state 5 94 example_immediate
                  (example_ec SG5_EC_INITIALIZED) example_peer_silent 0x05 0
                  ltac:(discriminate))).
Defined.
